(** * MOSAIC: the multi-platform extractor of [modules/Collecte.py]

    A shallow embedding of the extraction clients and of the orchestrator,
    and the properties of the specification proved (or refuted) on it.

    Conventions of the embedding.
    - Python values that come from JSON (API payloads, the documents that
      are saved) are values of [json]; a Python [dict] is an association
      list in insertion order.  Numbers are integers; strings are byte
      strings (ASCII text is what the code inspects).
    - A method of an extractor is a computation in the monad [M]: it reads
      and extends a [World] (requests sent, files written, the trace of UI
      calls and pauses, the number of clock and keyboard reads) and ends
      with a value, with a Python exception, or without an answer when a
      loop is cut ([Diverge]); the theorems show the cut is never reached.
    - Everything outside the program is an [Env]: the HTTP servers, the
      clock, the keyboard, the Telegram client library with its login, the
      file system (opening a file to write, moving it), the configuration
      file.  The keyboard always has a next line: the end of the input is
      not among the answers.  [requests.get], [raise_for_status] and
      [response.json] stand in one [try] of the source everywhere and are
      one step here: the reply fails (a [RequestException]) or carries a
      body.
    - The UI object is a sink: a call is recorded in the trace with its
      kind and its text template.  Formatting done on payload values
      before the call is kept where it can raise. *)

From Stdlib Require Import ZArith Ascii String.
From stdpp Require Import base strings list gmap.

#[local] Set Warnings "-register-all".

Local Open Scope Z_scope.
Local Open Scope nat_scope.

(** ** Python values *)

Inductive json : Type :=
| JNull
| JBool (b : bool)
| JInt (z : Z)
| JStr (s : string)
| JArr (l : list json)
| JObj (kv : list (string * json)).

(** The exception classes the source names in its [except] clauses, and the
    ones its operations raise on ill-shaped data.  All are subclasses of
    [Exception]. *)
Inductive exn : Type :=
| RequestException
| ValueError
| KeyError
| IndexError
| TypeError
| AttributeError
| ParseError
| UsernameNotOccupiedError
| OSError.

(** The result of an operation: a value or an exception. *)
Inductive val (A : Type) : Type :=
| Val (a : A)
| Err (e : exn).
Arguments Val {A} a.
Arguments Err {A} e.

(** The outcome of a method: a value, an exception, or no answer. *)
Inductive res (A : Type) : Type :=
| Ok (a : A)
| Raise (e : exn)
| Diverge.
Arguments Ok {A} a.
Arguments Raise {A} e.
Arguments Diverge {A}.

(** ** Strings, the way Python's [str] methods treat them *)

Definition ascii_eqb (a b : ascii) : bool := Ascii.eqb a b.

(** [str.isspace] on the ASCII range. *)
Definition is_space (c : ascii) : bool :=
  let n := nat_of_ascii c in
  ((9 <=? n) && (n <=? 13)) || ((28 <=? n) && (n <=? 32)).

Definition is_digit (c : ascii) : bool :=
  let n := nat_of_ascii c in (48 <=? n) && (n <=? 57).

Fixpoint lstrip (s : string) : string :=
  match s with
  | String c r => if is_space c then lstrip r else s
  | EmptyString => EmptyString
  end.

Fixpoint rstrip (s : string) : string :=
  match s with
  | String c r =>
      match rstrip r with
      | EmptyString => if is_space c then EmptyString else String c EmptyString
      | r' => String c r'
      end
  | EmptyString => EmptyString
  end.

(** [s.strip()], of the white space of the ASCII range. *)
Definition strip (s : string) : string := rstrip (lstrip s).

(** [s.split(sep)] for a one-character separator: never the empty list. *)
Fixpoint split (sep : ascii) (s : string) : list string :=
  match s with
  | EmptyString => [EmptyString]
  | String c r =>
      if ascii_eqb c sep then EmptyString :: split sep r
      else match split sep r with
           | h :: t => String c h :: t
           | [] => [String c EmptyString]
           end
  end.

(** [c in s] for a character. *)
Fixpoint has_char (c : ascii) (s : string) : bool :=
  match s with
  | EmptyString => false
  | String d r => ascii_eqb d c || has_char c r
  end.

(** [s.replace(c, '')] for a character. *)
Fixpoint remove_char (c : ascii) (s : string) : string :=
  match s with
  | EmptyString => EmptyString
  | String d r => if ascii_eqb d c then remove_char c r else String d (remove_char c r)
  end.

Fixpoint starts_with (p s : string) : bool :=
  match p, s with
  | EmptyString, _ => true
  | String a p', String b s' => ascii_eqb a b && starts_with p' s'
  | String _ _, EmptyString => false
  end.

(** [p in s] for strings. *)
Fixpoint is_infix (p s : string) : bool :=
  starts_with p s ||
  match s with
  | EmptyString => false
  | String _ r => is_infix p r
  end.

Fixpoint drop_last (s : string) : string :=
  match s with
  | EmptyString => EmptyString
  | String c EmptyString => EmptyString
  | String c r => String c (drop_last r)
  end.

(** [s[1:-1]] *)
Definition slice_1_m1 (s : string) : string :=
  match s with
  | EmptyString => EmptyString
  | String _ r => drop_last r
  end.

Fixpoint skipn_str (n : nat) (s : string) : string :=
  match n, s with
  | O, _ => s
  | S n', String _ r => skipn_str n' r
  | S _, EmptyString => EmptyString
  end.

(** [s.replace(old, new)] for a non-empty [old]; the recursion is on a
    bound that the length of [s] always meets. *)
Fixpoint replace_fuel (fuel : nat) (old new s : string) : string :=
  match fuel with
  | O => s
  | S f =>
      match s with
      | EmptyString => EmptyString
      | String c r =>
          if starts_with old s
          then new +:+ replace_fuel f old new (skipn_str (String.length old) s)
          else String c (replace_fuel f old new r)
      end
  end.

Definition replace (old new s : string) : string :=
  replace_fuel (String.length s) old new s.

(** Decimal digits with a fixed width, [%02d] and the like. *)
Definition digit (n : Z) : ascii := ascii_of_nat (48 + Z.to_nat (n mod 10)).

Definition pad2 (n : Z) : string :=
  String (digit (n / 10)) (String (digit n) EmptyString).

Definition pad4 (n : Z) : string := pad2 (n / 100) +:+ pad2 (n mod 100).

Definition pad6 (n : Z) : string := pad2 (n / 10000) +:+ pad4 (n mod 10000).

(** [int(s)] on a string: surrounding white space, one optional sign,
    decimal digits with single underscores between them.  [None] is
    [ValueError].  (Decimal digits outside ASCII are not covered.) *)
Definition digit_val (c : ascii) : Z := Z.of_nat (nat_of_ascii c - 48).

Fixpoint int_digits (acc : Z) (after_digit : bool) (s : string) : option Z :=
  match s with
  | EmptyString => if after_digit then Some acc else None
  | String c r =>
      if is_digit c then int_digits (10 * acc + digit_val c)%Z true r
      else if ascii_eqb c "_"%char
           then (if after_digit then
                   match r with
                   | String d _ => if is_digit d then int_digits acc false r else None
                   | EmptyString => None
                   end
                 else None)
           else None
  end.

Definition int_of_string (s : string) : option Z :=
  match strip s with
  | String "-" r => Z.opp <$> int_digits 0 false r
  | String "+" r => int_digits 0 false r
  | t => int_digits 0 false t
  end.

(** ** Operations of Python on values *)

Definition truthy (v : json) : bool :=
  match v with
  | JNull => false
  | JBool b => b
  | JInt z => negb (z =? 0)%Z
  | JStr s => negb (String.eqb s "")
  | JArr l => match l with [] => false | _ => true end
  | JObj kv => match kv with [] => false | _ => true end
  end.

Fixpoint assoc (k : string) (kv : list (string * json)) : option json :=
  match kv with
  | [] => None
  | (k', v) :: r => if String.eqb k' k then Some v else assoc k r
  end.

(** [d.get(k, dflt)] *)
Definition py_get (d : json) (k : string) (dflt : json) : val json :=
  match d with
  | JObj kv => Val (default dflt (assoc k kv))
  | _ => Err AttributeError
  end.

(** [d[k]] for a string key. *)
Definition py_item (d : json) (k : string) : val json :=
  match d with
  | JObj kv => match assoc k kv with Some v => Val v | None => Err KeyError end
  | _ => Err TypeError
  end.

Definition chars (s : string) : list json :=
  (fun c => JStr (String c EmptyString)) <$> list_ascii_of_string s.

(** [l[i]] for an index [i >= 0]. *)
Definition py_index (l : json) (i : nat) : val json :=
  match l with
  | JArr xs => match xs !! i with Some v => Val v | None => Err IndexError end
  | JStr s => match chars s !! i with Some v => Val v | None => Err IndexError end
  | JObj _ => Err KeyError
  | _ => Err TypeError
  end.

(** [for x in v]: the elements the loop visits. *)
Definition py_iter (v : json) : val (list json) :=
  match v with
  | JArr xs => Val xs
  | JObj kv => Val ((fun p => JStr (fst p)) <$> kv)
  | JStr s => Val (chars s)
  | _ => Err TypeError
  end.

(** [len(v)] *)
Definition py_len (v : json) : val nat :=
  match v with
  | JArr xs => Val (length xs)
  | JObj kv => Val (length kv)
  | JStr s => Val (String.length s)
  | _ => Err TypeError
  end.

(** [v[:n]] *)
Definition py_prefix (n : nat) (v : json) : val json :=
  match v with
  | JArr xs => Val (JArr (take n xs))
  | JStr s => Val (JStr (String.substring 0 n s))
  | _ => Err TypeError
  end.

Definition is_str (v : json) : bool :=
  match v with JStr _ => true | _ => false end.

Definition is_key (k : string) (v : json) : bool :=
  match v with JStr s => String.eqb s k | _ => false end.

(** [k in v] for a string [k]. *)
Definition py_in (k : string) (v : json) : val bool :=
  match v with
  | JObj kv => Val (bool_decide (is_Some (assoc k kv)))
  | JArr xs => Val (existsb (is_key k) xs)
  | JStr s => Val (is_infix k s)
  | _ => Err TypeError
  end.

(** [f"{v:,}"]: only whether it raises matters to the control flow. *)
Definition fmt_thousands (v : json) : val unit :=
  match v with
  | JInt _ | JBool _ => Val tt
  | JStr _ => Err ValueError
  | _ => Err TypeError
  end.

(** [int(v)] *)
Definition py_int (v : json) : val Z :=
  match v with
  | JInt z => Val z
  | JBool b => Val (if b then 1 else 0)%Z
  | JStr s => match int_of_string s with Some z => Val z | None => Err ValueError end
  | _ => Err TypeError
  end.

(** [', '.join(names)] raises on a name that is not a string. *)
Definition py_join_check (names : list json) : val unit :=
  if forallb is_str names then Val tt else Err TypeError.

(** ** Date and time *)

Record datetime : Type := {
  year : Z; month : Z; day : Z;
  hour : Z; minute : Z; second : Z; microsecond : Z }.

(** The values [datetime.now()] can return on a clock after year 999. *)
Definition wf_datetime (d : datetime) : Prop :=
  (1000 <= year d <= 9999 /\ 1 <= month d <= 12 /\ 1 <= day d <= 31 /\
   0 <= hour d <= 23 /\ 0 <= minute d <= 59 /\ 0 <= second d <= 59 /\
   0 <= microsecond d <= 999999)%Z.

(** [d.strftime('%Y%m%d_%H%M%S')] *)
Definition strftime_file (d : datetime) : string :=
  pad4 (year d) +:+ pad2 (month d) +:+ pad2 (day d) +:+ "_" +:+
  pad2 (hour d) +:+ pad2 (minute d) +:+ pad2 (second d).

(** [d.isoformat()] *)
Definition isoformat (d : datetime) : string :=
  pad4 (year d) +:+ "-" +:+ pad2 (month d) +:+ "-" +:+ pad2 (day d) +:+ "T" +:+
  pad2 (hour d) +:+ ":" +:+ pad2 (minute d) +:+ ":" +:+ pad2 (second d) +:+
  (if (microsecond d =? 0)%Z then "" else "." +:+ pad6 (microsecond d)).

(** ** The world a run acts on, and the environment it runs in *)

Inductive ui_kind : Type :=
| UiHeader | UiSection | UiSubsection | UiSuccess | UiError | UiWarning
| UiInfo | UiStep | UiMuted | UiSpinner | UiKeyValue | UiMetric | UiStatRow
| UiProgress | UiListItem | UiSeparator | UiSpace.

Inductive event : Type :=
| Ui (k : ui_kind) (text : string)
| Sleep (ms : nat)
| Moved (src dst : string)
| TgConnected
| TgDisconnected.

Record request : Type := {
  url : string;
  headers : list (string * string);
  params : list (string * json) }.

Record response : Type := { body : json; link_header : string; text : string }.

Inductive reply : Type :=
| Failed
| Replied (r : response).

(** An entry of the orchestrator's [self.results]. *)
Record entry : Type := {
  e_username : string; e_success : bool; e_filename : option string }.

Record World : Type := {
  requests : list request;
  files : list (string * json);
  trace : list event;
  now_calls : nat;
  inputs : nat;
  results : gmap string entry }.

Definition empty_world : World :=
  {| requests := []; files := []; trace := []; now_calls := 0; inputs := 0;
     results := ∅ |}.

(** An [<item>] of an RSS feed: the text of its [title], [link] and
    [pubDate] children where they exist, and of each [category]. *)
Record rss_item : Type := {
  rss_title : option json; rss_link : option json; rss_date : option json;
  rss_tags : list json }.

(** What the Telegram client library hands back. *)
Record tg_entity : Type := {
  ent_id : Z; ent_username : option string; ent_title : option string;
  ent_first_name : option string; ent_is_channel : bool;
  ent_broadcast : bool; ent_megagroup : bool; ent_participants : option Z }.

Record tg_message : Type := {
  msg_id : Z; msg_date : option datetime; msg_text : option string;
  msg_views : option Z; msg_forwards : option Z; msg_media : bool }.

(** A section of the configuration, as [self.config.get(name, {})] finds
    it: no such key, a mapping with its keys, or a value that is no mapping
    (null for a section left empty, a list, a scalar), on which [.get]
    raises.  A configuration file whose top level is no mapping leaves
    every section in the last case. *)
Inductive section (A : Type) : Type :=
| Absent
| Mapping (keys : A)
| NotMapping.
Arguments Absent {A}.
Arguments Mapping {A} keys.
Arguments NotMapping {A}.

(** The keys of the [telegram] section. *)
Record telegram_keys : Type := {
  telegram_api_id : option Z;
  telegram_api_hash : option string;
  telegram_phone : option string;
  telegram_session_name : option string }.

(** What [_load_config] returns, section by section; the value of a key is
    a string (an integer for [api_id]), and [None] where the key is absent.
    A key that is null counts as absent where the code reads it without a
    default; the keys read with a default ([instance], [session_name]) are
    strings or absent.  The sections with one key hold its value. *)
Record Config : Type := {
  github_section : section (option string);
  stackoverflow_section : section (option string);
  youtube_section : section (option string);
  mastodon_section : section (option string);
  telegram_section : section telegram_keys }.

Record Env : Type := {
  (** the reply to the [n]-th request of the process *)
  http : nat -> request -> reply;
  (** the [n]-th reading of [datetime.now()] *)
  clock : nat -> datetime;
  (** the [n]-th line typed at [input()] *)
  stdin : nat -> string;
  (** [str(v)] as an f-string renders a payload value *)
  py_str : json -> string;
  (** [datetime.fromtimestamp(v).strftime(fmt)] in the local time zone *)
  local_strftime : string -> json -> val string;
  (** [html.unescape] *)
  unescape : string -> string;
  (** [ET.fromstring(text).findall('.//item')], [None] on a parse error *)
  rss_items : string -> option (list rss_item);
  (** the modules [requests] and [telethon] can be imported *)
  has_requests : bool;
  has_telethon : bool;
  (** [client.start] then [client.get_me], called when [n] lines have been
      read at the keyboard: the lines the login of the library reads there
      (the phone number and the code, none for a session that is
      authorized), and the exception, if one *)
  tg_start : nat -> nat * option exn;
  tg_get_entity : string -> val tg_entity;
  (** [client.iter_messages(name, limit)]: the messages yielded, then the
      exception that ends the stream, if one *)
  tg_iter_messages : string -> nat -> list tg_message * option exn;
  (** [open(name, 'w')]: the exception, if one (a name with a directory
      that does not exist, a directory that cannot be written) *)
  fs_write : string -> option exn;
  (** [shutil.move]: the exception, if one *)
  fs_move : string -> string -> option exn;
  (** the results directory next to the modules *)
  results_dir : string;
  config : Config }.

(** ** The monad of extractor methods *)

Definition M (A : Type) : Type := World -> res A * World.

Definition ret {A} (a : A) : M A := fun w => (Ok a, w).

Definition bind {A B} (m : M A) (k : A -> M B) : M B :=
  fun w =>
    match m w with
    | (Ok a, w') => k a w'
    | (Raise e, w') => (Raise e, w')
    | (Diverge, w') => (Diverge, w')
    end.

Definition raise {A} (e : exn) : M A := fun w => (Raise e, w).

(** A loop cut before it ended by itself. *)
Definition diverge {A} : M A := fun w => (Diverge, w).

(** The result of an operation, in the monad. *)
Definition lift {A} (r : val A) : M A :=
  fun w => (match r with Val a => Ok a | Err e => Raise e end, w).

(** [try: m  except <classes>: h], with [handles] the test of the clause. *)
Definition try_except {A} (m : M A) (handles : exn -> bool) (h : M A) : M A :=
  fun w =>
    match m w with
    | (Raise e, w') => if handles e then h w' else (Raise e, w')
    | r => r
    end.

Declare Scope m_scope.
Delimit Scope m_scope with m.
Notation "x <- m ;; k" := (bind m (fun x => k))
  (at level 100, m at next level, right associativity) : m_scope.
Notation "m ;; k" := (bind m (fun _ => k))
  (at level 100, right associativity) : m_scope.
Local Open Scope m_scope.

Definition is_request_exception (e : exn) : bool :=
  match e with RequestException => true | _ => false end.

(** [except Exception] *)
Definition any_exception (e : exn) : bool := true.

(** [for x in xs: body x] *)
Fixpoint for_each {A} (xs : list A) (body : A -> M unit) : M unit :=
  match xs with
  | [] => ret tt
  | x :: r => body x ;; for_each r body
  end.

(** [[f x for x in xs]] and loops that append one value per element. *)
Fixpoint map_m {A B} (f : A -> M B) (xs : list A) : M (list B) :=
  match xs with
  | [] => ret []
  | x :: r => y <- f x ;; ys <- map_m f r ;; ret (y :: ys)
  end.

(** World updates. *)
Definition log (ev : event) (w : World) : World :=
  {| requests := requests w; files := files w; trace := trace w ++ [ev];
     now_calls := now_calls w; inputs := inputs w; results := results w |}.

Definition sent (r : request) (w : World) : World :=
  {| requests := requests w ++ [r]; files := files w; trace := trace w;
     now_calls := now_calls w; inputs := inputs w; results := results w |}.

Definition written (name : string) (data : json) (w : World) : World :=
  {| requests := requests w; files := files w ++ [(name, data)]; trace := trace w;
     now_calls := now_calls w; inputs := inputs w; results := results w |}.

Definition ticked (w : World) : World :=
  {| requests := requests w; files := files w; trace := trace w;
     now_calls := S (now_calls w); inputs := inputs w; results := results w |}.

Definition typed (w : World) : World :=
  {| requests := requests w; files := files w; trace := trace w;
     now_calls := now_calls w; inputs := S (inputs w); results := results w |}.

Definition recorded (name : string) (e : entry) (w : World) : World :=
  {| requests := requests w; files := files w; trace := trace w;
     now_calls := now_calls w; inputs := inputs w;
     results := <[name := e]> (results w) |}.

Definition emit (ev : event) : M unit := fun w => (Ok tt, log ev w).

Definition ui (k : ui_kind) (text : string) : M unit := emit (Ui k text).

(** [time.sleep] *)
Definition sleep (ms : nat) : M unit := emit (Sleep ms).

(** The keyboard after [k] more lines. *)
Definition typed_lines (k : nat) (w : World) : World :=
  {| requests := requests w; files := files w; trace := trace w;
     now_calls := now_calls w; inputs := inputs w + k; results := results w |}.

Section Runtime.

Variable E : Env.

(** [open(name, 'w')] and [json.dump(data, f)]: when the file cannot be
    opened the exception is raised and nothing is written. *)
Definition write_json (name : string) (data : json) : M unit :=
  fun w =>
    match fs_write E name with
    | Some e => (Raise e, w)
    | None => (Ok tt, written name data w)
    end.

(** [datetime.now()] *)
Definition now : M datetime :=
  fun w => (Ok (clock E (now_calls w)), ticked w).

(** [datetime.now().isoformat()] *)
Definition now_iso : M json := t <- now ;; ret (JStr (isoformat t)).

(** [input(prompt)]: the next line of the keyboard. *)
Definition input : M string :=
  fun w => (Ok (stdin E (inputs w)), typed w).

(** [requests.get(url, headers=..., params=...)], [raise_for_status()], and
    the decoding of the body. *)
Definition requests_get (u : string) (hs : list (string * string))
    (ps : list (string * json)) : M response :=
  fun w =>
    let r := {| url := u; headers := hs; params := ps |} in
    match http E (length (requests w)) r with
    | Failed => (Raise RequestException, sent r w)
    | Replied x => (Ok x, sent r w)
    end.

(** [try: import requests  except ImportError: ...] *)
Definition import_requests : M bool :=
  if has_requests E then ret true
  else (ui UiError "Missing dependency" ;; ret false).

End Runtime.

(** [key: d.get(src, dflt)] for each entry of a dict display built from one
    payload [d]. *)
Fixpoint pick (d : json) (fields : list (string * string * json))
  : val (list (string * json)) :=
  match fields with
  | [] => Val []
  | (key, src, dflt) :: r =>
      match py_get d src dflt with
      | Val v => match pick d r with
                 | Val kv => Val ((key, v) :: kv)
                 | Err e => Err e
                 end
      | Err e => Err e
      end
  end.

(** [info[k]] on a dict the method has just built with the key [k]. *)
Definition field (k : string) (info : list (string * json)) : json :=
  default JNull (assoc k info).

(** The tail every [run] shares once the file is saved. *)
Definition export_done (label : string) : M unit :=
  ui UiSection "Export" ;;
  ui UiSuccess label ;;
  ui UiSpace "" ;;
  ui UiSuccess "Extraction completed!".

(** ** BaseExtractor *)
Module BaseExtractor.
Section Methods.
Variable E : Env.

(** [BaseExtractor._save_json] *)
Definition _save_json (platform_name : string) (data : json) (username : string)
  : M string :=
  t <- now E ;;
  let timestamp := strftime_file t in
  let filename :=
    platform_name +:+ "_" +:+ username +:+ "_" +:+ timestamp +:+ ".json" in
  write_json E filename data ;;
  ret filename.

End Methods.
End BaseExtractor.

(** ** GitHubExtractor *)
Module GitHubExtractor.
Section Methods.
Variable E : Env.
(** [self.token] *)
Variable token : option string.

Definition platform_name : string := "github".
Definition base_url : string := "https://api.github.com".

(** [self.headers] as [__init__] builds it. *)
Definition headers_ : list (string * string) :=
  [("Accept", "application/vnd.github.v3+json"); ("User-Agent", "OSINT-Extractor")]
  ++ match token with
     | Some t => if String.eqb t "" then [] else [("Authorization", "token " +:+ t)]
     | None => []
     end.

(** The display of the bio, under [if info['bio']]:
    [info['bio'][:100] + "..." if len(info['bio']) > 100 else info['bio']]. *)
Definition show_bio (bio : json) : M unit :=
  if truthy bio then
    n <- lift (py_len bio) ;;
    (if 100 <? n
     then (if is_str bio then ret tt else raise TypeError)
     else ret tt) ;;
    ui UiKeyValue "Bio"
  else ret tt.

(** [_get_user_info]: the profile, or [None] ([JNull]). *)
Definition _get_user_info (username : string) : M json :=
  ui UiSection "User Profile" ;;
  try_except
    (ui UiSpinner "Fetching profile..." ;;
     response <- requests_get E (base_url +:+ "/users/" +:+ username) headers_ [] ;;
     let user := body response in
     info <- lift (pick user
       [("username", "login", JStr ""); ("name", "name", JStr "");
        ("bio", "bio", JStr ""); ("company", "company", JStr "");
        ("location", "location", JStr ""); ("email", "email", JStr "");
        ("blog", "blog", JStr ""); ("twitter", "twitter_username", JStr "");
        ("public_repos", "public_repos", JInt 0);
        ("public_gists", "public_gists", JInt 0);
        ("followers", "followers", JInt 0); ("following", "following", JInt 0);
        ("created_at", "created_at", JStr ""); ("updated_at", "updated_at", JStr "");
        ("profile_url", "html_url", JStr "")]) ;;
     ui UiKeyValue "Name" ;;
     show_bio (field "bio" info) ;;
     ui UiSpace "" ;;
     lift (fmt_thousands (field "public_repos" info)) ;;
     lift (fmt_thousands (field "followers" info)) ;;
     lift (fmt_thousands (field "following" info)) ;;
     ui UiStatRow "Repos | Followers | Following" ;;
     ui UiSpace "" ;;
     ui UiSuccess "Profile retrieved" ;;
     ret (JObj info))
    is_request_exception
    (ui UiError "Failed to fetch profile" ;; ret JNull).

Definition parse_repo (repo : json) : M json :=
  kv <- lift (pick repo
    [("name", "name", JStr ""); ("description", "description", JStr "");
     ("language", "language", JStr ""); ("stars", "stargazers_count", JInt 0);
     ("forks", "forks_count", JInt 0); ("watchers", "watchers_count", JInt 0);
     ("created_at", "created_at", JStr ""); ("updated_at", "updated_at", JStr "");
     ("url", "html_url", JStr ""); ("topics", "topics", JArr [])]) ;;
  ret (JObj kv).

(** [_get_repositories] *)
Definition _get_repositories (username : string) : M (list json) :=
  ui UiSection "Repositories" ;;
  try_except
    (ui UiSpinner "Fetching repositories..." ;;
     response <- requests_get E (base_url +:+ "/users/" +:+ username +:+ "/repos")
                   headers_ [("per_page", JInt 100); ("sort", JStr "updated")] ;;
     repos <- lift (py_iter (body response)) ;;
     parsed_repos <- map_m parse_repo repos ;;
     ui UiSuccess "{n} repository(ies) retrieved" ;;
     ret parsed_repos)
    is_request_exception
    (ui UiWarning "Failed to fetch repositories" ;; ret []).

Definition parse_event (event : json) : M json :=
  type <- lift (py_get event "type" (JStr "")) ;;
  repo <- lift (py_get event "repo" (JObj [])) ;;
  name <- lift (py_get repo "name" (JStr "")) ;;
  created_at <- lift (py_get event "created_at" (JStr "")) ;;
  payload <- lift (py_get event "payload" (JObj [])) ;;
  ret (JObj [("type", type); ("repo", name); ("created_at", created_at);
             ("payload", payload)]).

(** [_get_events] *)
Definition _get_events (username : string) : M (list json) :=
  ui UiSection "Recent Events" ;;
  try_except
    (ui UiSpinner "Fetching events..." ;;
     response <- requests_get E
                   (base_url +:+ "/users/" +:+ username +:+ "/events/public")
                   headers_ [("per_page", JInt 100)] ;;
     events <- lift (py_iter (body response)) ;;
     parsed_events <- map_m parse_event events ;;
     ui UiSuccess "{n} event(s) retrieved" ;;
     ret parsed_events)
    is_request_exception
    (ui UiWarning "Failed to fetch events" ;; ret []).

(** [run] *)
Definition run (username : string) : M (option string) :=
  ok <- import_requests E ;;
  if negb ok then ret None else
  ui UiHeader "GITHUB EXTRACTOR" ;;
  ui UiStep ("Target: " +:+ username) ;;
  ui UiSpace "" ;;
  user_info <- _get_user_info username ;;
  if negb (truthy user_info) then ret None else
  repos <- _get_repositories username ;;
  events <- _get_events username ;;
  date <- now_iso E ;;
  let data := JObj [("user_info", user_info); ("repositories", JArr repos);
                    ("events", JArr events); ("extraction_date", date)] in
  filename <- BaseExtractor._save_json E platform_name data username ;;
  export_done "Data saved" ;;
  ret (Some filename).

End Methods.
End GitHubExtractor.

(** [range(n)] *)
Definition range (n : nat) : list nat := seq 0 n.

(** The indices a comma-separated choice selects among [n] candidates:
    the body of [for part in choice.split(',')]; a part that [int] refuses
    raises [ValueError], an index out of range is skipped. *)
Fixpoint parse_indices (n : nat) (parts : list string) : val (list nat) :=
  match parts with
  | [] => Val []
  | part :: rest =>
      match int_of_string (strip part) with
      | None => Err ValueError
      | Some z =>
          let idx := (z - 1)%Z in
          match parse_indices n rest with
          | Val sel =>
              Val (if (0 <=? idx)%Z && (idx <? Z.of_nat n)%Z
                   then Z.to_nat idx :: sel else sel)
          | r => r
          end
      end
  end.

(** [sep.join(parts)] *)
Fixpoint join (sep : string) (parts : list string) : string :=
  match parts with
  | [] => ""
  | [p] => p
  | p :: r => p +:+ sep +:+ join sep r
  end.

(** The loop of the [run] of Stack Overflow and of YouTube over the selected ids, [idx] counting from 1: the
    documents of the ids whose extraction gave one. *)
Fixpoint extract_all (extract : json -> M json) (what : string) (total idx : nat)
    (ids : list json) : M (list json) :=
  match ids with
  | [] => ret []
  | id :: rest =>
      (if 1 <? total
       then (ui UiSpace "" ;; ui UiSeparator "" ;; ui UiSpace "" ;;
             ui UiSubsection ("Extracting " +:+ what +:+ " {idx}/{total}") ;;
             ui UiSpace "")
       else ret tt) ;;
      data <- extract id ;;
      (if idx <? total then sleep 1000 else ret tt) ;;
      more <- extract_all extract what total (S idx) rest ;;
      ret (if truthy data then data :: more else more)
  end.

(** ** StackOverflowExtractor *)
Module StackOverflowExtractor.
Section Methods.
Variable E : Env.
(** [self.api_key] *)
Variable api_key : option string.

Definition platform_name : string := "stackoverflow".
Definition base_url : string := "https://api.stackexchange.com/2.3".
Definition site : string := "stackoverflow".

(** [if self.api_key: params['key'] = self.api_key] *)
Definition key_param : list (string * json) :=
  match api_key with
  | Some k => if String.eqb k "" then [] else [("key", JStr k)]
  | None => []
  end.

(** [_search_users]: the candidates, or [None] ([JNull]). *)
Definition _search_users (username : string) : M json :=
  ui UiSection "User Search" ;;
  ui UiStep ("Searching for: " +:+ username) ;;
  ui UiSpace "" ;;
  try_except
    (let params := [("inname", JStr username); ("pagesize", JInt 10);
                    ("order", JStr "desc"); ("sort", JStr "reputation");
                    ("site", JStr site)] ++ key_param in
     response <- requests_get E (base_url +:+ "/users") [] params ;;
     users <- lift (py_get (body response) "items" (JArr [])) ;;
     (if truthy users
      then (lift (py_len users) ;; ui UiSuccess "Found {n} user(s)")
      else ui UiError "No users found") ;;
     ret users)
    is_request_exception
    (ui UiError "Search failed" ;; ret JNull).

(** One line of the list of candidates. *)
Definition show_user (user : json) : M unit :=
  lift (py_get user "display_name" (JStr "N/A")) ;;
  rep <- lift (py_get user "reputation" (JInt 0)) ;;
  lift (fmt_thousands rep) ;;
  ui UiListItem "{name} - {rep} reputation".

(** [users[i][key]] *)
Definition field_at (users : json) (key : string) (i : nat) : M json :=
  u <- lift (py_index users i) ;;
  lift (py_item u key).

(** [[users[i][key] for i in selected_indices]] *)
Definition select_field (users : json) (key : string) (selected : list nat)
  : M (list json) :=
  map_m (field_at users key) selected.

(** [_select_user] *)
Definition _select_user (users : json) : M (list json) :=
  ui UiSpace "" ;;
  ui UiSubsection "Users Found" ;;
  ui UiSpace "" ;;
  shown <- lift (py_prefix 5 users) ;;
  shown <- lift (py_iter shown) ;;
  for_each shown show_user ;;
  ui UiSpace "" ;;
  try_except
    (line <- input E ;;
     let choice := strip line in
     selected_indices <-
       (if String.eqb choice ""
        then (n <- lift (py_len users) ;; ret (range n))
        else
          n <- lift (py_len users) ;;
          sel <- lift (parse_indices n (split "," choice)) ;;
          match sel with
          | [] => ui UiWarning "Invalid selection, using first user" ;; ret [0]
          | _ => ret sel
          end) ;;
     selected_names <- select_field users "display_name" selected_indices ;;
     (if length selected_names =? 1
      then ui UiSuccess "Selected: {name}"
      else (lift (py_join_check selected_names) ;;
            ui UiSuccess "Selected {n} user(s): {names}")) ;;
     select_field users "user_id" selected_indices)
    (fun e => match e with ValueError | KeyError => true | _ => false end)
    (ui UiWarning "Invalid selection, using first user" ;;
     first <- lift (py_index users 0) ;;
     user_id <- lift (py_item first "user_id") ;;
     ret [user_id]).

(** [_make_request]: the decoded body, or [None] ([JNull]). *)
Definition _make_request (endpoint : string) (params : list (string * json)) : M json :=
  let params := params ++ [("site", JStr site)] ++ key_param in
  try_except
    (response <- requests_get E (base_url +:+ "/" +:+ endpoint) [] params ;;
     ret (body response))
    is_request_exception
    (ret JNull).

(** [_get_profile] *)
Definition _get_profile (user_id : json) : M json :=
  ui UiSection "Profile" ;;
  ui UiSpinner "Fetching profile..." ;;
  data <- _make_request ("users/" +:+ py_str E user_id) [("filter", JStr "withbody")] ;;
  missing <-
    (if negb (truthy data) then ret true else
     has <- lift (py_in "items" data) ;;
     if negb has then ret true else
     items <- lift (py_item data "items") ;;
     ret (negb (truthy items))) ;;
  if (missing : bool) then (ui UiError "User not found" ;; ret JNull) else
  items <- lift (py_item data "items") ;;
  user <- lift (py_index items 0) ;;
  uid <- lift (py_item user "user_id") ;;
  display_name <- lift (py_item user "display_name") ;;
  link <- lift (py_item user "link") ;;
  reputation <- lift (py_item user "reputation") ;;
  badge_counts <- lift (py_item user "badge_counts") ;;
  created <- lift (py_item user "creation_date") ;;
  creation_date <- lift (local_strftime E "%Y-%m-%d" created) ;;
  location <- lift (py_get user "location" JNull) ;;
  website_url <- lift (py_get user "website_url" JNull) ;;
  let info := [("user_id", uid); ("display_name", display_name); ("link", link);
               ("reputation", reputation); ("badge_counts", badge_counts);
               ("creation_date", JStr creation_date); ("location", location);
               ("website_url", website_url)] in
  ui UiKeyValue "Name" ;;
  lift (fmt_thousands reputation) ;;
  ui UiKeyValue "Reputation" ;;
  ui UiSpace "" ;;
  lift (py_get badge_counts "gold" (JInt 0)) ;;
  lift (py_get badge_counts "silver" (JInt 0)) ;;
  lift (py_get badge_counts "bronze" (JInt 0)) ;;
  ui UiStatRow "Gold | Silver | Bronze" ;;
  ui UiSpace "" ;;
  ui UiSuccess "Profile retrieved" ;;
  ret (JObj info).

(** [_get_questions], [_get_answers] and [_get_badges] differ in the
    endpoint, the sort key and the words shown. *)
Definition get_items (title what endpoint sort : string) (user_id : json) : M json :=
  ui UiSection title ;;
  ui UiSpinner ("Fetching " +:+ what +:+ "...") ;;
  data <- _make_request ("users/" +:+ py_str E user_id +:+ "/" +:+ endpoint)
            [("page", JInt 1); ("pagesize", JInt 100); ("order", JStr "desc");
             ("sort", JStr sort)] ;;
  items <- (if truthy data then lift (py_get data "items" (JArr [])) else ret (JArr [])) ;;
  lift (py_len items) ;;
  ui UiSuccess ("{n} " +:+ what +:+ " retrieved") ;;
  ret items.

Definition _get_questions : json -> M json :=
  get_items "Questions" "questions" "questions" "votes".
Definition _get_answers : json -> M json :=
  get_items "Answers" "answers" "answers" "votes".
Definition _get_badges : json -> M json :=
  get_items "Badges" "badges" "badges" "rank".

(** [_extract_user_data] *)
Definition _extract_user_data (user_id : json) : M json :=
  ui UiSpace "" ;; ui UiSeparator "" ;; ui UiSpace "" ;;
  user_info <- _get_profile user_id ;;
  if negb (truthy user_info) then ret JNull else
  questions <- _get_questions user_id ;;
  answers <- _get_answers user_id ;;
  badges <- _get_badges user_id ;;
  date <- now_iso E ;;
  ret (JObj [("user_info", user_info); ("questions", questions);
             ("answers", answers); ("badges", badges); ("extraction_date", date)]).

(** [run] *)
Definition run (username : string) : M (option string) :=
  ok <- import_requests E ;;
  if negb ok then ret None else
  ui UiHeader "STACK OVERFLOW EXTRACTOR" ;;
  (if bool_decide (key_param = [])
   then ui UiInfo "No API key" else ui UiInfo "API Key configured") ;;
  ui UiSpace "" ;;
  users <- _search_users username ;;
  if negb (truthy users) then ret None else
  selected_ids <- _select_user users ;;
  match selected_ids with
  | [] => ret None
  | _ =>
      all_users_data <- extract_all _extract_user_data "User"
                          (length selected_ids) 1 selected_ids ;;
      match all_users_data with
      | [] => ret None
      | _ =>
          date <- now_iso E ;;
          let export_data :=
            JObj [("users", JArr all_users_data);
                  ("total_users", JInt (Z.of_nat (length all_users_data)));
                  ("extraction_date", date)] in
          filename <- BaseExtractor._save_json E platform_name export_data username ;;
          export_done "{n} user(s) saved" ;;
          ret (Some filename)
      end
  end.

End Methods.
End StackOverflowExtractor.

(** The strings of a list of values, for [sep.join]: [TypeError] on a value
    that is not a string. *)
Fixpoint strings_of (vs : list json) : val (list string) :=
  match vs with
  | [] => Val []
  | JStr s :: r => match strings_of r with Val l => Val (s :: l) | x => x end
  | _ :: _ => Err TypeError
  end.

(** ** YouTubeExtractor *)
Module YouTubeExtractor.
Section Methods.
Variable E : Env.
(** [self.api_key] *)
Variable api_key : option string.

Definition platform_name : string := "youtube".
Definition base_url : string := "https://www.googleapis.com/youtube/v3".

Definition has_key : bool :=
  match api_key with Some k => negb (String.eqb k "") | None => false end.

Definition key_value : json :=
  match api_key with Some k => JStr k | None => JNull end.

(** [_search_channels]: the candidates with their statistics, or [None]. *)
Definition _search_channels (query : string) : M json :=
  ui UiSection "Channel Search" ;;
  ui UiSpinner ("Searching for: " +:+ query) ;;
  ui UiSpace "" ;;
  try_except
    (response <- requests_get E (base_url +:+ "/search") []
                   [("part", JStr "snippet"); ("q", JStr query);
                    ("type", JStr "channel"); ("maxResults", JInt 10);
                    ("key", key_value)] ;;
     items <- lift (py_get (body response) "items" (JArr [])) ;;
     if negb (truthy items) then (ui UiError "No channels found" ;; ret JNull) else
     items <- lift (py_iter items) ;;
     channel_ids <- map_m (fun item => snippet <- lift (py_item item "snippet") ;;
                                       lift (py_item snippet "channelId")) items ;;
     ids <- lift (strings_of channel_ids) ;;
     response <- requests_get E (base_url +:+ "/channels") []
                   [("part", JStr "snippet,statistics"); ("id", JStr (join "," ids));
                    ("key", key_value)] ;;
     channels <- lift (py_get (body response) "items" (JArr [])) ;;
     (if truthy channels
      then (lift (py_len channels) ;; ui UiSuccess "Found {n} channel(s)")
      else ui UiError "No channels found") ;;
     ret channels)
    is_request_exception
    (ui UiError "Search failed" ;; ret JNull).

(** One line of the list of candidates. *)
Definition show_channel (channel : json) : M unit :=
  snippet <- lift (py_get channel "snippet" (JObj [])) ;;
  stats <- lift (py_get channel "statistics" (JObj [])) ;;
  lift (py_get snippet "title" (JStr "N/A")) ;;
  subscribers <- lift (py_get stats "subscriberCount" (JInt 0)) ;;
  lift (py_int subscribers) ;;
  video_count <- lift (py_get stats "videoCount" (JInt 0)) ;;
  lift (py_int video_count) ;;
  ui UiListItem "{title} - {subscribers} subscribers, {video_count} videos".

(** [channels[i]['snippet']['title']] *)
Definition title_at (channels : json) (i : nat) : M json :=
  c <- lift (py_index channels i) ;;
  snippet <- lift (py_item c "snippet") ;;
  lift (py_item snippet "title").

(** [channels[i]['id']] *)
Definition id_at (channels : json) (i : nat) : M json :=
  c <- lift (py_index channels i) ;;
  lift (py_item c "id").

(** [_select_channels] *)
Definition _select_channels (channels : json) : M (list json) :=
  ui UiSpace "" ;;
  ui UiSubsection "Channels Found" ;;
  ui UiSpace "" ;;
  shown <- lift (py_prefix 10 channels) ;;
  shown <- lift (py_iter shown) ;;
  for_each shown show_channel ;;
  ui UiSpace "" ;;
  try_except
    (line <- input E ;;
     let choice := strip line in
     selected_indices <-
       (if String.eqb choice ""
        then (n <- lift (py_len channels) ;; ret (range n))
        else
          n <- lift (py_len channels) ;;
          sel <- lift (parse_indices n (split "," choice)) ;;
          match sel with
          | [] => ui UiWarning "Invalid selection, using first channel" ;; ret [0]
          | _ => ret sel
          end) ;;
     selected_names <- map_m (title_at channels) selected_indices ;;
     (if length selected_names =? 1
      then ui UiSuccess "Selected: {name}"
      else (lift (py_join_check selected_names) ;;
            ui UiSuccess "Selected {n} channel(s): {names}")) ;;
     map_m (id_at channels) selected_indices)
    (fun e => match e with ValueError | KeyError | IndexError => true | _ => false end)
    (ui UiWarning "Invalid selection, using first channel" ;;
     first <- lift (py_index channels 0) ;;
     id <- lift (py_item first "id") ;;
     ret [id]).

(** [_get_channel_info] *)
Definition _get_channel_info (channel_id : json) : M json :=
  ui UiSection "Channel Info" ;;
  try_except
    (ui UiSpinner "Fetching channel..." ;;
     response <- requests_get E (base_url +:+ "/channels") []
                   [("part", JStr "snippet,statistics"); ("id", channel_id);
                    ("key", key_value)] ;;
     let data := body response in
     missing <-
       (has <- lift (py_in "items" data) ;;
        if negb has then ret true else
        items <- lift (py_item data "items") ;;
        ret (negb (truthy items))) ;;
     if (missing : bool) then (ui UiError "Channel not found" ;; ret JNull) else
     items <- lift (py_item data "items") ;;
     channel <- lift (py_index items 0) ;;
     snippet <- lift (py_item channel "snippet") ;;
     stats <- lift (py_item channel "statistics") ;;
     id <- lift (py_item channel "id") ;;
     title <- lift (py_item snippet "title") ;;
     description <- lift (py_item snippet "description") ;;
     published_at <- lift (py_item snippet "publishedAt") ;;
     thumbnails <- lift (py_item snippet "thumbnails") ;;
     high <- lift (py_item thumbnails "high") ;;
     thumbnail <- lift (py_item high "url") ;;
     subscribers <- lift (py_get stats "subscriberCount" (JInt 0)) ;;
     subscribers <- lift (py_int subscribers) ;;
     video_count <- lift (py_get stats "videoCount" (JInt 0)) ;;
     video_count <- lift (py_int video_count) ;;
     view_count <- lift (py_get stats "viewCount" (JInt 0)) ;;
     view_count <- lift (py_int view_count) ;;
     id' <- lift (py_item channel "id") ;;
     let info := [("id", id); ("title", title); ("description", description);
                  ("published_at", published_at); ("thumbnail", thumbnail);
                  ("subscribers", JInt subscribers); ("video_count", JInt video_count);
                  ("view_count", JInt view_count);
                  ("url", JStr ("https://www.youtube.com/channel/" +:+ py_str E id'))] in
     ui UiKeyValue "Channel" ;;
     ui UiSpace "" ;;
     ui UiStatRow "Subscribers | Videos | Views" ;;
     ui UiSpace "" ;;
     ui UiSuccess "Channel retrieved" ;;
     ret (JObj info))
    is_request_exception
    (ui UiError "Failed to fetch channel" ;; ret JNull).

Definition parse_video (item : json) : M json :=
  snippet <- lift (py_item item "snippet") ;;
  id <- lift (py_item item "id") ;;
  video_id <- lift (py_item id "videoId") ;;
  title <- lift (py_item snippet "title") ;;
  description <- lift (py_item snippet "description") ;;
  published_at <- lift (py_item snippet "publishedAt") ;;
  thumbnails <- lift (py_item snippet "thumbnails") ;;
  high <- lift (py_item thumbnails "high") ;;
  thumbnail <- lift (py_item high "url") ;;
  ret (JObj [("video_id", video_id); ("title", title); ("description", description);
             ("published_at", published_at); ("thumbnail", thumbnail);
             ("url", JStr ("https://www.youtube.com/watch?v=" +:+ py_str E video_id))]).

(** [_get_videos] *)
Definition _get_videos (channel_id : json) : M (list json) :=
  ui UiSection "Videos" ;;
  try_except
    (ui UiSpinner "Fetching videos..." ;;
     response <- requests_get E (base_url +:+ "/search") []
                   [("part", JStr "snippet"); ("channelId", channel_id);
                    ("type", JStr "video"); ("order", JStr "date");
                    ("maxResults", JInt 50); ("key", key_value)] ;;
     items <- lift (py_get (body response) "items" (JArr [])) ;;
     items <- lift (py_iter items) ;;
     videos <- map_m parse_video items ;;
     ui UiSuccess "{n} video(s) retrieved" ;;
     ret videos)
    is_request_exception
    (ui UiWarning "Failed to fetch videos" ;; ret []).

(** [_extract_channel_data] *)
Definition _extract_channel_data (channel_id : json) : M json :=
  channel_info <- _get_channel_info channel_id ;;
  if negb (truthy channel_info) then ret JNull else
  videos <- _get_videos channel_id ;;
  date <- now_iso E ;;
  ret (JObj [("channel_info", channel_info); ("videos", JArr videos);
             ("extraction_date", date)]).

(** [run] *)
Definition run (username : string) : M (option string) :=
  if negb has_key then (ui UiError "YouTube API key required" ;; ret None) else
  ok <- import_requests E ;;
  if negb ok then ret None else
  ui UiHeader "YOUTUBE EXTRACTOR" ;;
  ui UiStep ("Searching for: " +:+ username) ;;
  ui UiSpace "" ;;
  channels <- _search_channels username ;;
  if negb (truthy channels) then ret None else
  selected_ids <- _select_channels channels ;;
  match selected_ids with
  | [] => ret None
  | _ =>
      all_channels_data <- extract_all _extract_channel_data
                             "Channel" (length selected_ids) 1 selected_ids ;;
      match all_channels_data with
      | [] => ret None
      | _ =>
          date <- now_iso E ;;
          let export_data :=
            JObj [("channels", JArr all_channels_data);
                  ("total_channels", JInt (Z.of_nat (length all_channels_data)));
                  ("extraction_date", date)] in
          filename <- BaseExtractor._save_json E platform_name export_data username ;;
          export_done "{n} channel(s) saved" ;;
          ret (Some filename)
      end
  end.

End Methods.
End YouTubeExtractor.

(** What one turn of a [while] loop leaves: the state of the next turn, or
    the state at the [break]. *)
Inductive turn (S : Type) : Type :=
| Continue (st : S)
| Break (st : S).
Arguments Continue {S} st.
Arguments Break {S} st.

(** [s.split(sep)[-1]] *)
Definition last_part (sep : ascii) (s : string) : string :=
  default "" (last (split sep s)).

(** ** BlueskyExtractor *)
Module BlueskyExtractor.
Section Methods.
Variable E : Env.

Definition platform_name : string := "bluesky".
Definition base_url : string := "https://public.api.bsky.app".
Definition headers_ : list (string * string) :=
  [("User-Agent", "Mozilla/5.0 (Windows NT 10.0; Win64; x64) AppleWebKit/537.36")].

Definition resolve_url : string :=
  base_url +:+ "/xrpc/com.atproto.identity.resolveHandle".

(** [handles_to_try] of [_resolve_handle], from the raw input. *)
Definition handles_to_try (handle : string) : list string :=
  let handle := strip (remove_char "@" handle) in
  [handle] ++
  (if negb (has_char "." handle)
   then [handle +:+ ".bsky.social"; handle +:+ ".com"]
   else []).

(** One turn of [for h in handles_to_try]: the DID when the reply has one. *)
Definition try_handle (h : string) : M json :=
  ui UiMuted ("Trying: " +:+ h) ;;
  try_except
    (response <- requests_get E resolve_url headers_ [("handle", JStr h)] ;;
     did <- lift (py_get (body response) "did" JNull) ;;
     if truthy did
     then (ui UiSuccess ("Handle resolved: " +:+ h) ;; ret did)
     else ret JNull)
    is_request_exception
    (ret JNull).

Fixpoint try_handles (hs : list string) : M json :=
  match hs with
  | [] => ui UiError "Handle not found" ;; ret JNull
  | h :: rest =>
      did <- try_handle h ;;
      if truthy did then ret did else try_handles rest
  end.

(** [_resolve_handle]: the DID, or [None] ([JNull]). *)
Definition _resolve_handle (handle : string) : M json :=
  ui UiSection "Handle Resolution" ;;
  try_handles (handles_to_try handle).

(** [_get_profile] *)
Definition _get_profile (actor : json) : M json :=
  ui UiSection "Profile" ;;
  try_except
    (ui UiSpinner "Fetching profile..." ;;
     response <- requests_get E (base_url +:+ "/xrpc/app.bsky.actor.getProfile")
                   headers_ [("actor", actor)] ;;
     let data := body response in
     info <- lift (pick data
       [("handle", "handle", JStr ""); ("display_name", "displayName", JStr "");
        ("description", "description", JStr "");
        ("followers_count", "followersCount", JInt 0);
        ("follows_count", "followsCount", JInt 0);
        ("posts_count", "postsCount", JInt 0)]) ;;
     handle <- lift (py_get data "handle" (JStr "")) ;;
     let profile := info ++
       [("profile_url", JStr ("https://bsky.app/profile/" +:+ py_str E handle))] in
     ui UiKeyValue "Handle" ;;
     ui UiKeyValue "Name" ;;
     ui UiSpace "" ;;
     lift (fmt_thousands (field "posts_count" profile)) ;;
     lift (fmt_thousands (field "followers_count" profile)) ;;
     lift (fmt_thousands (field "follows_count" profile)) ;;
     ui UiStatRow "Posts | Followers | Following" ;;
     ui UiSpace "" ;;
     ui UiSuccess "Profile retrieved" ;;
     ret (JObj profile))
    is_request_exception
    (ui UiError "Failed to fetch profile" ;; ret JNull).

Definition max_posts : nat := 200.

(** The dict appended for one element of the feed. *)
Definition parse_post (item : json) : M json :=
  post_data <- lift (py_get item "post" (JObj [])) ;;
  record <- lift (py_get post_data "record" (JObj [])) ;;
  text_ <- lift (py_get record "text" (JStr "")) ;;
  created_at <- lift (py_get record "createdAt" (JStr "")) ;;
  reply_count <- lift (py_get post_data "replyCount" (JInt 0)) ;;
  repost_count <- lift (py_get post_data "repostCount" (JInt 0)) ;;
  like_count <- lift (py_get post_data "likeCount" (JInt 0)) ;;
  author <- lift (py_get post_data "author" (JObj [])) ;;
  handle <- lift (py_get author "handle" (JStr "")) ;;
  uri <- lift (py_get post_data "uri" (JStr "")) ;;
  match uri with
  | JStr u =>
      ret (JObj [("text", text_); ("created_at", created_at);
                 ("reply_count", reply_count); ("repost_count", repost_count);
                 ("like_count", like_count);
                 ("url", JStr ("https://bsky.app/profile/" +:+ py_str E handle +:+
                               "/post/" +:+ last_part "/" u))])
  | _ => raise AttributeError
  end.

(** The body of [while len(all_posts) < max_posts], with its [try]: a
    [RequestException] can only come from the request, before any post of
    the turn is appended. *)
Definition posts_turn (actor : json) (st : list json * json)
  : M (turn (list json * json)) :=
  let '(all_posts, cursor) := st in
  try_except
    (let params := [("actor", actor); ("limit", JInt 100)] ++
                   (if truthy cursor then [("cursor", cursor)] else []) in
     response <- requests_get E (base_url +:+ "/xrpc/app.bsky.feed.getAuthorFeed")
                   headers_ params ;;
     let data := body response in
     feed <- lift (py_get data "feed" (JArr [])) ;;
     if negb (truthy feed) then ret (Break (all_posts, cursor)) else
     items <- lift (py_iter feed) ;;
     posts <- map_m parse_post items ;;
     let all_posts := all_posts ++ posts in
     ui UiProgress "posts" ;;
     cursor <- lift (py_get data "cursor" JNull) ;;
     if negb (truthy cursor) then ret (Break (all_posts, cursor)) else
     sleep 500 ;;
     ret (Continue (all_posts, cursor)))
    is_request_exception
    (ret (Break (all_posts, cursor))).

(** The [while] loop, cut after [fuel] turns. *)
Fixpoint posts_loop (fuel : nat) (actor : json) (st : list json * json)
  : M (list json) :=
  if negb (length (fst st) <? max_posts) then ret (fst st) else
  match fuel with
  | O => diverge
  | S fuel' =>
      t <- posts_turn actor st ;;
      match t with
      | Break st' => ret (fst st')
      | Continue st' => posts_loop fuel' actor st'
      end
  end.

(** [_get_posts]: every turn that goes on adds a post, so [max_posts] turns
    are never used up. *)
Definition _get_posts (actor : json) : M (list json) :=
  ui UiSection "Posts Extraction" ;;
  ui UiInfo "Fetching up to {max_posts} posts..." ;;
  ui UiSpace "" ;;
  all_posts <- posts_loop max_posts actor ([], JNull) ;;
  let all_posts := take max_posts all_posts in
  ui UiSpace "" ;;
  ui UiSuccess "{final_count} posts retrieved" ;;
  ret all_posts.

(** [run] *)
Definition run (username : string) : M (option string) :=
  ok <- import_requests E ;;
  if negb ok then ret None else
  ui UiHeader "BLUESKY EXTRACTOR" ;;
  ui UiStep ("Target: " +:+ username) ;;
  ui UiSpace "" ;;
  did <- _resolve_handle username ;;
  if negb (truthy did) then ret None else
  profile <- _get_profile did ;;
  if negb (truthy profile) then ret None else
  posts <- _get_posts did ;;
  date <- now_iso E ;;
  let data := JObj [("profile", profile); ("posts", JArr posts);
                    ("extraction_date", date)] in
  filename <- BaseExtractor._save_json E platform_name data username ;;
  export_done "Data saved" ;;
  ret (Some filename).

End Methods.
End BlueskyExtractor.

(** The one-character string of a double quote. *)
Definition dquote : string := String (ascii_of_nat 34) EmptyString.

(** The rest of [s] after the first [>] that no newline precedes: what
    [<.*?>] matches from a [<]. *)
Fixpoint after_gt (s : string) : option string :=
  match s with
  | EmptyString => None
  | String c r =>
      if ascii_eqb c ">" then Some r
      else if ascii_eqb c (ascii_of_nat 10) then None
      else after_gt r
  end.

(** [re.sub('<.*?>', '', s)]; the recursion is on a bound that the length
    of [s] always meets. *)
Fixpoint strip_tags (fuel : nat) (s : string) : string :=
  match fuel with
  | O => s
  | S f =>
      match s with
      | EmptyString => EmptyString
      | String c r =>
          if ascii_eqb c "<"
          then match after_gt r with
               | Some rest => strip_tags f rest
               | None => String c (strip_tags f r)
               end
          else String c (strip_tags f r)
      end
  end.

(** ** MastodonExtractor *)
Module MastodonExtractor.
Section Methods.
Variable E : Env.
(** [self.instance] *)
Variable instance : string.

Definition platform_name : string := "mastodon".
Definition base_url : string := "https://" +:+ instance.
Definition api_url : string := base_url +:+ "/api/v1".
Definition headers_ : list (string * string) :=
  [("User-Agent", "Mozilla/5.0 (Windows NT 10.0; Win64; x64) AppleWebKit/537.36")].

(** [_search_account] *)
Definition _search_account (username : string) : M json :=
  ui UiSection "Account Search" ;;
  try_except
    (ui UiSpinner ("Searching for @" +:+ username +:+ "...") ;;
     response <- requests_get E (api_url +:+ "/accounts/lookup") headers_
                   [("acct", JStr username)] ;;
     info <- lift (pick (body response)
       [("id", "id", JStr ""); ("username", "username", JStr "");
        ("display_name", "display_name", JStr ""); ("url", "url", JStr "");
        ("followers_count", "followers_count", JInt 0);
        ("following_count", "following_count", JInt 0);
        ("statuses_count", "statuses_count", JInt 0)]) ;;
     ui UiKeyValue "Display Name" ;;
     ui UiKeyValue "Username" ;;
     ui UiSpace "" ;;
     lift (fmt_thousands (field "statuses_count" info)) ;;
     lift (fmt_thousands (field "followers_count" info)) ;;
     lift (fmt_thousands (field "following_count" info)) ;;
     ui UiStatRow "Toots | Followers | Following" ;;
     ui UiSpace "" ;;
     ui UiSuccess "Account found" ;;
     ret (JObj info))
    is_request_exception
    (ui UiError "Search failed" ;; ret JNull).

(** [_clean_html] *)
Definition _clean_html (html_text : json) : val string :=
  match html_text with
  | JStr s =>
      let clean := replace "<br />" (String (ascii_of_nat 10) "")
                     (replace "<br/>" (String (ascii_of_nat 10) "")
                        (replace "<br>" (String (ascii_of_nat 10) "") s)) in
      let clean := strip_tags (String.length clean) clean in
      let clean := unescape E clean in
      Val (strip clean)
  | _ => Err AttributeError
  end.

(** The first link of [links] with two parts whose second names [rel]. *)
Fixpoint first_link (rel : string) (links : list string) : option string :=
  match links with
  | [] => None
  | link :: rest =>
      match split ";" link with
      | [p0; p1] =>
          let u := slice_1_m1 (strip p0) in
          let rel_part := strip p1 in
          if is_infix ("rel=" +:+ dquote +:+ rel +:+ dquote) rel_part
          then Some u else first_link rel rest
      | _ => first_link rel rest
      end
  end.

(** [_parse_link_header] *)
Definition _parse_link_header (link_header : string) (rel : string) : option string :=
  if String.eqb link_header "" then None
  else first_link rel (split "," link_header).

Definition max_toots : nat := 200.

(** The dict appended for one status of a page. *)
Definition parse_status (status : json) : M json :=
  raw <- lift (py_get status "content" (JStr "")) ;;
  content <- lift (_clean_html raw) ;;
  id <- lift (py_get status "id" (JStr "")) ;;
  created_at <- lift (py_get status "created_at" (JStr "")) ;;
  u <- lift (py_get status "url" (JStr "")) ;;
  replies_count <- lift (py_get status "replies_count" (JInt 0)) ;;
  reblogs_count <- lift (py_get status "reblogs_count" (JInt 0)) ;;
  favourites_count <- lift (py_get status "favourites_count" (JInt 0)) ;;
  ret (JObj [("id", id); ("created_at", created_at); ("content", JStr content);
             ("url", u); ("replies_count", replies_count);
             ("reblogs_count", reblogs_count);
             ("favourites_count", favourites_count)]).

(** The state of the loop of [_get_statuses]: [all_statuses], [url],
    [params]. *)
Definition statuses_state : Type := list json * string * list (string * json).

(** The body of [while len(all_statuses) < max_toots], with its [try]. *)
Definition statuses_turn (st : statuses_state) : M (turn statuses_state) :=
  let '(all_statuses, url_, params_) := st in
  try_except
    (response <- requests_get E url_ headers_ params_ ;;
     let statuses := body response in
     if negb (truthy statuses) then ret (Break st) else
     items <- lift (py_iter statuses) ;;
     parsed <- map_m parse_status items ;;
     let all_statuses := all_statuses ++ parsed in
     ui UiProgress "toots" ;;
     match _parse_link_header (link_header response) "next" with
     | Some next_url =>
         if String.eqb next_url "" then ret (Break (all_statuses, url_, params_))
         else (sleep 500 ;; ret (Continue (all_statuses, next_url, [])))
     | None => ret (Break (all_statuses, url_, params_))
     end)
    is_request_exception
    (ret (Break st)).

(** The [while] loop, cut after [fuel] turns. *)
Fixpoint statuses_loop (fuel : nat) (st : statuses_state) : M (list json) :=
  if negb (length (fst (fst st)) <? max_toots) then ret (fst (fst st)) else
  match fuel with
  | O => diverge
  | S fuel' =>
      t <- statuses_turn st ;;
      match t with
      | Break st' => ret (fst (fst st'))
      | Continue st' => statuses_loop fuel' st'
      end
  end.

(** [_get_statuses] *)
Definition _get_statuses (account_id : json) : M (list json) :=
  ui UiSection "Toots Extraction" ;;
  let url_ := api_url +:+ "/accounts/" +:+ py_str E account_id +:+ "/statuses" in
  ui UiInfo "Fetching up to {max_toots} toots..." ;;
  ui UiSpace "" ;;
  all_statuses <- statuses_loop max_toots (([], url_), [("limit", JInt 40)]) ;;
  let all_statuses := take max_toots all_statuses in
  ui UiSpace "" ;;
  ui UiSuccess "{final_count} toots retrieved" ;;
  ret all_statuses.

(** [run] *)
Definition run (username : string) : M (option string) :=
  ok <- import_requests E ;;
  if negb ok then ret None else
  ui UiHeader "MASTODON EXTRACTOR" ;;
  ui UiInfo "Instance" ;;
  ui UiStep ("Target: @" +:+ username +:+ "@" +:+ instance) ;;
  ui UiSpace "" ;;
  account <- _search_account username ;;
  if negb (truthy account) then ret None else
  account_id <- lift (py_item account "id") ;;
  statuses <- _get_statuses account_id ;;
  date <- now_iso E ;;
  let data := JObj [("account", account); ("statuses", JArr statuses);
                    ("extraction_date", date)] in
  filename <- BaseExtractor._save_json E platform_name data username ;;
  export_done "Data saved" ;;
  ret (Some filename).

End Methods.
End MastodonExtractor.

(** ** RedditExtractor *)
Module RedditExtractor.
Section Methods.
Variable E : Env.

Definition platform_name : string := "reddit".
Definition base_url : string := "https://www.reddit.com".
Definition headers_ : list (string * string) :=
  [("User-Agent", "Mozilla/5.0 (Windows NT 10.0; Win64; x64) AppleWebKit/537.36")].

(** [_get_user_info] *)
Definition _get_user_info (username : string) : M json :=
  ui UiSection "User Profile" ;;
  try_except
    (ui UiSpinner "Fetching profile..." ;;
     response <- requests_get E (base_url +:+ "/user/" +:+ username +:+ "/about.json")
                   headers_ [] ;;
     let data := body response in
     has <- lift (py_in "data" data) ;;
     if negb has then (ui UiError "User not found" ;; ret JNull) else
     user_data <- lift (py_item data "data") ;;
     name <- lift (py_get user_data "name" (JStr "")) ;;
     created_utc <- lift (py_get user_data "created_utc" (JInt 0)) ;;
     created <- lift (py_get user_data "created_utc" (JInt 0)) ;;
     account_created <- lift (local_strftime E "%Y-%m-%d" created) ;;
     link_karma <- lift (py_get user_data "link_karma" (JInt 0)) ;;
     comment_karma <- lift (py_get user_data "comment_karma" (JInt 0)) ;;
     total_karma <- lift (py_get user_data "total_karma" (JInt 0)) ;;
     let info := [("username", name); ("created_utc", created_utc);
                  ("account_created", JStr account_created);
                  ("link_karma", link_karma); ("comment_karma", comment_karma);
                  ("total_karma", total_karma);
                  ("profile_url", JStr (base_url +:+ "/user/" +:+ username))] in
     ui UiKeyValue "Username" ;;
     ui UiKeyValue "Created" ;;
     ui UiSpace "" ;;
     lift (fmt_thousands total_karma) ;;
     lift (fmt_thousands link_karma) ;;
     lift (fmt_thousands comment_karma) ;;
     ui UiStatRow "Total Karma | Post Karma | Comment Karma" ;;
     ui UiSpace "" ;;
     ui UiSuccess "Profile retrieved" ;;
     ret (JObj info))
    is_request_exception
    (ui UiError "Failed to fetch profile" ;; ret JNull).

(** [data['data']['children']] when [if 'data' in data and 'children' in
    data['data']] holds, else nothing to visit. *)
Definition children (data : json) : M (list json) :=
  has <- lift (py_in "data" data) ;;
  if negb has then ret [] else
  inner <- lift (py_item data "data") ;;
  has <- lift (py_in "children" inner) ;;
  if negb has then ret [] else
  inner <- lift (py_item data "data") ;;
  items <- lift (py_item inner "children") ;;
  lift (py_iter items).

Definition parse_post (item : json) : M json :=
  post_data <- lift (py_item item "data") ;;
  title <- lift (py_get post_data "title" (JStr "")) ;;
  subreddit <- lift (py_get post_data "subreddit" (JStr "")) ;;
  permalink <- lift (py_get post_data "permalink" (JStr "")) ;;
  score <- lift (py_get post_data "score" (JInt 0)) ;;
  num_comments <- lift (py_get post_data "num_comments" (JInt 0)) ;;
  created_utc <- lift (py_get post_data "created_utc" (JInt 0)) ;;
  created <- lift (local_strftime E "%Y-%m-%d %H:%M:%S" created_utc) ;;
  ret (JObj [("title", title); ("subreddit", subreddit);
             ("url", JStr (base_url +:+ py_str E permalink)); ("score", score);
             ("num_comments", num_comments); ("created", JStr created)]).

(** [_get_posts] *)
Definition _get_posts (username : string) : M (list json) :=
  ui UiSection "Posts" ;;
  try_except
    (ui UiSpinner "Fetching posts..." ;;
     response <- requests_get E (base_url +:+ "/user/" +:+ username +:+ "/submitted.json")
                   headers_ [("limit", JInt 100); ("sort", JStr "new")] ;;
     items <- children (body response) ;;
     posts <- map_m parse_post items ;;
     ui UiSuccess "{n} posts retrieved" ;;
     ret posts)
    is_request_exception
    (ui UiWarning "Failed to fetch posts" ;; ret []).

Definition parse_comment (item : json) : M json :=
  comment_data <- lift (py_item item "data") ;;
  body_ <- lift (py_get comment_data "body" (JStr "")) ;;
  body_ <- lift (py_prefix 500 body_) ;;
  subreddit <- lift (py_get comment_data "subreddit" (JStr "")) ;;
  permalink <- lift (py_get comment_data "permalink" (JStr "")) ;;
  score <- lift (py_get comment_data "score" (JInt 0)) ;;
  created_utc <- lift (py_get comment_data "created_utc" (JInt 0)) ;;
  created <- lift (local_strftime E "%Y-%m-%d %H:%M:%S" created_utc) ;;
  ret (JObj [("body", body_); ("subreddit", subreddit);
             ("url", JStr (base_url +:+ py_str E permalink)); ("score", score);
             ("created", JStr created)]).

(** [_get_comments] *)
Definition _get_comments (username : string) : M (list json) :=
  ui UiSection "Comments" ;;
  try_except
    (ui UiSpinner "Fetching comments..." ;;
     sleep 1000 ;;
     response <- requests_get E (base_url +:+ "/user/" +:+ username +:+ "/comments.json")
                   headers_ [("limit", JInt 100); ("sort", JStr "new")] ;;
     items <- children (body response) ;;
     comments <- map_m parse_comment items ;;
     ui UiSuccess "{n} comments retrieved" ;;
     ret comments)
    is_request_exception
    (ui UiWarning "Failed to fetch comments" ;; ret []).

(** [run] *)
Definition run (username : string) : M (option string) :=
  ok <- import_requests E ;;
  if negb ok then ret None else
  ui UiHeader "REDDIT EXTRACTOR" ;;
  ui UiStep ("Target: u/" +:+ username) ;;
  ui UiSpace "" ;;
  user_info <- _get_user_info username ;;
  if negb (truthy user_info) then ret None else
  posts <- _get_posts username ;;
  comments <- _get_comments username ;;
  date <- now_iso E ;;
  let data := JObj [("user_info", user_info); ("posts", JArr posts);
                    ("comments", JArr comments); ("extraction_date", date)] in
  filename <- BaseExtractor._save_json E platform_name data username ;;
  export_done "Data saved" ;;
  ret (Some filename).

End Methods.
End RedditExtractor.

(** ** MediumExtractor *)
Module MediumExtractor.
Section Methods.
Variable E : Env.

Definition platform_name : string := "medium".

(** The dict built for one [<item>]. *)
Definition parse_item (item : rss_item) : json :=
  JObj [("title", default (JStr "N/A") (rss_title item));
        ("url", default (JStr "N/A") (rss_link item));
        ("date", default (JStr "N/A") (rss_date item));
        ("tags", JArr (rss_tags item))].

(** One line of the list of recent articles: [len(title)] is taken. *)
Definition show_article (article : json) : M unit :=
  title <- lift (py_item article "title") ;;
  lift (py_len title) ;;
  ui UiListItem "{title}".

(** [_fetch_articles]: the articles, or [None]. *)
Definition _fetch_articles (username : string) : M (option (list json)) :=
  ui UiSection "Article Extraction" ;;
  let rss_url := "https://medium.com/feed/@" +:+ username in
  ui UiMuted ("RSS URL: " +:+ rss_url) ;;
  ui UiSpace "" ;;
  try_except
    (try_except
       (ui UiSpinner "Fetching RSS feed..." ;;
        response <- requests_get E rss_url [] [] ;;
        match rss_items E (text response) with
        | None => raise ParseError
        | Some items =>
            let articles := parse_item <$> items in
            ui UiSuccess "{n} article(s) found" ;;
            match articles with
            | [] => ret tt
            | _ =>
                ui UiSpace "" ;;
                ui UiSubsection "Recent Articles" ;;
                for_each (take 5 articles) show_article ;;
                (if 5 <? length articles then ui UiMuted "... and {n} more" else ret tt)
            end ;;
            ret (Some articles)
        end)
       is_request_exception
       (ui UiError "Failed to fetch RSS feed" ;; ret None))
    (fun e => match e with ParseError => true | _ => false end)
    (ui UiError "XML parse error" ;; ret None).

(** [run] *)
Definition run (username : string) : M (option string) :=
  ok <- import_requests E ;;
  if negb ok then ret None else
  ui UiHeader "MEDIUM EXTRACTOR" ;;
  ui UiStep ("Target: @" +:+ username) ;;
  ui UiSpace "" ;;
  articles <- _fetch_articles username ;;
  match articles with
  | None | Some [] => ret None
  | Some articles =>
      date <- now_iso E ;;
      let data := JObj [("articles", JArr articles); ("extraction_date", date)] in
      filename <- BaseExtractor._save_json E platform_name data username ;;
      export_done "Data saved" ;;
      ret (Some filename)
  end.

End Methods.
End MediumExtractor.

Definition opt_str (o : option string) : json :=
  match o with Some s => JStr s | None => JNull end.

Definition opt_int (o : option Z) : json :=
  match o with Some z => JInt z | None => JNull end.

(** ** TelegramExtractor *)
Module TelegramExtractor.
Section Methods.
Variable E : Env.
(** [self.api_id] and [self.api_hash]; [self.phone] and [self.session_name]
    only reach the client library. *)
Variable api_id : option Z.
Variable api_hash : option string.

Definition platform_name : string := "telegram".
Definition max_messages : nat := 800.

(** [client.start(...)] then [client.get_me()]: the login of the library
    reads its lines at the keyboard, then the calls return or raise.  The
    session file the library keeps is none of the documents of [files]. *)
Definition start : M unit :=
  fun w =>
    let '(lines, failure) := tg_start E (inputs w) in
    (match failure with Some e => Raise e | None => Ok tt end, typed_lines lines w).

(** [_connect] *)
Definition _connect : M bool :=
  ui UiSection "Connection" ;;
  try_except
    (ui UiSpinner "Connecting to Telegram..." ;;
     start ;;
     emit TgConnected ;;
     ui UiSuccess "Connected as: {first_name}" ;;
     ret true)
    any_exception
    (ui UiError "Connection failed" ;; ret false).

(** [_get_entity_type] *)
Definition _get_entity_type (entity : tg_entity) : string :=
  if ent_is_channel entity then
    if ent_broadcast entity then "channel"
    else if ent_megagroup entity then "supergroup"
    else "group"
  else "unknown".

(** [getattr(entity, 'title', None) or getattr(entity, 'first_name', None)] *)
Definition entity_title (entity : tg_entity) : json :=
  if truthy (opt_str (ent_title entity)) then opt_str (ent_title entity)
  else opt_str (ent_first_name entity).

(** [_get_entity_info] *)
Definition _get_entity_info (username : string) : M json :=
  ui UiSection "Target Information" ;;
  let attempt :=
    (let username := strip (remove_char "@" username) in
     ui UiSpinner ("Fetching info for @" +:+ username +:+ "...") ;;
     entity <- lift (tg_get_entity E username) ;;
     let info := [("id", JInt (ent_id entity));
                  ("username", opt_str (ent_username entity));
                  ("title", entity_title entity);
                  ("type", JStr (_get_entity_type entity))] ++
                 (if ent_is_channel entity
                  then [("participants_count", opt_int (ent_participants entity))]
                  else []) in
     ui UiKeyValue "Title" ;;
     ui UiKeyValue "Username" ;;
     ui UiKeyValue "Type" ;;
     (if truthy (field "participants_count" info)
      then (ui UiSpace "" ;; ui UiMetric "Members") else ret tt) ;;
     ui UiSpace "" ;;
     ui UiSuccess "Entity info retrieved" ;;
     ret (JObj info)) in
  try_except
    (try_except attempt
       (fun e => match e with UsernameNotOccupiedError => true | _ => false end)
       (ui UiError "@{username} does not exist" ;; ret JNull))
    any_exception
    (ui UiError "Failed to fetch info" ;; ret JNull).

(** The dict appended for one message of the stream. *)
Definition parse_message (message : tg_message) : json :=
  JObj [("id", JInt (msg_id message));
        ("date", match msg_date message with
                 | Some d => JStr (isoformat d) | None => JNull end);
        ("text", match msg_text message with
                 | Some t => JStr t | None => JStr "" end);
        ("views", opt_int (msg_views message));
        ("forwards", opt_int (msg_forwards message));
        ("has_media", JBool (msg_media message))].

(** The body of [async for message in ...]: the list grows by one, and the
    progress is shown at each multiple of 100. *)
Fixpoint collect (messages : list json) (stream : list tg_message) : M (list json) :=
  match stream with
  | [] => ret messages
  | message :: rest =>
      let messages := messages ++ [parse_message message] in
      (if length messages mod 100 =? 0 then ui UiProgress "messages" else ret tt) ;;
      collect messages rest
  end.

(** [_extract_messages] *)
Definition _extract_messages (username : string) : M (list json) :=
  ui UiSection "Message Extraction" ;;
  ui UiSubsection "Extraction Mode" ;;
  ui UiKeyValue "Mode" ;;
  ui UiKeyValue "Messages" ;;
  ui UiMuted "Optimized for AI sociodynamic analysis" ;;
  ui UiSpace "" ;;
  ui UiInfo "Fetching {max_messages} messages..." ;;
  ui UiSpace "" ;;
  try_except
    (let '(stream, failure) := tg_iter_messages E username max_messages in
     messages <- collect [] stream ;;
     match failure with
     | Some e => raise e
     | None =>
         ui UiProgress "messages" ;;
         ui UiSpace "" ;;
         ui UiSuccess "{n} messages retrieved" ;;
         ret messages
     end)
    any_exception
    (ui UiError "Failed to extract messages" ;; ret []).

(** [_run_async] *)
Definition _run_async (username : string) : M (option string) :=
  ui UiHeader "TELEGRAM EXTRACTOR" ;;
  connected <- _connect ;;
  if negb connected then ret None else
  entity_info <- _get_entity_info username ;;
  if negb (truthy entity_info) then (emit TgDisconnected ;; ret None) else
  messages <- _extract_messages username ;;
  date <- now_iso E ;;
  let data := JObj [("entity_info", entity_info); ("messages", JArr messages);
                    ("extraction_date", date)] in
  filename <- BaseExtractor._save_json E platform_name data username ;;
  emit TgDisconnected ;;
  ui UiMuted "Disconnected" ;;
  export_done "Data saved" ;;
  ret (Some filename).

(** [if not self.api_id or not self.api_hash] *)
Definition has_credentials : bool :=
  truthy (opt_int api_id) && truthy (opt_str api_hash).

(** [run] *)
Definition run (username : string) : M (option string) :=
  if negb has_credentials
  then (ui UiError "Telegram API credentials required" ;; ret None) else
  if negb (has_telethon E)
  then (ui UiError "Missing dependency" ;; ret None) else
  _run_async username.

End Methods.
End TelegramExtractor.

(** ** More of [str], and of the UI *)

(** [str.lower], [str.upper] and [str.capitalize] on the ASCII range. *)
Definition lower_char (c : ascii) : ascii :=
  let n := nat_of_ascii c in
  if (65 <=? n) && (n <=? 90) then ascii_of_nat (n + 32) else c.

Definition upper_char (c : ascii) : ascii :=
  let n := nat_of_ascii c in
  if (97 <=? n) && (n <=? 122) then ascii_of_nat (n - 32) else c.

Fixpoint lower (s : string) : string :=
  match s with
  | EmptyString => EmptyString
  | String c r => String (lower_char c) (lower r)
  end.

Definition capitalize (s : string) : string :=
  match s with
  | EmptyString => EmptyString
  | String c r => String (upper_char c) (lower r)
  end.

(** [str.isdigit] on the ASCII range: not empty, and decimal digits only. *)
Definition isdigit (s : string) : bool :=
  negb (String.eqb s "") && forallb is_digit (list_ascii_of_string s).

(** Text of the ASCII range, which the definitions above cover. *)
Definition ascii_text (s : string) : bool :=
  forallb (fun c => nat_of_ascii c <? 128) (list_ascii_of_string s).

(** [x in names] for a list display of strings. *)
Definition among (x : string) (names : list string) : bool :=
  existsb (String.eqb x) names.

(** [d.get(k)] on a dict display with string keys. *)
Fixpoint dict_get {A} (k : string) (d : list (string * A)) : option A :=
  match d with
  | [] => None
  | (k', v) :: r => if String.eqb k' k then Some v else dict_get k r
  end.

(** [ui.choice_list(items)]: it prints an empty line, the numbered items
    and an empty line itself; the items are recorded as list items. *)
Definition choice_list (items : list string) : M unit :=
  ui UiSpace "" ;;
  for_each items (fun item => ui UiListItem ("{i}. " +:+ item)) ;;
  ui UiSpace "".

(** ** ExtractorOrchestrator *)
Module ExtractorOrchestrator.

(** The classes of the table [PLATFORMS]. *)
Inductive extractor_class : Type :=
| StackOverflowClass | YouTubeClass | GitHubClass | BlueskyClass
| MastodonClass | RedditClass | MediumClass | TelegramClass.

Record platform_info : Type := { name : string; class : extractor_class }.

(** [PLATFORMS]: [None] where the dict has no such key. *)
Definition PLATFORMS (platform_id : Z) : option platform_info :=
  match platform_id with
  | 1%Z => Some {| name := "stackoverflow"; class := StackOverflowClass |}
  | 2%Z => Some {| name := "youtube"; class := YouTubeClass |}
  | 3%Z => Some {| name := "github"; class := GitHubClass |}
  | 4%Z => Some {| name := "bluesky"; class := BlueskyClass |}
  | 5%Z => Some {| name := "mastodon"; class := MastodonClass |}
  | 6%Z => Some {| name := "reddit"; class := RedditClass |}
  | 7%Z => Some {| name := "medium"; class := MediumClass |}
  | 8%Z => Some {| name := "telegram"; class := TelegramClass |}
  | _ => None
  end.

(** An extractor object: its class and what [__init__] stored. *)
Inductive extractor : Type :=
| StackOverflow (api_key : option string)
| YouTube (api_key : option string)
| GitHub (token : option string)
| Bluesky
| Mastodon (instance : string)
| Reddit
| Medium
| Telegram (api_id : option Z) (api_hash : option string) (phone : option string)
    (session_name : string).

(** The keyword arguments [_create_extractor] passes. *)
Inductive kwargs : Type :=
| NoKw
| TokenKw (token : option string)
| ApiKeyKw (api_key : option string)
| InstanceKw (instance : string)
| TelegramKw (api_id : option Z) (api_hash : option string) (phone : option string)
    (session_name : string).

(** [extractor_class(self.ui, **kw)]: a keyword the constructor does not
    have is a [TypeError]. *)
Definition construct (c : extractor_class) (kw : kwargs) : val extractor :=
  match c, kw with
  | StackOverflowClass, NoKw => Val (StackOverflow None)
  | StackOverflowClass, ApiKeyKw k => Val (StackOverflow k)
  | YouTubeClass, NoKw => Val (YouTube None)
  | YouTubeClass, ApiKeyKw k => Val (YouTube k)
  | GitHubClass, NoKw => Val (GitHub None)
  | GitHubClass, TokenKw t => Val (GitHub t)
  | BlueskyClass, NoKw => Val Bluesky
  | MastodonClass, NoKw => Val (Mastodon "infosec.exchange")
  | MastodonClass, InstanceKw i => Val (Mastodon i)
  | RedditClass, NoKw => Val Reddit
  | MediumClass, NoKw => Val Medium
  | TelegramClass, NoKw => Val (Telegram None None None "telegram_session")
  | TelegramClass, TelegramKw i h p s => Val (Telegram i h p s)
  | _, _ => Err TypeError
  end.

Definition platform_name (x : extractor) : string :=
  match x with
  | StackOverflow _ => StackOverflowExtractor.platform_name
  | YouTube _ => YouTubeExtractor.platform_name
  | GitHub _ => GitHubExtractor.platform_name
  | Bluesky => BlueskyExtractor.platform_name
  | Mastodon _ => MastodonExtractor.platform_name
  | Reddit => RedditExtractor.platform_name
  | Medium => MediumExtractor.platform_name
  | Telegram _ _ _ _ => TelegramExtractor.platform_name
  end.

Section Methods.
Variable E : Env.

(** [extractor.run(username)], by the class of the object. *)
Definition run (x : extractor) (username : string) : M (option string) :=
  match x with
  | StackOverflow k => StackOverflowExtractor.run E k username
  | YouTube k => YouTubeExtractor.run E k username
  | GitHub t => GitHubExtractor.run E t username
  | Bluesky => BlueskyExtractor.run E username
  | Mastodon i => MastodonExtractor.run E i username
  | Reddit => RedditExtractor.run E username
  | Medium => MediumExtractor.run E username
  | Telegram i h _ _ => TelegramExtractor.run E i h username
  end.

(** [self.config.get(name, {})] followed by a [.get] on what it returns:
    the keys of the section, those of the empty dict [none] when there is
    no such section, and [AttributeError] when the section is no mapping. *)
Definition keys_of {A} (s : section A) (none : A) : val A :=
  match s with
  | Absent => Val none
  | Mapping keys => Val keys
  | NotMapping => Err AttributeError
  end.

Definition no_telegram_keys : telegram_keys :=
  {| telegram_api_id := None; telegram_api_hash := None; telegram_phone := None;
     telegram_session_name := None |}.

(** The keyword arguments [_create_extractor] builds for a platform name. *)
Definition kwargs_for (platform_name : string) : val kwargs :=
  let cfg := config E in
  if String.eqb platform_name "github"
  then match keys_of (github_section cfg) None with
       | Val token => Val (TokenKw token)
       | Err e => Err e
       end
  else if String.eqb platform_name "stackoverflow"
  then match keys_of (stackoverflow_section cfg) None with
       | Val api_key => Val (ApiKeyKw api_key)
       | Err e => Err e
       end
  else if String.eqb platform_name "youtube"
  then match keys_of (youtube_section cfg) None with
       | Val api_key => Val (ApiKeyKw api_key)
       | Err e => Err e
       end
  else if String.eqb platform_name "mastodon"
  then match keys_of (mastodon_section cfg) None with
       | Val instance => Val (InstanceKw (default "infosec.exchange" instance))
       | Err e => Err e
       end
  else if String.eqb platform_name "telegram"
  then match keys_of (telegram_section cfg) no_telegram_keys with
       | Val tg_config =>
           Val (TelegramKw (telegram_api_id tg_config) (telegram_api_hash tg_config)
                  (telegram_phone tg_config)
                  (default "telegram_session" (telegram_session_name tg_config)))
       | Err e => Err e
       end
  else Val NoKw.

(** [_create_extractor]: the object, or [None] with an error shown when
    reading the configuration or the constructor raised. *)
Definition _create_extractor (c : extractor_class) (platform_name : string)
  : M (option extractor) :=
  try_except
    (kw <- lift (kwargs_for platform_name) ;;
     x <- lift (construct c kw) ;;
     ret (Some x))
    any_exception
    (ui UiError "Failed to create extractor" ;; ret None).

(** [self.results[platform_name] = ...] *)
Definition record (platform_name : string) (e : entry) : M unit :=
  fun w => (Ok tt, recorded platform_name e w).

Definition failure (username : string) : entry :=
  {| e_username := username; e_success := false; e_filename := None |}.

Definition success (username dest : string) : entry :=
  {| e_username := username; e_success := true; e_filename := Some dest |}.

(** [shutil.move(filename, dest)] *)
Definition move (filename dest : string) : M unit :=
  match fs_move E filename dest with
  | Some e => raise e
  | None => emit (Moved filename dest)
  end.

(** The [try] of [_run_extractions] around one extraction. *)
Definition extract (x : extractor) (platform_name username : string) : M unit :=
  try_except
    (filename <- run x username ;;
     match filename with
     | Some f =>
         if negb (String.eqb f "") then
           let dest := results_dir E +:+ "/" +:+ f in
           move f dest ;;
           record platform_name (success username dest)
         else record platform_name (failure username)
     | None => record platform_name (failure username)
     end)
    any_exception
    (ui UiError "Extraction error" ;;
     record platform_name (failure username)).

(** One turn of the loop of [_run_extractions]. *)
Definition process (usernames : gmap Z string) (total idx : nat) (platform_id : Z)
  : M unit :=
  match PLATFORMS platform_id with
  | None => raise KeyError
  | Some platform_info =>
      let platform_name := name platform_info in
      match usernames !! platform_id with
      | None => raise KeyError
      | Some username =>
          ui UiHeader "{PLATFORM} ({idx}/{total})" ;;
          extractor <- _create_extractor (class platform_info) platform_name ;;
          match extractor with
          | Some x => extract x platform_name username
          | None => record platform_name (failure username)
          end ;;
          if idx <? total
          then (ui UiSpace "" ;; ui UiMuted "Cooling down..." ;; sleep 1000 ;;
                ui UiSpace "" ;; ui UiSeparator "" ;; ui UiSpace "")
          else ret tt
      end
  end.

(** [for idx, platform_id in enumerate(platforms, 1)], from [idx] on. *)
Fixpoint process_all (usernames : gmap Z string) (total idx : nat)
    (platforms : list Z) : M unit :=
  match platforms with
  | [] => ret tt
  | platform_id :: rest =>
      process usernames total idx platform_id ;;
      process_all usernames total (S idx) rest
  end.

(** [_run_extractions] *)
Definition _run_extractions (platforms : list Z) (usernames : gmap Z string) : M unit :=
  ui UiSeparator "" ;;
  ui UiSpace "" ;;
  process_all usernames (length platforms) 1 platforms.

(** [list(self.PLATFORMS.keys())], which is also the order of
    [sorted(self.PLATFORMS.items())]. *)
Definition platform_keys : list Z := [1; 2; 3; 4; 5; 6; 7; 8]%Z.

(** [PLATFORMS_BY_NAME], the dict
    [{info["name"]: pid for pid, info in PLATFORMS.items()}]. *)
Definition PLATFORMS_BY_NAME : gmap string Z :=
  foldl (fun by_name pid =>
           match PLATFORMS pid with
           | Some info => <[name info := pid]> by_name
           | None => by_name
           end) ∅ platform_keys.

(** [[self.PLATFORMS[i]['name'] for i in selected]] *)
Fixpoint platform_names (selected : list Z) : val (list string) :=
  match selected with
  | [] => Val []
  | i :: rest =>
      match PLATFORMS i with
      | None => Err KeyError
      | Some info =>
          match platform_names rest with
          | Val names => Val (name info :: names)
          | Err e => Err e
          end
      end
  end.

(** The body of the loop of [_parse_platform_arg] for one part: what it
    appends to [selected]. *)
Definition parse_part (part : string) : val (list Z) :=
  if isdigit part then
    match int_of_string part with
    | Some pid => Val (if bool_decide (is_Some (PLATFORMS pid)) then [pid] else [])
    | None => Err ValueError
    end
  else
    match PLATFORMS_BY_NAME !! lower part with
    | Some pid => Val [pid]
    | None => Val []
    end.

Fixpoint parse_parts (parts : list string) : val (list Z) :=
  match parts with
  | [] => Val []
  | part :: rest =>
      match parse_part part with
      | Val here =>
          match parse_parts rest with
          | Val more => Val (here ++ more)
          | Err e => Err e
          end
      | Err e => Err e
      end
  end.

(** [_parse_platform_arg] *)
Definition _parse_platform_arg (platforms_str : string) : val (list Z) :=
  parse_parts (strip <$> split "," platforms_str).

(** [_show_banner] *)
Definition _show_banner : M unit :=
  ui UiHeader "MOSAIC - MULTI-PLATFORM OSINT EXTRACTOR" ;;
  ui UiMuted "Version 2.0 - CLI Edition" ;;
  ui UiMuted "Unified extraction system for 8 social platforms" ;;
  ui UiSpace "".

(** [[int(x.strip()) for x in parts if x.strip()]] *)
Fixpoint ints_of (parts : list string) : val (list Z) :=
  match parts with
  | [] => Val []
  | x :: rest =>
      if String.eqb (strip x) "" then ints_of rest
      else match int_of_string (strip x) with
           | None => Err ValueError
           | Some z =>
               match ints_of rest with
               | Val zs => Val (z :: zs)
               | Err e => Err e
               end
           end
  end.

(** [[s for s in selected if s in self.PLATFORMS]] *)
Definition known (selected : list Z) : list Z :=
  filter (fun s => is_Some (PLATFORMS s)) selected.

(** [_select_platforms] *)
Definition _select_platforms : M (list Z) :=
  ui UiSection "Platform Selection" ;;
  let platform_list :=
    (fun info => "{icon} " +:+ capitalize (name info)) <$> omap PLATFORMS platform_keys in
  choice_list platform_list ;;
  line <- input E ;;
  let choice := strip line in
  selected <-
    (if String.eqb choice ""
     then (ui UiSuccess "All platforms selected" ;; ret platform_keys)
     else
       try_except
         (selected <- lift (ints_of (split "," choice)) ;;
          match known selected with
          | [] =>
              ui UiWarning "Invalid selection, using all platforms" ;;
              ret platform_keys
          | selected =>
              names <- lift (platform_names selected) ;;
              ui UiSuccess ("Selected: " +:+ join ", " names) ;;
              ret selected
          end)
         (fun e => match e with ValueError => true | _ => false end)
         (ui UiWarning "Invalid input, using all platforms" ;; ret platform_keys)) ;;
  ui UiSpace "" ;;
  ret selected.

(** The loop of [_configure_usernames] that asks a username for each
    platform. *)
Fixpoint ask_usernames (platforms : list Z) (usernames : gmap Z string)
  : M (gmap Z string) :=
  match platforms with
  | [] => ret usernames
  | platform_id :: rest =>
      match PLATFORMS platform_id with
      | None => raise KeyError
      | Some _ =>
          line <- input E ;;
          ask_usernames rest (<[platform_id := strip line]> usernames)
      end
  end.

(** [for platform_id in platforms: usernames[platform_id] = username] *)
Definition same_for_all (username : string) (platforms : list Z) : gmap Z string :=
  foldl (fun usernames platform_id => <[platform_id := username]> usernames) ∅ platforms.

(** [_configure_usernames] *)
Definition _configure_usernames (platforms : list Z) : M (gmap Z string) :=
  ui UiSection "Username Configuration" ;;
  line <- input E ;;
  let use_same := lower (strip line) in
  usernames <-
    (if among use_same ["y"; "yes"; "o"; "oui"; ""]
     then
       line <- input E ;;
       let username := strip line in
       ui UiSuccess ("Username '" +:+ username +:+ "' configured for all platforms") ;;
       ret (same_for_all username platforms)
     else
       ui UiSpace "" ;;
       usernames <- ask_usernames platforms ∅ ;;
       ui UiSuccess "Custom usernames configured" ;;
       ret usernames) ;;
  ui UiSpace "" ;;
  ret usernames.

(** The table [avg_times] of [_estimate_time]. *)
Definition avg_times : list (string * Z) :=
  [("stackoverflow", 10); ("youtube", 15); ("github", 8); ("bluesky", 12);
   ("mastodon", 12); ("reddit", 8); ("medium", 5); ("telegram", 20)]%Z.

(** [sum(avg_times.get(self.PLATFORMS[p]['name'], 10) for p in platforms)] *)
Fixpoint estimated_seconds (platforms : list Z) : val Z :=
  match platforms with
  | [] => Val 0%Z
  | p :: rest =>
      match PLATFORMS p with
      | None => Err KeyError
      | Some info =>
          match estimated_seconds rest with
          | Val total =>
              Val (default 10 (dict_get (name info) avg_times) + total)%Z
          | Err e => Err e
          end
      end
  end.

(** [_estimate_time] *)
Definition _estimate_time (platforms : list Z) : M unit :=
  lift (estimated_seconds platforms) ;;
  ui UiMetric "Estimated time: {minutes}m {seconds}s" ;;
  ui UiMuted "For {n} platform(s)" ;;
  ui UiSpace "".

(** [self.results]: the table as it is. *)
Definition the_results : M (gmap string entry) := fun w => (Ok (results w), w).

(** The lines of [_show_summary] for one platform of the table; the line
    it prints itself, with the name and the mark, is recorded as a list
    item. *)
Definition show_outcome (row : string * entry) : M unit :=
  let '(platform, data) := row in
  ui UiListItem (capitalize platform +:+ (if e_success data then " {ok}" else " {failed}")) ;;
  ui UiKeyValue ("Username: " +:+ e_username data) ;;
  (match e_filename data with
   | Some f => if negb (String.eqb f "") then ui UiMuted ("-> " +:+ f) else ret tt
   | None => ret tt
   end) ;;
  ui UiSpace "".

(** The three verdicts of [_show_summary]. *)
Definition all_succeeded : event := Ui UiSuccess "All extractions completed successfully!".
Definition partial_success : event := Ui UiWarning "Partial success".
Definition all_failed : event := Ui UiError "All extractions failed".

(** [_show_summary]; [start_time] is [self.start_time].  The platforms are
    listed in the order of the table here, in the order of their insertion
    in the source; the counts do not depend on the order. *)
Definition _show_summary (start_time : option datetime) : M unit :=
  ui UiSpace "" ;;
  ui UiSeparator "" ;;
  ui UiSpace "" ;;
  (match start_time with
   | Some _ => now E ;; ret tt
   | None => ret tt
   end) ;;
  ui UiHeader "GLOBAL SUMMARY" ;;
  ui UiMetric "Total duration: {minutes}m {seconds}s" ;;
  ui UiSpace "" ;;
  ui UiSubsection "Platforms Processed" ;;
  ui UiSpace "" ;;
  table <- the_results ;;
  let rows := map_to_list table in
  for_each rows show_outcome ;;
  let success_count := length (filter (fun row => e_success (snd row) = true) rows) in
  let total_count := length rows in
  emit (if (success_count =? total_count) && (0 <? total_count) then all_succeeded
        else if 0 <? success_count then partial_success
        else all_failed) ;;
  ui UiSpace "" ;;
  ui UiSeparator "" ;;
  ui UiSpace "" ;;
  ui UiMuted "All data saved to ./results/" ;;
  ui UiMuted "Thank you for using Mosaic!".

(** [_run_interactive_mode] *)
Definition _run_interactive_mode : M unit :=
  selected <- _select_platforms ;;
  usernames <- _configure_usernames selected ;;
  _estimate_time selected ;;
  start_time <- now E ;;
  _run_extractions selected usernames ;;
  _show_summary (Some start_time).

(** The arguments [create_parser] declares, as [parse_args] returns them:
    each is [None] or a string. *)
Record Args : Type := { pattern : option string; platforms : option string }.

(** How a call ends that can reach [sys.exit]: it returns, or the process
    exits with a code.  [SystemExit] is no subclass of [Exception]: no
    handler of the program catches it. *)
Inductive status : Type :=
| Returned
| Exited (code : Z).

(** [_run_cli_mode] *)
Definition _run_cli_mode (args : Args) : M status :=
  if negb (truthy (opt_str (pattern args)))
  then (ui UiError "Pattern required" ;; ret (Exited 1))
  else
    let username := default "" (pattern args) in
    platforms_str <- match platforms args with
                     | Some s => ret s
                     | None => raise AttributeError
                     end ;;
    selection <-
      (if String.eqb (lower platforms_str) "all"
       then (ui UiInfo "Mode: All platforms selected" ;; ret (Some platform_keys))
       else
         selected <- lift (_parse_platform_arg platforms_str) ;;
         match selected with
         | [] => ui UiError "Invalid platforms" ;; ret None
         | _ =>
             names <- lift (platform_names selected) ;;
             ui UiInfo ("Platforms: " +:+ join ", " names) ;;
             ret (Some selected)
         end) ;;
    match selection with
    | None => ret (Exited 1)
    | Some selected =>
        ui UiInfo ("Pattern: " +:+ username) ;;
        ui UiSpace "" ;;
        let usernames := same_for_all username selected in
        _estimate_time selected ;;
        start_time <- now E ;;
        _run_extractions selected usernames ;;
        _show_summary (Some start_time) ;;
        ret Returned
    end.

(** [if self.args and (self.args.pattern or self.args.platforms)] *)
Definition cli_mode (args : option Args) : bool :=
  match args with
  | Some a => truthy (opt_str (pattern a)) || truthy (opt_str (platforms a))
  | None => false
  end.

(** [ExtractorOrchestrator.run] *)
Definition run_ (args : option Args) : M status :=
  _show_banner ;;
  match args with
  | Some a =>
      if cli_mode args then _run_cli_mode a
      else (_run_interactive_mode ;; ret Returned)
  | None => _run_interactive_mode ;; ret Returned
  end.

(** [__init__]: the configuration is the one of the environment
    ([_load_config] returns a dict whatever happens), the table of results
    starts empty, and the results directory is made; [mkdir] is the
    exception of [self.results_dir.mkdir(exist_ok=True)], if one. *)
Definition __init__ (mkdir : option exn) : M unit :=
  fun w =>
    let w0 := {| requests := requests w; files := files w; trace := trace w;
                 now_calls := now_calls w; inputs := inputs w; results := ∅ |} in
    match mkdir with
    | Some e => (Raise e, w0)
    | None => (Ok tt, w0)
    end.

End Methods.
End ExtractorOrchestrator.

(** What [parser.parse_args()] makes of the command line: the arguments,
    or an exit of the process by the parser itself, which argparse does
    with status 2 for an option it does not know or a value that is
    missing, and with status 0 after [--help]. *)
Inductive command_line : Type :=
| Parsed (args : ExtractorOrchestrator.Args)
| ParserExit (code : Z).

(** [main]: the command line is parsed before the [try].  The traceback
    goes to the standard error and is not a call of the UI; the keyboard of
    the model interrupts nothing, so the [KeyboardInterrupt] clause has no
    counterpart. *)
Definition main (E : Env) (mkdir : option exn) (cmd : command_line)
  : M ExtractorOrchestrator.status :=
  match cmd with
  | ParserExit code => ret (ExtractorOrchestrator.Exited code)
  | Parsed args =>
      try_except
        (ExtractorOrchestrator.__init__ mkdir ;;
         ExtractorOrchestrator.run_ E (Some args))
        any_exception
        (ui UiSpace "" ;;
         ui UiError "Fatal error" ;;
         ui UiSpace "" ;;
         ret ExtractorOrchestrator.Returned)
  end.


(** ** The shapes of names and dates the specification speaks of *)

(** A pattern of characters: a decimal digit, or the character itself. *)
Inductive pat : Type :=
| Digit
| Lit (c : ascii).

Fixpoint matches (p : list pat) (s : string) : bool :=
  match p, s with
  | [], EmptyString => true
  | Digit :: p', String c s' => is_digit c && matches p' s'
  | Lit a :: p', String c s' => ascii_eqb a c && matches p' s'
  | _, _ => false
  end.

Definition lits (s : string) : list pat := Lit <$> list_ascii_of_string s.

(** [YYYY-MM-DDTHH:MM:SS], with [.ffffff] or without. *)
Definition iso_seconds : list pat :=
  replicate 4 Digit ++ lits "-" ++ replicate 2 Digit ++ lits "-" ++
  replicate 2 Digit ++ lits "T" ++ replicate 2 Digit ++ lits ":" ++
  replicate 2 Digit ++ lits ":" ++ replicate 2 Digit.

Definition is_iso8601 (s : string) : bool :=
  matches iso_seconds s || matches (iso_seconds ++ lits "." ++ replicate 6 Digit) s.

(** The time stamp as the specification words it: 14 digits. *)
Definition stamp14 : list pat := replicate 14 Digit.

(** The time stamp [%Y%m%d_%H%M%S] gives: 8 digits, an underscore, 6
    digits. *)
Definition stamp8_6 : list pat := replicate 8 Digit ++ lits "_" ++ replicate 6 Digit.

(** [{platform}_{identity}_{stamp}.json] *)
Definition file_name_is (stamp : list pat) (platform identity name : string) : bool :=
  matches (lits (platform +:+ "_" +:+ identity +:+ "_") ++ stamp ++ lits ".json") name.

(** [doc[k]] of a saved document. *)
Definition doc_field (k : string) (doc : json) : option json :=
  match doc with JObj kv => assoc k kv | _ => None end.

(** ** Environments to run the model in *)

Definition no_config : Config :=
  {| github_section := Absent; stackoverflow_section := Absent;
     youtube_section := Absent; mastodon_section := Absent;
     telegram_section := Absent |}.

(** 2026-11-03 15:13:00.25 at every reading. *)
Definition fixed_clock (n : nat) : datetime :=
  {| year := 2026; month := 11; day := 3; hour := 15; minute := 13; second := 0;
     microsecond := 250000 |}.

Definition str_or_empty (v : json) : string :=
  match v with JStr s => s | _ => "" end.

(** An environment with the given servers and keyboard, a fixed clock, no
    Telegram account behind the client, and an empty configuration. *)
Definition env_of (server : nat -> request -> reply) (keyboard : nat -> string) : Env :=
  {| http := server; clock := fixed_clock; stdin := keyboard;
     py_str := str_or_empty; local_strftime := fun _ _ => Val "1970-01-01";
     unescape := fun s => s; rss_items := fun _ => Some [];
     has_requests := true; has_telethon := true; tg_start := fun _ => (0, None);
     tg_get_entity := fun _ => Err UsernameNotOccupiedError;
     tg_iter_messages := fun _ _ => ([], None);
     fs_write := fun _ => None; fs_move := fun _ _ => None; results_dir := "results";
     config := no_config |}.

Definition json_reply (b : json) : reply :=
  Replied {| body := b; link_header := ""; text := "" |}.

(** The scenario of the specification: the profile of octocat with 8
    public repositories and 100 followers, two repositories, one event. *)
Definition octocat_server (n : nat) (r : request) : reply :=
  if String.eqb (url r) "https://api.github.com/users/octocat"
  then json_reply (JObj [("login", JStr "octocat"); ("public_repos", JInt 8);
                         ("followers", JInt 100)])
  else if String.eqb (url r) "https://api.github.com/users/octocat/repos"
  then json_reply (JArr [JObj [("name", JStr "Hello-World")];
                         JObj [("name", JStr "Spoon-Knife")]])
  else if String.eqb (url r) "https://api.github.com/users/octocat/events/public"
  then json_reply (JArr [JObj [("type", JStr "PushEvent")]])
  else Failed.

Definition octocat_env : Env := env_of octocat_server (fun _ => "").

(** ** The replies a client expects *)

(** A count is absent or a number. *)
Definition count_ok (kv : list (string * json)) (k : string) : bool :=
  match assoc k kv with
  | None | Some (JInt _) | Some (JBool _) => true
  | _ => false
  end.


Definition is_obj (v : json) : bool :=
  match v with JObj _ => true | _ => false end.



(** The three requests of a GitHub run. *)
Definition github_profile_request (token : option string) (username : string) : request :=
  {| url := GitHubExtractor.base_url +:+ "/users/" +:+ username;
     headers := GitHubExtractor.headers_ token; params := [] |}.





(** The request of a Medium run. *)
Definition medium_feed_request (username : string) : request :=
  {| url := "https://medium.com/feed/@" +:+ username; headers := []; params := [] |}.

(** A Medium server whose feed parses and has no item. *)
Definition empty_feed_env : Env :=
  env_of (fun _ _ => Replied {| body := JNull; link_header := ""; text := "<rss/>" |})
         (fun _ => "").

(** ** Bluesky handle resolution, as the specification words it *)

(** The request that resolves the handle [h]. *)
Definition bsky_resolve_request (h : string) : request :=
  {| url := BlueskyExtractor.resolve_url; headers := BlueskyExtractor.headers_;
     params := [("handle", JStr h)] |}.

(** The DID a reply carries, if it carries one. *)
Definition did_of (r : reply) : option json :=
  match r with
  | Replied x =>
      match body x with
      | JObj kv =>
          match assoc "did" kv with
          | Some d => if truthy d then Some d else None
          | None => None
          end
      | _ => None
      end
  | Failed => None
  end.

(** A reply that resolves nothing: a failure, or an object with no DID. *)
Definition no_did (r : reply) : Prop :=
  r = Failed \/ exists x kv, r = Replied x /\ body x = JObj kv /\ did_of r = None.

(** The variants the specification lists for an input, in its order. *)
Definition spec_variants (input : string) : list string :=
  [input; input +:+ ".bsky.social"; input +:+ ".com"].

(** The DID of the first of [hs] that resolves, asked from the [n]-th
    request on. *)
Fixpoint first_did (E : Env) (n : nat) (hs : list string) : option json :=
  match hs with
  | [] => None
  | h :: rest =>
      match did_of (http E n (bsky_resolve_request h)) with
      | Some d => Some d
      | None => first_did E (S n) rest
      end
  end.

(** A directory that knows one handle, [alice.dev.bsky.social]. *)
Definition alice_server (n : nat) (r : request) : reply :=
  match assoc "handle" (params r) with
  | Some (JStr h) =>
      if String.eqb h "alice.dev.bsky.social"
      then json_reply (JObj [("did", JStr "did:plc:alice")])
      else Failed
  | _ => Failed
  end.

Definition alice_env : Env := env_of alice_server (fun _ => "").

(** A directory that knows no handle. *)
Definition nobody_env : Env := env_of (fun _ _ => Failed) (fun _ => "").

(** ** Candidates of a selection *)

(** [u[key]] of a candidate, for the statements. *)
Definition candidate_field (key : string) (u : json) : json :=
  match u with JObj kv => default JNull (assoc key kv) | _ => JNull end.

(** A Stack Overflow user as the search returns it: an object with a
    [display_name] that is a string, a [user_id], and a [reputation] that is
    a number when it is there. *)
Definition so_candidate_ok (u : json) : bool :=
  match u with
  | JObj kv =>
      match assoc "display_name" kv with Some (JStr _) => true | _ => false end
      && count_ok kv "reputation"
      && match assoc "user_id" kv with Some _ => true | None => false end
  | _ => false
  end.

(** A count of YouTube: absent, or a value [int] accepts. *)
Definition int_ok (kv : list (string * json)) (k : string) : bool :=
  match assoc k kv with
  | None => true
  | Some v => match py_int v with Val _ => true | _ => false end
  end.

(** A YouTube channel as the search returns it: an object with an [id], a
    [snippet] whose [title] is a string, and [statistics] whose counts [int]
    accepts when they are there. *)
Definition yt_candidate_ok (c : json) : bool :=
  match c with
  | JObj kv =>
      match assoc "snippet" kv with
      | Some (JObj sn) =>
          match assoc "title" sn with Some (JStr _) => true | _ => false end
      | _ => false
      end
      && match assoc "statistics" kv with
         | None => true
         | Some (JObj st) => int_ok st "subscriberCount" && int_ok st "videoCount"
         | Some _ => false
         end
      && match assoc "id" kv with Some _ => true | None => false end
  | _ => false
  end.

(** [c['snippet']['title']] of a candidate, for the statements. *)
Definition yt_title (c : json) : json :=
  match c with
  | JObj kv => match assoc "snippet" kv with
               | Some (JObj sn) => default JNull (assoc "title" sn)
               | _ => JNull
               end
  | _ => JNull
  end.

(** The warning of a selection that falls back to the first candidate. *)
Definition so_fallback_warning : event :=
  Ui UiWarning "Invalid selection, using first user".
Definition yt_fallback_warning : event :=
  Ui UiWarning "Invalid selection, using first channel".

(** Five users and five channels to select from. *)
Definition so_user (name : string) (id : Z) : json :=
  JObj [("display_name", JStr name); ("reputation", JInt 10); ("user_id", JInt id)].

Definition five_users : list json :=
  [so_user "ann" 11; so_user "bob" 22; so_user "cat" 33; so_user "dan" 44;
   so_user "eve" 55].

Definition yt_channel (title id : string) : json :=
  JObj [("id", JStr id); ("snippet", JObj [("title", JStr title)]);
        ("statistics", JObj [("subscriberCount", JStr "1200"); ("videoCount", JStr "7")])].

Definition five_channels : list json :=
  [yt_channel "ann" "UC11"; yt_channel "bob" "UC22"; yt_channel "cat" "UC33";
   yt_channel "dan" "UC44"; yt_channel "eve" "UC55"].

(** An environment where the line typed is [line], always. *)
Definition typing (line : string) : Env := env_of (fun _ _ => Failed) (fun _ => line).

(** A Telegram channel with 1000 messages behind a client that honours
    its [limit]. *)
Definition a_message : tg_message :=
  {| msg_id := 1; msg_date := None; msg_text := Some "hello"; msg_views := None;
     msg_forwards := None; msg_media := false |}.

Definition chatty_env : Env :=
  {| http := fun _ _ => Failed; clock := fixed_clock; stdin := fun _ => "";
     py_str := str_or_empty; local_strftime := fun _ _ => Val "1970-01-01";
     unescape := fun s => s; rss_items := fun _ => Some [];
     has_requests := true; has_telethon := true; tg_start := fun _ => (0, None);
     tg_get_entity := fun _ => Err UsernameNotOccupiedError;
     tg_iter_messages := fun _ limit => (take limit (replicate 1000 a_message), None);
     fs_write := fun _ => None; fs_move := fun _ _ => None; results_dir := "results";
     config := no_config |}.

(** ** Paginated sources *)

(** An element of a Bluesky feed: an object whose [post], and the [record]
    and [author] of the post, are objects where they are there, and whose
    [uri] is a string. *)
Definition bsky_item_ok (item : json) : bool :=
  match item with
  | JObj kv =>
      match default (JObj []) (assoc "post" kv) with
      | JObj p =>
          is_obj (default (JObj []) (assoc "record" p)) &&
          is_obj (default (JObj []) (assoc "author" p)) &&
          is_str (default (JStr "") (assoc "uri" p))
      | _ => false
      end
  | _ => false
  end.

(** A page of a Bluesky feed with [n] elements; [more] tells whether it
    comes with a cursor. *)
Definition bsky_page (n : nat) (more : bool) (r : reply) : Prop :=
  exists resp kv items,
    r = Replied resp /\ body resp = JObj kv /\
    assoc "feed" kv = Some (JArr items) /\ length items = n /\
    forallb bsky_item_ok items = true /\
    truthy (default JNull (assoc "cursor" kv)) = more.

(** A page of a Bluesky feed without items: an object whose [feed] is
    absent, empty or null, whatever cursor comes with it. *)
Definition bsky_empty_page (r : reply) : Prop :=
  exists resp kv,
    r = Replied resp /\ body resp = JObj kv /\
    truthy (default (JArr []) (assoc "feed" kv)) = false.

(** A Mastodon status: an object whose [content] is a string. *)
Definition masto_status_ok (status : json) : bool :=
  match status with
  | JObj kv => is_str (default (JStr "") (assoc "content" kv))
  | _ => false
  end.

(** The [Link] header names a next page. *)
Definition has_next (link : string) : bool :=
  match MastodonExtractor._parse_link_header link "next" with
  | Some u => negb (String.eqb u "")
  | None => false
  end.

(** A page of Mastodon statuses with [n] elements; [more] tells whether
    its [Link] header names a next page. *)
Definition masto_page (n : nat) (more : bool) (r : reply) : Prop :=
  exists resp items,
    r = Replied resp /\ body resp = JArr items /\ length items = n /\
    forallb masto_status_ok items = true /\
    has_next (link_header resp) = more.

(** A page of Mastodon statuses without items: an empty body, whatever
    its [Link] header names. *)
Definition masto_empty_page (r : reply) : Prop :=
  exists resp, r = Replied resp /\ truthy (body resp) = false.

(** A Bluesky server with two pages of [n] posts, the first with a cursor. *)
Definition a_post : json :=
  JObj [("post", JObj [("uri", JStr "at://did:plc:x/app.bsky.feed.post/3k");
                       ("record", JObj [("text", JStr "hi")])])].

Definition two_pages_server (n : nat) (i : nat) (r : request) : reply :=
  match i with
  | 0 => json_reply (JObj [("feed", JArr (replicate n a_post)); ("cursor", JStr "c1")])
  | _ => json_reply (JObj [("feed", JArr (replicate n a_post))])
  end.

Definition two_pages_env (n : nat) : Env := env_of (two_pages_server n) (fun _ => "").

(** A Mastodon server with two pages of [n] statuses, the first with a
    [Link] header that names the next page and the previous one. *)
Definition a_status : json :=
  JObj [("id", JStr "7"); ("content", JStr "<p>hello<br>world</p>")].

Definition next_and_prev : string :=
  "<https://m.example/api/v1/accounts/1/statuses?max_id=5>; rel=" +:+ dquote +:+
  "next" +:+ dquote +:+
  ", <https://m.example/api/v1/accounts/1/statuses?min_id=9>; rel=" +:+ dquote +:+
  "prev" +:+ dquote.

Definition two_toot_pages_server (n : nat) (i : nat) (r : request) : reply :=
  match i with
  | 0 => Replied {| body := JArr (replicate n a_status); link_header := next_and_prev;
                    text := "" |}
  | _ => Replied {| body := JArr (replicate n a_status); link_header := ""; text := "" |}
  end.

Definition two_toot_pages_env (n : nat) : Env :=
  env_of (two_toot_pages_server n) (fun _ => "").

(** ** Identity resolution that fails *)

Definition so_search_request (api_key : option string) (username : string) : request :=
  {| url := StackOverflowExtractor.base_url +:+ "/users"; headers := [];
     params := [("inname", JStr username); ("pagesize", JInt 10);
                ("order", JStr "desc"); ("sort", JStr "reputation");
                ("site", JStr StackOverflowExtractor.site)]
               ++ StackOverflowExtractor.key_param api_key |}.

Definition yt_search_request (api_key : option string) (query : string) : request :=
  {| url := YouTubeExtractor.base_url +:+ "/search"; headers := [];
     params := [("part", JStr "snippet"); ("q", JStr query); ("type", JStr "channel");
                ("maxResults", JInt 10); ("key", YouTubeExtractor.key_value api_key)] |}.

Definition masto_lookup_request (instance username : string) : request :=
  {| url := MastodonExtractor.api_url instance +:+ "/accounts/lookup";
     headers := MastodonExtractor.headers_; params := [("acct", JStr username)] |}.

Definition reddit_about_request (username : string) : request :=
  {| url := RedditExtractor.base_url +:+ "/user/" +:+ username +:+ "/about.json";
     headers := RedditExtractor.headers_; params := [] |}.

(** A search that finds nobody: a failure, or an object without items. *)
Definition no_candidates (r : reply) : Prop :=
  r = Failed \/
  exists resp kv, r = Replied resp /\ body resp = JObj kv /\
                  truthy (default (JArr []) (assoc "items" kv)) = false.

(** Reddit's answer for a user it does not have: a failure, or an object
    without [data]. *)
Definition no_data (r : reply) : Prop :=
  r = Failed \/
  exists resp kv, r = Replied resp /\ body resp = JObj kv /\ assoc "data" kv = None.

(** The identity does not resolve, platform by platform: what the server
    (or the Telegram client) answers to the request that resolves it, from
    the world [w]. *)
Definition identity_unresolved (E : Env) (x : ExtractorOrchestrator.extractor)
    (username : string) (w : World) : Prop :=
  let n := length (requests w) in
  match x with
  | ExtractorOrchestrator.GitHub token =>
      http E n (github_profile_request token username) = Failed
  | ExtractorOrchestrator.StackOverflow api_key =>
      no_candidates (http E n (so_search_request api_key username))
  | ExtractorOrchestrator.YouTube api_key =>
      no_candidates (http E n (yt_search_request api_key username))
  | ExtractorOrchestrator.Bluesky =>
      forall j v, BlueskyExtractor.handles_to_try username !! j = Some v ->
                  no_did (http E (n + j) (bsky_resolve_request v))
  | ExtractorOrchestrator.Mastodon instance =>
      http E n (masto_lookup_request instance username) = Failed
  | ExtractorOrchestrator.Reddit =>
      no_data (http E n (reddit_about_request username))
  | ExtractorOrchestrator.Medium =>
      http E n (medium_feed_request username) = Failed \/
      exists r, http E n (medium_feed_request username) = Replied r /\
                rss_items E (text r) = None
  | ExtractorOrchestrator.Telegram _ _ _ _ =>
      exists e, tg_get_entity E (strip (remove_char "@" username)) = Err e
  end.

(** ** A server whose answers have the wrong shape *)

(** Every request is answered with the number 1. *)
Definition odd_env : Env := env_of (fun _ _ => json_reply (JInt 1)) (fun _ => "").

(** ** The table of results *)

(** What the table of results holds for the platforms of a list. *)
Definition covers (usernames : gmap Z string) (platforms : list Z) (w : World) : Prop :=
  forall p info username,
    p ∈ platforms ->
    ExtractorOrchestrator.PLATFORMS p = Some info ->
    usernames !! p = Some username ->
    exists e, results w !! ExtractorOrchestrator.name info = Some e /\
              e_username e = username.

(** ** Sources that never end, and sources that break *)

(** A Bluesky server whose every page has [n] posts and a cursor. *)
Definition endless_feed_env (n : nat) : Env :=
  env_of (fun _ _ => json_reply (JObj [("feed", JArr (replicate n a_post));
                                        ("cursor", JStr "c")]))
         (fun _ => "").

(** A Mastodon server whose every page has [n] statuses and names a next
    page. *)
Definition endless_toots_env (n : nat) : Env :=
  env_of (fun _ _ => Replied {| body := JArr (replicate n a_status);
                                link_header := next_and_prev; text := "" |})
         (fun _ => "").

(** The servers of [endless_feed_env] and [endless_toots_env] for the first
    [k] requests, and a failure for every request after them. *)
Definition broken_feed_env (n k : nat) : Env :=
  env_of (fun i r => if i <? k then http (endless_feed_env n) i r else Failed)
         (fun _ => "").

Definition broken_toots_env (n k : nat) : Env :=
  env_of (fun i r => if i <? k then http (endless_toots_env n) i r else Failed)
         (fun _ => "").

(** ** What a client needs before it starts *)

(** The client lacks the module it imports or the credentials it checks
    first: [requests] for the HTTP clients, the API key too for YouTube,
    [telethon] and the API id and hash for Telegram. *)
Definition missing_prerequisite (E : Env) (x : ExtractorOrchestrator.extractor) : bool :=
  match x with
  | ExtractorOrchestrator.YouTube api_key =>
      negb (YouTubeExtractor.has_key api_key) || negb (has_requests E)
  | ExtractorOrchestrator.Telegram api_id api_hash _ _ =>
      negb (TelegramExtractor.has_credentials api_id api_hash) || negb (has_telethon E)
  | _ => negb (has_requests E)
  end.

(** ** Lines read at the keyboard *)

(** [reads n m]: a run of [m] reads at most [n] lines. *)
Definition reads (n : nat) {A} (m : M A) : Prop :=
  forall w r w', m w = (r, w') -> inputs w <= inputs w' <= inputs w + n.

(** The clients that ask which candidates to extract. *)
Definition asks_for_a_selection (x : ExtractorOrchestrator.extractor) : bool :=
  match x with
  | ExtractorOrchestrator.StackOverflow _ | ExtractorOrchestrator.YouTube _ => true
  | _ => false
  end.

(** The lines the login of the Telegram client library reads when the run
    of a client reaches it with [n] lines read at the keyboard; the other
    clients have no such login. *)
Definition login_lines (E : Env) (x : ExtractorOrchestrator.extractor) (n : nat) : nat :=
  match x with
  | ExtractorOrchestrator.Telegram _ _ _ _ => fst (tg_start E n)
  | _ => 0
  end.

(** A Stack Overflow server that finds the five users and fails after that,
    and a keyboard that types 2. *)
Definition five_users_env : Env :=
  env_of (fun i _ => match i with
                     | 0 => json_reply (JObj [("items", JArr five_users)])
                     | _ => Failed
                     end)
         (fun _ => "2").

(** Seven users and seven channels; the Stack Overflow prompt displays five
    users. *)
Definition seven_users : list json :=
  five_users ++ [so_user "fay" 66; so_user "gus" 77].

Definition seven_channels : list json :=
  five_channels ++ [yt_channel "fay" "UC66"; yt_channel "gus" "UC77"].

(** ** What the front end leaves alone *)

(** The trace is extended, never rewritten. *)
Definition trace_grows : relation World :=
  fun w w' => exists evs, trace w' = trace w ++ evs.

(** The events that open the summary, before the lines of the platforms,
    and those that close it, after its verdict. *)
Definition summary_header : list event :=
  [Ui UiSpace ""; Ui UiSeparator ""; Ui UiSpace ""; Ui UiHeader "GLOBAL SUMMARY";
   Ui UiMetric "Total duration: {minutes}m {seconds}s"; Ui UiSpace "";
   Ui UiSubsection "Platforms Processed"; Ui UiSpace ""].


Definition summary_footer : list event :=
  [Ui UiSpace ""; Ui UiSeparator ""; Ui UiSpace "";
   Ui UiMuted "All data saved to ./results/"; Ui UiMuted "Thank you for using Mosaic!"].

(** The verdict [_show_summary] computes from the rows of the table. *)
Definition verdict_of (rows : list (string * entry)) : event :=
  let success_count := length (filter (fun row => e_success (snd row) = true) rows) in
  if (success_count =? length rows) && (0 <? length rows)
  then ExtractorOrchestrator.all_succeeded
  else if 0 <? success_count
       then ExtractorOrchestrator.partial_success
       else ExtractorOrchestrator.all_failed.


(** ** Command lines *)

(** [--pattern ghost --platforms reddit,7], and [--pattern octocat] alone. *)
Definition two_platforms_args : ExtractorOrchestrator.Args :=
  {| ExtractorOrchestrator.pattern := Some "ghost";
     ExtractorOrchestrator.platforms := Some "reddit,7" |}.

Definition pattern_only_args : ExtractorOrchestrator.Args :=
  {| ExtractorOrchestrator.pattern := Some "octocat";
     ExtractorOrchestrator.platforms := None |}.

(** The platforms a command line selects, when it selects some: all of
    them for [all] in any letter case, otherwise those
    [_parse_platform_arg] returns, if the list is not empty. *)
Definition selects (platforms_str : string) (selected : list Z) : Prop :=
  (String.eqb (lower platforms_str) "all" = true /\
   selected = ExtractorOrchestrator.platform_keys) \/
  (String.eqb (lower platforms_str) "all" = false /\
   ExtractorOrchestrator._parse_platform_arg platforms_str = Val selected /\
   selected <> []).

(** What [_show_banner] shows, and what [main] shows when it catches an
    exception. *)
Definition banner_shown : list event :=
  [Ui UiHeader "MOSAIC - MULTI-PLATFORM OSINT EXTRACTOR";
   Ui UiMuted "Version 2.0 - CLI Edition";
   Ui UiMuted "Unified extraction system for 8 social platforms"; Ui UiSpace ""].


Definition fatal_error_shown : list event :=
  [Ui UiSpace ""; Ui UiError "Fatal error"; Ui UiSpace ""].

(** ** Bodies of an unexpected shape *)

(** The section of the configuration that [_create_extractor] reads for a
    platform name can be read: it is absent or a mapping.  The platforms
    that have no section (Bluesky, Reddit, Medium) read none. *)
Definition readable {A} (s : section A) : bool :=
  match s with
  | NotMapping => false
  | _ => true
  end.

Definition section_usable (cfg : Config) (platform_name : string) : bool :=
  if String.eqb platform_name "github" then readable (github_section cfg)
  else if String.eqb platform_name "stackoverflow" then readable (stackoverflow_section cfg)
  else if String.eqb platform_name "youtube" then readable (youtube_section cfg)
  else if String.eqb platform_name "mastodon" then readable (mastodon_section cfg)
  else if String.eqb platform_name "telegram" then readable (telegram_section cfg)
  else true.

(** A configuration file with an empty [github:] section, and nothing
    else but the defaults of the scenario of octocat. *)
Definition null_github_env : Env :=
  {| http := http octocat_env; clock := clock octocat_env; stdin := stdin octocat_env;
     py_str := py_str octocat_env; local_strftime := local_strftime octocat_env;
     unescape := unescape octocat_env; rss_items := rss_items octocat_env;
     has_requests := true; has_telethon := true; tg_start := tg_start octocat_env;
     tg_get_entity := tg_get_entity octocat_env;
     tg_iter_messages := tg_iter_messages octocat_env;
     fs_write := fs_write octocat_env; fs_move := fs_move octocat_env;
     results_dir := "results";
     config := {| github_section := NotMapping; stackoverflow_section := Absent;
                  youtube_section := Absent; mastodon_section := Absent;
                  telegram_section := Absent |} |}.

(** The clients whose first request is answered with a JSON body they use
    at once: all but Medium (an RSS feed) and Telegram (no HTTP). *)
Definition reads_json_first (E : Env) (x : ExtractorOrchestrator.extractor) : bool :=
  match x with
  | ExtractorOrchestrator.Medium | ExtractorOrchestrator.Telegram _ _ _ _ => false
  | ExtractorOrchestrator.YouTube api_key => YouTubeExtractor.has_key api_key
  | _ => true
  end.

(** ** [Link] headers *)

(** One link of a [Link] header, [<url>; rel="name"], and a header of
    links to the next page ([true]) and to the previous one ([false]),
    separated by a comma and a blank as Mastodon sends them. *)
Definition link (u rel : string) : string :=
  "<" +:+ u +:+ ">; rel=" +:+ dquote +:+ rel +:+ dquote.

Definition rel_name (next : bool) : string := if next then "next" else "prev".

Definition header_of (links : list (string * bool)) : string :=
  join ", " ((fun l => link (fst l) (rel_name (snd l))) <$> links).

(** The piece of a header for one link: the link, after a blank for all
    but the first. *)
Definition piece (p : bool * (string * bool)) : string :=
  (if fst p then " " else "") +:+ link (fst (snd p)) (rel_name (snd (snd p))).

(** A URL the header can carry: it has neither a comma nor a semicolon. *)
Definition plain_url (u : string) : bool :=
  negb (has_char "," u) && negb (has_char ";" u).

(** The URL of the first link to the next page. *)
Fixpoint first_next (links : list (string * bool)) : option string :=
  match links with
  | [] => None
  | (u, next) :: rest => if next then Some u else first_next rest
  end.


(** ** Requests sent *)

(** [sends n m]: a run of [m] keeps the requests sent before it and adds
    at most [n]. *)
Definition sends (n : nat) {A} (m : M A) : Prop :=
  forall w r w', m w = (r, w') ->
    exists l, requests w' = requests w ++ l /\ length l <= n.

(** The requests one run can send, for the clients that select nothing at
    the keyboard: GitHub and Reddit send three requests, Medium one, Telegram
    none over HTTP; Mastodon looks the account up and pages at most
    [max_toots] times; Bluesky tries at most three handles, fetches the
    profile and pages at most [max_posts] times. *)
Definition request_budget (x : ExtractorOrchestrator.extractor) : option nat :=
  match x with
  | ExtractorOrchestrator.GitHub _ => Some 3
  | ExtractorOrchestrator.Reddit => Some 3
  | ExtractorOrchestrator.Medium => Some 1
  | ExtractorOrchestrator.Telegram _ _ _ _ => Some 0
  | ExtractorOrchestrator.Mastodon _ => Some (1 + MastodonExtractor.max_toots)
  | ExtractorOrchestrator.Bluesky => Some (3 + 1 + BlueskyExtractor.max_posts)
  | ExtractorOrchestrator.StackOverflow _ | ExtractorOrchestrator.YouTube _ => None
  end.
(** * Properties *)

(** ** How computations compose *)

Lemma bind_run {A B} (m : M A) (k : A -> M B) w a w1 :
  m w = (Ok a, w1) -> bind m k w = k a w1.
Proof. intros H. unfold bind. now rewrite H. Qed.

Lemma bind_raise {A B} (m : M A) (k : A -> M B) w e w1 :
  m w = (Raise e, w1) -> bind m k w = (Raise e, w1).
Proof. intros H. unfold bind. now rewrite H. Qed.

Lemma bind_inv {A B} (m : M A) (k : A -> M B) w r w' :
  bind m k w = (r, w') ->
  (exists a w1, m w = (Ok a, w1) /\ k a w1 = (r, w')) \/
  (exists e, m w = (Raise e, w') /\ r = Raise e) \/
  (m w = (Diverge, w') /\ r = Diverge).
Proof.
  unfold bind. destruct (m w) as [[a|e|] w1]; intros H.
  - left. eauto.
  - right. left. inversion H. eauto.
  - right. right. inversion H. eauto.
Qed.

Lemma try_except_inv {A} (m : M A) handles (h : M A) w r w' :
  try_except m handles h w = (r, w') ->
  (m w = (r, w') /\ forall e, r = Raise e -> handles e = false) \/
  (exists e w1, m w = (Raise e, w1) /\ handles e = true /\ h w1 = (r, w')).
Proof.
  unfold try_except. destruct (m w) as [[a|e|] w1] eqn:Hm; intros H.
  - left. inversion H; subst. split; [done|]. intros e He. discriminate.
  - destruct (handles e) eqn:Hh.
    + right. eauto.
    + left. inversion H; subst. split; [done|]. intros e' He'. by inversion He'; subst.
  - left. inversion H; subst. split; [done|]. intros e He. discriminate.
Qed.

(** ** What a computation leaves alone

    [respects R m]: every run of [m] takes a world to one that [R] relates
    to it, whatever its outcome. *)

Definition respects (R : relation World) {A} (m : M A) : Prop :=
  forall w r w', m w = (r, w') -> R w w'.

(** The relations used: the same files, the same keyboard position. *)
Definition same_files : relation World := fun w w' => files w' = files w.
Definition same_inputs : relation World := fun w w' => inputs w' = inputs w.
Definition same_requests : relation World := fun w w' => requests w' = requests w.

#[local] Instance same_files_preorder : PreOrder same_files.
Proof. split; unfold same_files; [done | intros x y z H1 H2; congruence]. Qed.
#[local] Instance same_inputs_preorder : PreOrder same_inputs.
Proof. split; unfold same_inputs; [done | intros x y z H1 H2; congruence]. Qed.
#[local] Instance same_requests_preorder : PreOrder same_requests.
Proof. split; unfold same_requests; [done | intros x y z H1 H2; congruence]. Qed.

(** A relation that the steps which only extend the trace respect. *)
Class Quiet (R : relation World) : Prop := {
  quiet_pre :: PreOrder R;
  quiet_log : forall ev w, R w (log ev w) }.

#[local] Instance same_files_quiet : Quiet same_files.
Proof. split; [apply _ | done]. Qed.
#[local] Instance same_inputs_quiet : Quiet same_inputs.
Proof. split; [apply _ | done]. Qed.
#[local] Instance same_requests_quiet : Quiet same_requests.
Proof. split; [apply _ | done]. Qed.

(** The same table of results. *)
Definition same_results : relation World := fun w w' => results w' = results w.

#[local] Instance same_results_preorder : PreOrder same_results.
Proof. split; unfold same_results; [done | intros x y z H1 H2; congruence]. Qed.
#[local] Instance same_results_quiet : Quiet same_results.
Proof. split; [apply _ | done]. Qed.

Section Respects.
Context (R : relation World) `{!Quiet R}.

Lemma respects_ret {A} (a : A) : respects R (ret a).
Proof. intros w r w' H. inversion H. reflexivity. Qed.

Lemma respects_raise {A} e : respects R (@raise A e).
Proof. intros w r w' H. inversion H. reflexivity. Qed.

Lemma respects_diverge {A} : respects R (@diverge A).
Proof. intros w r w' H. inversion H. reflexivity. Qed.

Lemma respects_lift {A} (x : val A) : respects R (lift x).
Proof. intros w r w' H. inversion H. reflexivity. Qed.

Lemma respects_bind {A B} (m : M A) (k : A -> M B) :
  respects R m -> (forall a, respects R (k a)) -> respects R (bind m k).
Proof.
  intros Hm Hk w r w' H. apply bind_inv in H as [(a & w1 & H1 & H2)|[(e & H1 & _)|[H1 _]]].
  - etransitivity; [by eapply Hm | by eapply Hk].
  - by eapply Hm.
  - by eapply Hm.
Qed.

Lemma respects_try {A} (m : M A) handles h :
  respects R m -> respects R h -> respects R (try_except m handles h).
Proof.
  intros Hm Hh w r w' H. apply try_except_inv in H as [[H _]|(e & w1 & H1 & _ & H2)].
  - by eapply Hm.
  - etransitivity; [by eapply Hm | by eapply Hh].
Qed.

Lemma respects_emit ev : respects R (emit ev).
Proof. intros w r w' H. inversion H. apply quiet_log. Qed.

Lemma respects_ui k t : respects R (ui k t).
Proof. apply respects_emit. Qed.

Lemma respects_sleep n : respects R (sleep n).
Proof. apply respects_emit. Qed.

Lemma respects_for_each {A} (xs : list A) body :
  (forall x, respects R (body x)) -> respects R (for_each xs body).
Proof.
  intros Hb. induction xs as [|x xs IH]; simpl.
  - apply respects_ret.
  - apply respects_bind; [apply Hb | intros _; apply IH].
Qed.

Lemma respects_map_m {A B} (f : A -> M B) xs :
  (forall x, respects R (f x)) -> respects R (map_m f xs).
Proof.
  intros Hf. induction xs as [|x xs IH]; simpl.
  - apply respects_ret.
  - apply respects_bind; [apply Hf | intros y].
    apply respects_bind; [apply IH | intros ys; apply respects_ret].
Qed.

End Respects.

Create HintDb frame discriminated.

Lemma frame_requests_get E u hs ps : respects same_files (requests_get E u hs ps).
Proof.
  intros w r w' H. unfold requests_get in H.
  destruct (http E _ _); inversion H; reflexivity.
Qed.

Lemma frame_now E : respects same_files (now E).
Proof. intros w r w' H. inversion H. reflexivity. Qed.

Lemma frame_input E : respects same_files (input E).
Proof. intros w r w' H. inversion H. reflexivity. Qed.

Lemma frame_record name e : respects same_files (ExtractorOrchestrator.record name e).
Proof. intros w r w' H. inversion H. reflexivity. Qed.

Lemma frame_tg_start E : respects same_files (TelegramExtractor.start E).
Proof.
  intros w r w' H. unfold TelegramExtractor.start in H.
  destruct (tg_start E _) as [k [e|]]; inversion H; reflexivity.
Qed.

#[local] Hint Resolve frame_requests_get frame_now frame_input frame_record
  frame_tg_start : frame.

(** One step of a proof that a computation respects a relation: by the
    shape of the computation. *)
Ltac quiet := try (solve [apply _]).

Ltac respects_step :=
  match goal with
  | |- respects _ (bind _ _) => apply respects_bind; quiet; [| intros ?]
  | |- respects _ (ret _) => apply respects_ret; quiet
  | |- respects _ (raise _) => apply respects_raise; quiet
  | |- respects _ diverge => apply respects_diverge; quiet
  | |- respects _ (lift _) => apply respects_lift; quiet
  | |- respects _ (try_except _ _ _) => apply respects_try; quiet
  | |- respects _ (ui _ _) => apply respects_ui; quiet
  | |- respects _ (emit _) => apply respects_emit; quiet
  | |- respects _ (sleep _) => apply respects_sleep; quiet
  | |- respects _ (for_each _ _) => apply respects_for_each; quiet; intros ?
  | |- respects _ (map_m _ _) => apply respects_map_m; quiet; intros ?
  | |- respects _ (if ?b then _ else _) => destruct b
  | |- respects _ (match ?x with _ => _ end) => destruct x
  | |- respects _ _ => solve [eauto with frame]
  end.

Ltac respects := repeat respects_step.

(** ** No method before [_save_json] writes a file *)

Lemma frame_now_iso E : respects same_files (now_iso E).
Proof. unfold now_iso. respects. Qed.

Lemma frame_import_requests E : respects same_files (import_requests E).
Proof. unfold import_requests. respects. Qed.

Lemma frame_export_done l : respects same_files (export_done l).
Proof. unfold export_done. respects. Qed.

#[local] Hint Resolve frame_now_iso frame_import_requests frame_export_done : frame.

Lemma frame_extract_all extract what total idx ids :
  (forall id, respects same_files (extract id)) ->
  respects same_files (extract_all extract what total idx ids).
Proof.
  intros H. revert idx. induction ids as [|id ids IH]; intros idx; simpl; respects.
Qed.

#[local] Hint Resolve frame_extract_all : frame.

(** GitHub *)
Lemma frame_github_user_info E t u :
  respects same_files (GitHubExtractor._get_user_info E t u).
Proof. unfold GitHubExtractor._get_user_info, GitHubExtractor.show_bio. respects. Qed.

Lemma frame_github_repositories E t u :
  respects same_files (GitHubExtractor._get_repositories E t u).
Proof.
  unfold GitHubExtractor._get_repositories, GitHubExtractor.parse_repo. respects.
Qed.

Lemma frame_github_events E t u :
  respects same_files (GitHubExtractor._get_events E t u).
Proof.
  unfold GitHubExtractor._get_events, GitHubExtractor.parse_event. respects.
Qed.

#[local] Hint Resolve frame_github_user_info frame_github_repositories
  frame_github_events : frame.

(** Stack Overflow *)
Lemma frame_so_search_users E k u :
  respects same_files (StackOverflowExtractor._search_users E k u).
Proof. unfold StackOverflowExtractor._search_users. respects. Qed.

Lemma frame_so_select_user E users :
  respects same_files (StackOverflowExtractor._select_user E users).
Proof.
  unfold StackOverflowExtractor._select_user, StackOverflowExtractor.select_field,
    StackOverflowExtractor.field_at, StackOverflowExtractor.show_user.
  respects.
Qed.

Lemma frame_so_make_request E k ep ps :
  respects same_files (StackOverflowExtractor._make_request E k ep ps).
Proof. unfold StackOverflowExtractor._make_request. respects. Qed.

#[local] Hint Resolve frame_so_search_users frame_so_select_user
  frame_so_make_request : frame.

Lemma frame_so_get_profile E k id :
  respects same_files (StackOverflowExtractor._get_profile E k id).
Proof. unfold StackOverflowExtractor._get_profile. respects. Qed.

Lemma frame_so_get_items E k a b c d id :
  respects same_files (StackOverflowExtractor.get_items E k a b c d id).
Proof. unfold StackOverflowExtractor.get_items. respects. Qed.

#[local] Hint Resolve frame_so_get_profile frame_so_get_items : frame.

Lemma frame_so_extract_user_data E k id :
  respects same_files (StackOverflowExtractor._extract_user_data E k id).
Proof.
  unfold StackOverflowExtractor._extract_user_data,
    StackOverflowExtractor._get_questions, StackOverflowExtractor._get_answers,
    StackOverflowExtractor._get_badges.
  respects.
Qed.

#[local] Hint Resolve frame_so_extract_user_data : frame.

(** YouTube *)
Lemma frame_yt_search_channels E k q :
  respects same_files (YouTubeExtractor._search_channels E k q).
Proof. unfold YouTubeExtractor._search_channels. respects. Qed.

Lemma frame_yt_select_channels E channels :
  respects same_files (YouTubeExtractor._select_channels E channels).
Proof.
  unfold YouTubeExtractor._select_channels, YouTubeExtractor.show_channel,
    YouTubeExtractor.title_at, YouTubeExtractor.id_at.
  respects.
Qed.

Lemma frame_yt_get_channel_info E k id :
  respects same_files (YouTubeExtractor._get_channel_info E k id).
Proof. unfold YouTubeExtractor._get_channel_info. respects. Qed.

Lemma frame_yt_get_videos E k id :
  respects same_files (YouTubeExtractor._get_videos E k id).
Proof. unfold YouTubeExtractor._get_videos, YouTubeExtractor.parse_video. respects. Qed.

#[local] Hint Resolve frame_yt_search_channels frame_yt_select_channels
  frame_yt_get_channel_info frame_yt_get_videos : frame.

Lemma frame_yt_extract_channel_data E k id :
  respects same_files (YouTubeExtractor._extract_channel_data E k id).
Proof. unfold YouTubeExtractor._extract_channel_data. respects. Qed.

#[local] Hint Resolve frame_yt_extract_channel_data : frame.

(** Bluesky *)
Lemma frame_bsky_try_handle E h : respects same_files (BlueskyExtractor.try_handle E h).
Proof. unfold BlueskyExtractor.try_handle. respects. Qed.

#[local] Hint Resolve frame_bsky_try_handle : frame.

Lemma frame_bsky_resolve_handle E h :
  respects same_files (BlueskyExtractor._resolve_handle E h).
Proof.
  unfold BlueskyExtractor._resolve_handle.
  apply respects_bind; quiet; [respects | intros _].
  induction (BlueskyExtractor.handles_to_try h) as [|x xs IH]; simpl; respects.
Qed.

Lemma frame_bsky_get_profile E a : respects same_files (BlueskyExtractor._get_profile E a).
Proof. unfold BlueskyExtractor._get_profile. respects. Qed.

Lemma frame_bsky_posts_turn E a st :
  respects same_files (BlueskyExtractor.posts_turn E a st).
Proof.
  unfold BlueskyExtractor.posts_turn, BlueskyExtractor.parse_post. respects.
Qed.

#[local] Hint Resolve frame_bsky_resolve_handle frame_bsky_get_profile
  frame_bsky_posts_turn : frame.

Lemma frame_bsky_posts_loop E fuel a st :
  respects same_files (BlueskyExtractor.posts_loop E fuel a st).
Proof. revert st. induction fuel as [|fuel IH]; intros st; simpl; respects. Qed.

#[local] Hint Resolve frame_bsky_posts_loop : frame.

Lemma frame_bsky_get_posts E a : respects same_files (BlueskyExtractor._get_posts E a).
Proof. unfold BlueskyExtractor._get_posts. respects. Qed.

#[local] Hint Resolve frame_bsky_get_posts : frame.

(** Mastodon *)
Lemma frame_masto_search_account E i u :
  respects same_files (MastodonExtractor._search_account E i u).
Proof. unfold MastodonExtractor._search_account. respects. Qed.

Lemma frame_masto_statuses_turn E st :
  respects same_files (MastodonExtractor.statuses_turn E st).
Proof.
  unfold MastodonExtractor.statuses_turn, MastodonExtractor.parse_status.
  destruct st as [[all u] ps]. respects.
Qed.

#[local] Hint Resolve frame_masto_search_account frame_masto_statuses_turn : frame.

Lemma frame_masto_statuses_loop E fuel st :
  respects same_files (MastodonExtractor.statuses_loop E fuel st).
Proof. revert st. induction fuel as [|fuel IH]; intros st; simpl; respects. Qed.

#[local] Hint Resolve frame_masto_statuses_loop : frame.

Lemma frame_masto_get_statuses E i id :
  respects same_files (MastodonExtractor._get_statuses E i id).
Proof. unfold MastodonExtractor._get_statuses. respects. Qed.

#[local] Hint Resolve frame_masto_get_statuses : frame.

(** Reddit *)
Lemma frame_reddit_user_info E u : respects same_files (RedditExtractor._get_user_info E u).
Proof. unfold RedditExtractor._get_user_info. respects. Qed.

Lemma frame_reddit_children d : respects same_files (RedditExtractor.children d).
Proof. unfold RedditExtractor.children. respects. Qed.

#[local] Hint Resolve frame_reddit_user_info frame_reddit_children : frame.

Lemma frame_reddit_posts E u : respects same_files (RedditExtractor._get_posts E u).
Proof. unfold RedditExtractor._get_posts, RedditExtractor.parse_post. respects. Qed.

Lemma frame_reddit_comments E u : respects same_files (RedditExtractor._get_comments E u).
Proof. unfold RedditExtractor._get_comments, RedditExtractor.parse_comment. respects. Qed.

#[local] Hint Resolve frame_reddit_posts frame_reddit_comments : frame.

(** Medium *)
Lemma frame_medium_fetch_articles E u :
  respects same_files (MediumExtractor._fetch_articles E u).
Proof.
  unfold MediumExtractor._fetch_articles, MediumExtractor.show_article. respects.
Qed.

#[local] Hint Resolve frame_medium_fetch_articles : frame.

(** Telegram *)
Lemma frame_tg_connect E : respects same_files (TelegramExtractor._connect E).
Proof. unfold TelegramExtractor._connect. respects. Qed.

Lemma frame_tg_entity_info E u : respects same_files (TelegramExtractor._get_entity_info E u).
Proof. unfold TelegramExtractor._get_entity_info. respects. Qed.

Lemma frame_tg_collect acc stream : respects same_files (TelegramExtractor.collect acc stream).
Proof. revert acc. induction stream as [|m ms IH]; intros acc; simpl; respects. Qed.

#[local] Hint Resolve frame_tg_connect frame_tg_entity_info frame_tg_collect : frame.

Lemma frame_tg_extract_messages E u :
  respects same_files (TelegramExtractor._extract_messages E u).
Proof. unfold TelegramExtractor._extract_messages. respects. Qed.

#[local] Hint Resolve frame_tg_extract_messages : frame.

(** ** A run that returns a name has saved one file under it *)

Lemma is_digit_digit n : is_digit (digit n) = true.
Proof.
  unfold digit. pose proof (Z.mod_pos_bound n 10 eq_refl) as H.
  assert (Hc : exists k, Z.to_nat (n mod 10) = k /\ k < 10) by (eexists; split; [done | lia]).
  destruct Hc as (k & -> & Hk).
  do 10 (destruct k as [|k]; [reflexivity |]). lia.
Qed.

Lemma matches_app p1 p2 s1 s2 :
  matches p1 s1 = true -> matches p2 s2 = true -> matches (p1 ++ p2) (s1 +:+ s2) = true.
Proof.
  revert s1. induction p1 as [|x p1 IH]; intros s1 H1 H2.
  - destruct s1; [done | discriminate].
  - destruct s1 as [|c s1]; [by destruct x |]. simpl in *.
    destruct x; apply andb_true_iff in H1 as [Hc H1]; rewrite Hc; simpl; by apply IH.
Qed.

Lemma matches_lits s : matches (lits s) s = true.
Proof.
  induction s as [|c s IH]; [done |]. unfold lits in *. simpl.
  unfold ascii_eqb. by rewrite Ascii.eqb_refl.
Qed.

Lemma matches_pad2 n : matches (replicate 2 Digit) (pad2 n) = true.
Proof.
  unfold pad2.
  change (is_digit (digit (n / 10)) && (is_digit (digit n) && true) = true).
  by rewrite !is_digit_digit.
Qed.

Lemma matches_pad4 n : matches (replicate 4 Digit) (pad4 n) = true.
Proof. unfold pad4. apply (matches_app (replicate 2 Digit) (replicate 2 Digit)); apply matches_pad2. Qed.

Lemma matches_pad6 n : matches (replicate 6 Digit) (pad6 n) = true.
Proof.
  unfold pad6. apply (matches_app (replicate 2 Digit) (replicate 4 Digit));
    [apply matches_pad2 | apply matches_pad4].
Qed.

Ltac shape :=
  repeat match goal with
         | |- matches (_ ++ _) (_ +:+ _) = true => apply matches_app
         | |- matches _ (pad6 _) = true => exact (matches_pad6 _)
         | |- matches _ (pad4 _) = true => exact (matches_pad4 _)
         | |- matches _ (pad2 _) = true => exact (matches_pad2 _)
         | |- matches (lits ?s) ?s = true => exact (matches_lits _)
         end.

Lemma strftime_file_shape t : matches stamp8_6 (strftime_file t) = true.
Proof.
  unfold stamp8_6, strftime_file.
  change (replicate 8 Digit) with (replicate 4 Digit ++ replicate 2 Digit ++ replicate 2 Digit).
  change (replicate 6 Digit) with (replicate 2 Digit ++ replicate 2 Digit ++ replicate 2 Digit).
  rewrite <- !(assoc_L (++)). shape.
Qed.

Lemma isoformat_shape t : is_iso8601 (isoformat t) = true.
Proof.
  unfold is_iso8601, isoformat, iso_seconds. apply orb_true_iff.
  destruct (microsecond t =? 0)%Z.
  - left.
    replace (pad2 (second t) +:+ "") with (pad2 (second t)) by reflexivity.
    shape.
  - right. rewrite <- !(assoc_L (++)). shape.
Qed.



(** [saved E p u w w' f]: from [w] to [w'] one file was written, named [f]
    after the platform, the user and a reading of the clock, and holding a
    document dated by a reading of the clock. *)
Definition saved (E : Env) (platform username : string) (w w' : World) (f : string)
  : Prop :=
  exists data n n',
    files w' = files w ++ [(f, JObj data)] /\
    f = platform +:+ "_" +:+ username +:+ "_" +:+ strftime_file (clock E n) +:+ ".json" /\
    assoc "extraction_date" data = Some (JStr (isoformat (clock E n'))).

(** [saves E p u m]: [m] saves a file when it returns a name, and writes
    nothing otherwise. *)
Definition saves (E : Env) (platform username : string) (m : M (option string)) : Prop :=
  forall w r w', m w = (r, w') ->
    match r with
    | Ok (Some f) => saved E platform username w w' f
    | _ => files w' = files w
    end.

Lemma saves_ret_none E p u : saves E p u (ret None).
Proof. intros w r w' H. by inversion H. Qed.

Lemma saves_frame_bind E p u {A} (m : M A) k :
  respects same_files m -> (forall a, saves E p u (k a)) -> saves E p u (bind m k).
Proof.
  intros Hm Hk w r w' H.
  apply bind_inv in H as [(a & w1 & H1 & H2)|[(e & H1 & ->)|[H1 ->]]].
  - apply Hm in H1. apply Hk in H2. unfold same_files in H1.
    destruct r as [[f|]|e|]; try congruence.
    destruct H2 as (data & n & n' & Hf & Hn & Hd). exists data, n, n'. by rewrite <- H1.
  - by apply Hm in H1.
  - by apply Hm in H1.
Qed.

Lemma saves_date E p u (k : json -> M (option string)) :
  (forall n, saves E p u (k (JStr (isoformat (clock E n))))) ->
  saves E p u (bind (now_iso E) k).
Proof.
  intros Hk w r w' H. unfold now_iso, now, bind, ret in H.
  apply Hk in H. destruct r as [[f|]|e|]; try done.
Qed.

Lemma saves_save E p u data n' (k : string -> M (option string)) :
  assoc "extraction_date" data = Some (JStr (isoformat (clock E n'))) ->
  (forall f w, exists w', k f w = (Ok (Some f), w') /\ files w' = files w) ->
  saves E p u (bind (BaseExtractor._save_json E p (JObj data) u) k).
Proof.
  intros Hd Hk w r w' H.
  unfold BaseExtractor._save_json, now, write_json, bind, ret in H.
  destruct (fs_write E _) as [e|]; [by inversion H |].
  match type of H with k ?f ?w1 = _ => destruct (Hk f w1) as (w2 & Hk2 & Hf) end.
  rewrite Hk2 in H. inversion H; subst.
  exists data, (now_calls w), n'. rewrite Hf. done.
Qed.

Ltac saves_step :=
  lazy zeta;
  match goal with
  | |- saves _ _ _ (ret None) => apply saves_ret_none
  | |- saves _ _ _ (bind (now_iso _) _) => apply saves_date; intros ?
  | |- saves _ _ _ (bind (BaseExtractor._save_json _ _ _ _) _) =>
      eapply saves_save; [reflexivity | intros ? ?; eexists; split; reflexivity]
  | |- saves _ _ _ (bind _ _) => apply saves_frame_bind; [solve [respects] | intros ?]
  | |- saves _ _ _ (if ?b then _ else _) => destruct b
  | |- saves _ _ _ (match ?x with _ => _ end) => destruct x
  end.

Lemma saves_run E x u :
  saves E (ExtractorOrchestrator.platform_name x) u (ExtractorOrchestrator.run E x u).
Proof.
  destruct x; simpl.
  - unfold StackOverflowExtractor.run. repeat saves_step.
  - unfold YouTubeExtractor.run. repeat saves_step.
  - unfold GitHubExtractor.run. repeat saves_step.
  - unfold BlueskyExtractor.run. repeat saves_step.
  - unfold MastodonExtractor.run. repeat saves_step.
  - unfold RedditExtractor.run. repeat saves_step.
  - unfold MediumExtractor.run. repeat saves_step.
  - unfold TelegramExtractor.run, TelegramExtractor._run_async. repeat saves_step.
Qed.

Lemma sapp_nil (b : string) : "" +:+ b = b.
Proof. reflexivity. Qed.

Lemma sapp_cons x (a b : string) : String x a +:+ b = String x (a +:+ b).
Proof. reflexivity. Qed.

Lemma sapp_assoc (a b c : string) : (a +:+ b) +:+ c = a +:+ (b +:+ c).
Proof.
  induction a as [|x a IH]; [by rewrite !sapp_nil |].
  by rewrite !sapp_cons, IH.
Qed.

Lemma file_name_shape platform username t :
  file_name_is stamp8_6 platform username
    (platform +:+ "_" +:+ username +:+ "_" +:+ strftime_file t +:+ ".json") = true.
Proof.
  unfold file_name_is.
  replace (platform +:+ "_" +:+ username +:+ "_" +:+ strftime_file t +:+ ".json")
    with ((platform +:+ "_" +:+ username +:+ "_") +:+ (strftime_file t +:+ ".json"))
    by (by rewrite !sapp_assoc).
  apply matches_app; [apply matches_lits |].
  apply matches_app; [apply strftime_file_shape | apply matches_lits].
Qed.

(** C1, as the code has it: a run of any extractor that returns a name has
    written exactly one file, under that name; the name is the platform,
    the user and a time stamp of 8 digits, an underscore and 6 digits, with
    the extension json; the file holds a JSON document whose
    [extraction_date] is a date in ISO 8601 form. *)
Theorem run_saves_one_dated_file E x username w f w' :
  (forall n, wf_datetime (clock E n)) ->
  ExtractorOrchestrator.run E x username w = (Ok (Some f), w') ->
  exists doc date,
    files w' = files w ++ [(f, doc)] /\
    file_name_is stamp8_6 (ExtractorOrchestrator.platform_name x) username f = true /\
    doc_field "extraction_date" doc = Some (JStr date) /\
    is_iso8601 date = true.
Proof.
  intros _ H. apply saves_run in H as (data & n & n' & Hf & -> & Hd).
  exists (JObj data), (isoformat (clock E n')).
  split; [done |]. split; [apply file_name_shape |].
  split; [done | apply isoformat_shape].
Qed.

Lemma run_saves_one_dated_file_witness :
  exists doc date,
    files (snd (ExtractorOrchestrator.run octocat_env (ExtractorOrchestrator.GitHub None)
                  "octocat" empty_world))
    = [("github_octocat_20261103_151300.json", doc)] /\
    file_name_is stamp8_6 "github" "octocat" "github_octocat_20261103_151300.json" = true /\
    doc_field "extraction_date" doc = Some (JStr date) /\
    is_iso8601 date = true.
Proof.
  apply (run_saves_one_dated_file octocat_env (ExtractorOrchestrator.GitHub None)
           "octocat" empty_world).
  - intros n. unfold wf_datetime. simpl. lia.
  - vm_compute. reflexivity.
Defined.

(** C1, as the specification words it, fails: the name the GitHub run of
    the scenario saves under has no time stamp of 14 digits. *)
Lemma file_stamp_is_not_14_digits :
  exists w',
    ExtractorOrchestrator.run octocat_env (ExtractorOrchestrator.GitHub None)
      "octocat" empty_world
    = (Ok (Some "github_octocat_20261103_151300.json"), w') /\
    file_name_is stamp14 "github" "octocat" "github_octocat_20261103_151300.json" = false.
Proof. eexists. split; vm_compute; reflexivity. Qed.

(** ** Running a method on a world *)

(** Unfold the monad and the steps that only touch the world. *)
Ltac exec :=
  cbv [bind ui emit sleep ret raise lift diverge try_except requests_get now now_iso
       input write_json import_requests export_done BaseExtractor._save_json];
  cbn [requests files trace now_calls inputs results log sent written ticked typed
       recorded].

Lemma map_m_lift_ok {A B} (f : A -> M B) (g : A -> B) xs w :
  (forall x w0, x ∈ xs -> f x w0 = (Ok (g x), w0)) ->
  map_m f xs w = (Ok (g <$> xs), w).
Proof.
  induction xs as [|x xs IH]; intros H; simpl; [done |].
  unfold bind. rewrite H by set_solver. rewrite IH by (intros; apply H; set_solver).
  done.
Qed.


(** ** GitHub: a failed profile is fatal, failed events are not *)

Lemma github_user_info_failed E token username w :
  http E (length (requests w)) (github_profile_request token username) = Failed ->
  exists w', GitHubExtractor._get_user_info E token username w = (Ok JNull, w') /\
    files w' = files w.
Proof.
  intros H. unfold GitHubExtractor._get_user_info. exec.
  fold (github_profile_request token username). rewrite H. cbn.
  eexists. split; reflexivity.
Qed.


Lemma map_m_pure {A B} (f : A -> M B) xs :
  (forall x, x ∈ xs -> forall w, exists v, f x w = (Ok v, w)) ->
  forall w, exists vs, map_m f xs w = (Ok vs, w) /\ length vs = length xs.
Proof.
  induction xs as [|x xs IH]; intros H w.
  - by exists [].
  - destruct (H x ltac:(set_solver) w) as (v & Hv).
    destruct (IH ltac:(intros; apply H; set_solver) w) as (vs & Hvs & Hl).
    exists (v :: vs). simpl. unfold bind. rewrite Hv, Hvs. by rewrite Hl.
Qed.

Lemma forallb_elem_of {A} (p : A -> bool) xs x :
  forallb p xs = true -> x ∈ xs -> p x = true.
Proof.
  intros H Hin. rewrite forallb_forall in H. apply H. by apply list_elem_of_In.
Qed.





(** ** Medium: an empty feed *)

Lemma medium_run_none E username w :
  let answer := http E (length (requests w)) (medium_feed_request username) in
  (answer = Failed \/
   exists r, answer = Replied r /\
             (rss_items E (text r) = None \/ rss_items E (text r) = Some [])) ->
  exists w', MediumExtractor.run E username w = (Ok None, w') /\ files w' = files w.
Proof.
  intros answer H. unfold MediumExtractor.run. exec.
  destruct (has_requests E); cbn [negb]; [| by eexists].
  unfold MediumExtractor._fetch_articles. exec.
  fold (medium_feed_request username). fold answer.
  destruct H as [-> | (r & -> & [Hp | Hp])]; [| rewrite Hp ..]; cbn; by eexists.
Qed.

(** C10: for the Medium client, when the feed is fetched and parsed and has
    no item, the run returns [None] and writes no file; so does a run whose
    fetch fails and a run whose feed does not parse. *)
Theorem medium_empty_feed_is_failure E username w :
  let answer := http E (length (requests w)) (medium_feed_request username) in
  (answer = Failed \/
   exists r, answer = Replied r /\
             (rss_items E (text r) = None \/ rss_items E (text r) = Some [])) ->
  exists w', MediumExtractor.run E username w = (Ok None, w') /\ files w' = files w.
Proof. apply medium_run_none. Qed.

Lemma medium_empty_feed_is_failure_witness :
  exists w', MediumExtractor.run empty_feed_env "nobody" empty_world = (Ok None, w') /\
             files w' = files empty_world.
Proof.
  apply medium_empty_feed_is_failure.
  right. eexists. split; [reflexivity | right; reflexivity].
Defined.

(** ** Bluesky: the handles asked, in order *)

(** Close a goal [exists w', m w = (r, w') /\ P w' /\ Q w'] once [m w] has
    been computed. *)
Ltac ran := eexists; split; [reflexivity | split; reflexivity].

Lemma bsky_try_handle_none E h w :
  no_did (http E (length (requests w)) (bsky_resolve_request h)) ->
  exists w', BlueskyExtractor.try_handle E h w = (Ok JNull, w') /\
    files w' = files w /\ requests w' = requests w ++ [bsky_resolve_request h].
Proof.
  intros H. unfold BlueskyExtractor.try_handle. exec.
  fold (bsky_resolve_request h).
  destruct H as [H | (x & kv & H & Hb & Hd)]; rewrite H.
  - cbn. ran.
  - rewrite H in Hd. cbn [did_of] in Hd. rewrite Hb in *. cbn [py_get].
    destruct (assoc "did" kv) as [d|]; cbn [default id].
    + destruct (truthy d); [discriminate |]. ran.
    + cbn. ran.
Qed.

Lemma bsky_try_handle_some E h w did :
  did_of (http E (length (requests w)) (bsky_resolve_request h)) = Some did ->
  truthy did = true /\
  exists w', BlueskyExtractor.try_handle E h w = (Ok did, w') /\
    files w' = files w /\ requests w' = requests w ++ [bsky_resolve_request h].
Proof.
  intros H. unfold BlueskyExtractor.try_handle. exec.
  fold (bsky_resolve_request h).
  destruct (http E _ _) as [|x]; [discriminate |]. cbn [did_of] in H.
  destruct (body x) as [| | | | |kv]; try discriminate. cbn [py_get].
  destruct (assoc "did" kv) as [d|]; [| discriminate]. cbn [default id].
  destruct (truthy d) eqn:Ht; [| discriminate]. inversion H; subst.
  split; [done |]. ran.
Qed.

Lemma bsky_try_handles_none E hs : forall w,
  (forall j v, hs !! j = Some v ->
     no_did (http E (length (requests w) + j) (bsky_resolve_request v))) ->
  exists w', BlueskyExtractor.try_handles E hs w = (Ok JNull, w') /\
    files w' = files w /\ requests w' = requests w ++ (bsky_resolve_request <$> hs).
Proof.
  induction hs as [|h hs IH]; intros w H.
  - cbn. eexists. split; [reflexivity |]. split; [done |]. cbn. by rewrite app_nil_r.
  - cbn [BlueskyExtractor.try_handles]. unfold bind at 1.
    destruct (bsky_try_handle_none E h w) as (w1 & -> & Hf & Hr).
    { specialize (H 0 h eq_refl). by rewrite Nat.add_0_r in H. }
    cbn [truthy].
    destruct (IH w1) as (w2 & -> & Hf2 & Hr2).
    { intros j v Hj. rewrite Hr, length_app. cbn [length].
      specialize (H (S j) v Hj). by replace (length (requests w) + 1 + j)
        with (length (requests w) + S j) by lia. }
    eexists. split; [reflexivity |]. split; [congruence |].
    rewrite Hr2, Hr. cbn [fmap list_fmap]. by rewrite <- app_assoc.
Qed.

Lemma bsky_try_handles_first E hs : forall k v did w,
  hs !! k = Some v ->
  did_of (http E (length (requests w) + k) (bsky_resolve_request v)) = Some did ->
  (forall j v', j < k -> hs !! j = Some v' ->
     no_did (http E (length (requests w) + j) (bsky_resolve_request v'))) ->
  exists w', BlueskyExtractor.try_handles E hs w = (Ok did, w') /\
    files w' = files w /\
    requests w' = requests w ++ (bsky_resolve_request <$> take (S k) hs).
Proof.
  induction hs as [|h hs IH]; intros k v did w Hk Hd Hno; [done |].
  cbn [BlueskyExtractor.try_handles]. unfold bind at 1.
  destruct k as [|k].
  - inversion Hk; subst. rewrite Nat.add_0_r in Hd.
    destruct (bsky_try_handle_some E v w did Hd) as (Ht & w1 & -> & Hf & Hr).
    rewrite Ht. exec. eexists. split; [reflexivity |]. split; [done |].
    exact Hr.
  - destruct (bsky_try_handle_none E h w) as (w1 & -> & Hf & Hr).
    { specialize (Hno 0 h ltac:(lia) eq_refl). by rewrite Nat.add_0_r in Hno. }
    cbn [truthy].
    destruct (IH k v did w1) as (w2 & -> & Hf2 & Hr2).
    + done.
    + rewrite Hr, length_app. cbn [length].
      by replace (length (requests w) + 1 + k) with (length (requests w) + S k) by lia.
    + intros j v' Hj Hv'. rewrite Hr, length_app. cbn [length].
      specialize (Hno (S j) v' ltac:(lia) Hv').
      by replace (length (requests w) + 1 + j) with (length (requests w) + S j) by lia.
    + eexists. split; [reflexivity |]. split; [congruence |].
      rewrite Hr2, Hr. rewrite <- app_assoc. done.
Qed.

(** C2, as the code has it: the input loses its [@] signs and the white
    space around it; the handle that is left is asked first, and only when
    it has no dot are the handle with [.bsky.social] and the handle with
    [.com] asked after it, in this order.  The first handle whose reply
    carries a DID gives the result, and no later handle is asked; when no
    handle gives a DID, the run returns [None] and writes no file. *)
Theorem bluesky_resolution_order E input w :
  has_requests E = true ->
  let h := strip (remove_char "@" input) in
  let hs := if has_char "." h then [h]
            else [h; h +:+ ".bsky.social"; h +:+ ".com"] in
  let n := length (requests w) in
  (forall k v did,
     hs !! k = Some v ->
     did_of (http E (n + k) (bsky_resolve_request v)) = Some did ->
     (forall j v', j < k -> hs !! j = Some v' ->
        no_did (http E (n + j) (bsky_resolve_request v'))) ->
     exists w', BlueskyExtractor._resolve_handle E input w = (Ok did, w') /\
                requests w' = requests w ++ (bsky_resolve_request <$> take (S k) hs)) /\
  ((forall j v', hs !! j = Some v' ->
      no_did (http E (n + j) (bsky_resolve_request v'))) ->
   exists w', BlueskyExtractor.run E input w = (Ok None, w') /\
              files w' = files w /\
              requests w' = requests w ++ (bsky_resolve_request <$> hs)).
Proof.
  intros Hreq h hs n.
  assert (Hhs : BlueskyExtractor.handles_to_try input = hs).
  { unfold BlueskyExtractor.handles_to_try. fold h. subst hs.
    by destruct (has_char "." h). }
  split.
  - intros k v did Hk Hd Hno. unfold BlueskyExtractor._resolve_handle. exec.
    rewrite Hhs.
    match goal with |- context [BlueskyExtractor.try_handles _ _ ?w0] =>
      destruct (bsky_try_handles_first E hs k v did w0 Hk Hd Hno) as (w1 & -> & _ & Hr)
    end.
    eexists. split; [reflexivity | exact Hr].
  - intros Hno. unfold BlueskyExtractor.run, BlueskyExtractor._resolve_handle. exec.
    rewrite Hreq, Hhs. cbn [negb].
    match goal with |- context [BlueskyExtractor.try_handles _ _ ?w0] =>
      destruct (bsky_try_handles_none E hs w0 Hno) as (w1 & -> & Hf & Hr)
    end.
    cbn [truthy negb]. eexists. split; [reflexivity |]. split; [exact Hf | exact Hr].
Qed.

Lemma bluesky_resolution_order_witness :
  exists w', BlueskyExtractor.run nobody_env "@alice" empty_world = (Ok None, w') /\
             files w' = [] /\
             requests w' = bsky_resolve_request <$>
                             ["alice"; "alice.bsky.social"; "alice.com"].
Proof.
  apply (bluesky_resolution_order nobody_env "@alice" empty_world eq_refl).
  intros j v' _. left. reflexivity.
Defined.

(** C2, as the specification words it, fails: on the input [alice.dev] the
    second variant of the specification, [alice.dev.bsky.social], resolves
    to a DID, so the first variant that resolves would give that DID; the
    code asks for [alice.dev] alone and the run returns [None]. *)
Lemma bluesky_dotted_handle_is_not_extended :
  first_did alice_env 0 (spec_variants "alice.dev") = Some (JStr "did:plc:alice") /\
  exists w1 w2,
    BlueskyExtractor._resolve_handle alice_env "alice.dev" empty_world = (Ok JNull, w1) /\
    requests w1 = [bsky_resolve_request "alice.dev"] /\
    BlueskyExtractor.run alice_env "alice.dev" empty_world = (Ok None, w2).
Proof. split; [| eexists _, _; split; [| split]]; vm_compute; reflexivity. Qed.

(** ** Selecting candidates *)

Lemma parse_indices_inv n parts r :
  parse_indices n parts = r ->
  r = Err ValueError \/ exists sel, r = Val sel /\ Forall (fun i => i < n) sel.
Proof.
  revert r. induction parts as [|p parts IH]; intros r <-; simpl.
  - right. by exists [].
  - destruct (int_of_string (strip p)) as [z|]; [| by left].
    destruct (IH _ eq_refl) as [-> | (sel & -> & Hsel)]; [by left |].
    right. eexists. split; [reflexivity |].
    destruct ((0 <=? z - 1)%Z && (z - 1 <? Z.of_nat n)%Z) eqn:Hb; [| done].
    apply andb_true_iff in Hb as [H1 H2].
    constructor; [lia | done].
Qed.

Lemma so_field_at l key i u w :
  l !! i = Some u -> is_Some (match u with JObj kv => assoc key kv | _ => None end) ->
  StackOverflowExtractor.field_at (JArr l) key i w = (Ok (candidate_field key u), w).
Proof.
  intros Hi [v Hv]. unfold StackOverflowExtractor.field_at. exec.
  cbn [py_index]. rewrite Hi. destruct u; try discriminate.
  cbn [py_item candidate_field]. by rewrite Hv.
Qed.

Lemma so_candidate_name u :
  so_candidate_ok u = true ->
  is_Some (match u with JObj kv => assoc "display_name" kv | _ => None end) /\
  is_str (candidate_field "display_name" u) = true.
Proof.
  destruct u as [| | | | |kv]; try discriminate. simpl.
  destruct (assoc "display_name" kv) as [[]|]; try discriminate. by split; [eexists|].
Qed.

Lemma so_candidate_id u :
  so_candidate_ok u = true ->
  is_Some (match u with JObj kv => assoc "user_id" kv | _ => None end).
Proof.
  destruct u as [| | | | |kv]; try discriminate. simpl.
  intros H. apply andb_true_iff in H as [_ H].
  destruct (assoc "user_id" kv); [by eexists | discriminate].
Qed.

Lemma so_select_field l key sel w :
  Forall (fun i => i < length l) sel ->
  (forall u, u ∈ l -> is_Some (match u with JObj kv => assoc key kv | _ => None end)) ->
  StackOverflowExtractor.select_field (JArr l) key sel w
  = (Ok ((fun i => candidate_field key (default JNull (l !! i))) <$> sel), w).
Proof.
  intros Hsel Hl. unfold StackOverflowExtractor.select_field.
  apply map_m_lift_ok. intros i w0 Hi.
  rewrite Forall_forall in Hsel. specialize (Hsel i Hi).
  destruct (lookup_lt_is_Some_2 l i Hsel) as [u Hu]. rewrite Hu. cbn [default].
  apply so_field_at; [done |]. apply Hl. by eapply list_elem_of_lookup_2.
Qed.

Lemma for_each_ok {A} (body : A -> M unit) xs :
  (forall x, x ∈ xs -> forall w, exists w', body x w = (Ok tt, w')) ->
  forall w, exists w', for_each xs body w = (Ok tt, w').
Proof.
  induction xs as [|x xs IH]; intros H w; [by eexists |].
  destruct (H x ltac:(set_solver) w) as (w1 & Hw1).
  destruct (IH ltac:(intros; apply H; set_solver) w1) as (w2 & Hw2).
  exists w2. simpl. unfold bind. by rewrite Hw1.
Qed.

Lemma so_show_user_ok u w :
  so_candidate_ok u = true ->
  exists w', StackOverflowExtractor.show_user u w = (Ok tt, w').
Proof.
  destruct u as [| | | | |kv]; try discriminate. intros H.
  unfold so_candidate_ok in H. apply andb_true_iff in H as [H _].
  apply andb_true_iff in H as [_ H]. unfold count_ok in H.
  unfold StackOverflowExtractor.show_user. exec. cbn [py_get].
  destruct (assoc "reputation" kv) as [[]|]; try discriminate; cbn; by eexists.
Qed.

Lemma same_inputs_for_each_show l :
  respects same_inputs (for_each l StackOverflowExtractor.show_user).
Proof. unfold StackOverflowExtractor.show_user. respects. Qed.

Lemma so_shown l w :
  forallb so_candidate_ok l = true ->
  exists w', for_each (take 5 l) StackOverflowExtractor.show_user w = (Ok tt, w') /\
             inputs w' = inputs w.
Proof.
  intros H.
  destruct (for_each_ok StackOverflowExtractor.show_user (take 5 l)) with (w := w)
    as (w' & Hw').
  { intros x Hx w0. apply so_show_user_ok. apply (forallb_elem_of _ _ _ H).
    apply elem_of_take in Hx as (i & Hi & _). by eapply list_elem_of_lookup_2. }
  exists w'. split; [done |]. by apply same_inputs_for_each_show in Hw'.
Qed.

Lemma map_lookup_seq {A B} (f : A -> B) (d : A) (l : list A) :
  (fun i => f (default d (l !! i))) <$> seq 0 (length l) = f <$> l.
Proof.
  assert (H : forall pre, (fun i => f (default d ((pre ++ l) !! i)))
                            <$> seq (length pre) (length l) = f <$> l).
  { induction l as [|x l IH]; intros pre; [done |]. simpl.
    rewrite list_lookup_middle by done. simpl. f_equal.
    specialize (IH (pre ++ [x])). rewrite length_app in IH. simpl in IH.
    rewrite Nat.add_1_r in IH. by rewrite <- app_assoc in IH. }
  apply (H []).
Qed.

Lemma so_names_join l sel :
  forallb so_candidate_ok l = true ->
  Forall (fun i => i < length l) sel ->
  py_join_check ((fun i => candidate_field "display_name" (default JNull (l !! i))) <$> sel)
  = Val tt.
Proof.
  intros Hl Hsel. unfold py_join_check.
  replace (forallb is_str _) with true; [done |]. symmetry.
  apply forallb_forall. intros v Hv. apply list_elem_of_In in Hv.
  apply list_elem_of_fmap in Hv as (i & -> & Hi).
  rewrite Forall_forall in Hsel. specialize (Hsel i Hi).
  destruct (lookup_lt_is_Some_2 l i Hsel) as [u Hu]. rewrite Hu. cbn [default].
  apply so_candidate_name. apply (forallb_elem_of _ _ _ Hl).
  by eapply list_elem_of_lookup_2.
Qed.

(** The outcome of [_select_user] on well-formed candidates, by what the
    line typed selects. *)
Lemma so_select_user_cases E l w :
  l <> [] -> forallb so_candidate_ok l = true ->
  let choice := strip (stdin E (inputs w)) in
  let id_at i := candidate_field "user_id" (default JNull (l !! i)) in
  (String.eqb choice "" = true /\
   exists w', StackOverflowExtractor._select_user E (JArr l) w
              = (Ok (candidate_field "user_id" <$> l), w')) \/
  (String.eqb choice "" = false /\
   parse_indices (length l) (split "," choice) = Err ValueError /\
   exists w', StackOverflowExtractor._select_user E (JArr l) w = (Ok [id_at 0], w') /\
              so_fallback_warning ∈ trace w') \/
  (String.eqb choice "" = false /\
   parse_indices (length l) (split "," choice) = Val [] /\
   exists w', StackOverflowExtractor._select_user E (JArr l) w = (Ok [id_at 0], w') /\
              so_fallback_warning ∈ trace w') \/
  (String.eqb choice "" = false /\
   exists i sel, parse_indices (length l) (split "," choice) = Val (i :: sel) /\
   exists w', StackOverflowExtractor._select_user E (JArr l) w
              = (Ok (id_at <$> i :: sel), w')).
Proof.
  intros Hne Hl choice id_at.
  assert (Hname : forall u, u ∈ l ->
            is_Some (match u with JObj kv => assoc "display_name" kv | _ => None end)).
  { intros u Hu. apply so_candidate_name. by apply (forallb_elem_of _ _ _ Hl). }
  assert (Hid : forall u, u ∈ l ->
            is_Some (match u with JObj kv => assoc "user_id" kv | _ => None end)).
  { intros u Hu. apply so_candidate_id. by apply (forallb_elem_of _ _ _ Hl). }
  assert (H0 : Forall (fun i => i < length l) [0]).
  { constructor; [| done]. destruct l; [done | simpl; lia]. }
  unfold StackOverflowExtractor._select_user. exec. cbn [py_prefix py_iter py_len].
  match goal with |- context [for_each _ _ ?w0] =>
    destruct (so_shown l w0 Hl) as (w1 & Hw1 & Hin)
  end.
  cbn [inputs log] in Hin. rewrite Hw1. cbn [inputs log typed]. rewrite Hin. fold choice.
  destruct (String.eqb choice "") eqn:Hc; cbv beta iota.
  - left. split; [done |].
    assert (Hall : Forall (fun i => i < length l) (range (length l))).
    { apply Forall_seq. intros; lia. }
    rewrite so_select_field by done. cbv beta iota.
    destruct (length _ =? 1); [| rewrite so_names_join by done]; cbv beta iota;
      rewrite so_select_field by done; unfold range; rewrite map_lookup_seq;
      by eexists.
  - right.
    destruct (parse_indices_inv (length l) (split "," choice) _ eq_refl)
      as [Hp | (sel & Hp & Hsel)]; rewrite Hp; cbv beta iota.
    + left. split; [done |]. split; [done |].
      cbn [py_index]. destruct l as [|u l]; [done |]. cbn [lookup list_lookup].
      destruct (Hid u ltac:(set_solver)) as [v Hv].
      destruct u; try discriminate. cbn [py_item]. rewrite Hv.
      eexists. split; [unfold id_at; cbn; by rewrite Hv |].
      cbn [trace log]. unfold so_fallback_warning. set_solver.
    + right. destruct sel as [|i sel]; cbv beta iota.
      * left. split; [done |]. split; [done |].
        rewrite so_select_field by done. cbn [fmap list_fmap length Nat.eqb].
        cbv beta iota. rewrite so_select_field by done.
        eexists. split; [reflexivity |].
        cbn [trace log]. unfold so_fallback_warning. set_solver.
      * right. split; [done |]. exists i, sel. split; [done |].
        rewrite so_select_field by done. cbv beta iota.
        destruct (length _ =? 1); [| rewrite so_names_join by done]; cbv beta iota;
          rewrite so_select_field by done; by eexists.
Qed.

(** The same for [_select_channels]. *)

Lemma yt_title_at l i c w :
  l !! i = Some c -> yt_candidate_ok c = true ->
  YouTubeExtractor.title_at (JArr l) i w = (Ok (yt_title c), w) /\
  is_str (yt_title c) = true.
Proof.
  intros Hi Hc. unfold YouTubeExtractor.title_at. exec. cbn [py_index]. rewrite Hi.
  destruct c as [| | | | |kv]; try discriminate. cbn [py_item yt_title].
  unfold yt_candidate_ok in Hc.
  destruct (assoc "snippet" kv) as [[| | | | |sn]|]; try discriminate.
  cbn [py_item]. destruct (assoc "title" sn) as [[]|]; try discriminate. done.
Qed.

Lemma yt_id_at l i c w :
  l !! i = Some c -> yt_candidate_ok c = true ->
  YouTubeExtractor.id_at (JArr l) i w = (Ok (candidate_field "id" c), w).
Proof.
  intros Hi Hc. unfold YouTubeExtractor.id_at. exec. cbn [py_index]. rewrite Hi.
  destruct c as [| | | | |kv]; try discriminate. cbn [py_item candidate_field].
  unfold yt_candidate_ok in Hc. apply andb_true_iff in Hc as [_ Hc].
  destruct (assoc "id" kv); [done | discriminate].
Qed.

Lemma yt_titles l sel w :
  forallb yt_candidate_ok l = true ->
  Forall (fun i => i < length l) sel ->
  map_m (YouTubeExtractor.title_at (JArr l)) sel w
  = (Ok ((fun i => yt_title (default JNull (l !! i))) <$> sel), w) /\
  py_join_check ((fun i => yt_title (default JNull (l !! i))) <$> sel) = Val tt.
Proof.
  intros Hl Hsel. rewrite Forall_forall in Hsel. split.
  - apply map_m_lift_ok. intros i w0 Hi. specialize (Hsel i Hi).
    destruct (lookup_lt_is_Some_2 l i Hsel) as [c Hc]. rewrite Hc. cbn [default].
    apply yt_title_at; [done |]. apply (forallb_elem_of _ _ _ Hl).
    by eapply list_elem_of_lookup_2.
  - unfold py_join_check. replace (forallb is_str _) with true; [done |]. symmetry.
    apply forallb_forall. intros v Hv. apply list_elem_of_In in Hv.
    apply list_elem_of_fmap in Hv as (i & -> & Hi). specialize (Hsel i Hi).
    destruct (lookup_lt_is_Some_2 l i Hsel) as [c Hc]. rewrite Hc. cbn [default].
    eapply (yt_title_at l i c empty_world); [done |]. apply (forallb_elem_of _ _ _ Hl).
    by eapply list_elem_of_lookup_2.
Qed.

Lemma yt_ids l sel w :
  forallb yt_candidate_ok l = true ->
  Forall (fun i => i < length l) sel ->
  map_m (YouTubeExtractor.id_at (JArr l)) sel w
  = (Ok ((fun i => candidate_field "id" (default JNull (l !! i))) <$> sel), w).
Proof.
  intros Hl Hsel. rewrite Forall_forall in Hsel.
  apply map_m_lift_ok. intros i w0 Hi. specialize (Hsel i Hi).
  destruct (lookup_lt_is_Some_2 l i Hsel) as [c Hc]. rewrite Hc. cbn [default].
  apply yt_id_at; [done |]. apply (forallb_elem_of _ _ _ Hl).
  by eapply list_elem_of_lookup_2.
Qed.

Lemma yt_show_channel_ok c w :
  yt_candidate_ok c = true ->
  exists w', YouTubeExtractor.show_channel c w = (Ok tt, w').
Proof.
  destruct c as [| | | | |kv]; try discriminate. intros H.
  unfold yt_candidate_ok in H. apply andb_true_iff in H as [H _].
  apply andb_true_iff in H as [Hs H].
  unfold YouTubeExtractor.show_channel. exec. cbn [py_get].
  destruct (assoc "snippet" kv) as [[| | | | |sn]|]; try discriminate.
  cbn [default id py_get].
  destruct (assoc "statistics" kv) as [[| | | | |st]|]; try discriminate;
    cbn [default id py_get assoc py_int]; [| by eexists].
  apply andb_true_iff in H as [H1 H2]. unfold int_ok in *.
  destruct (assoc "subscriberCount" st) as [v1|]; cbn [default id py_int];
    [destruct (py_int v1); try discriminate |];
    (destruct (assoc "videoCount" st) as [v2|]; cbn [default id py_int];
     [destruct (py_int v2); try discriminate |]); by eexists.
Qed.

Lemma yt_shown l w :
  forallb yt_candidate_ok l = true ->
  exists w', for_each (take 10 l) YouTubeExtractor.show_channel w = (Ok tt, w') /\
             inputs w' = inputs w.
Proof.
  intros H.
  destruct (for_each_ok YouTubeExtractor.show_channel (take 10 l)) with (w := w)
    as (w' & Hw').
  { intros x Hx w0. apply yt_show_channel_ok. apply (forallb_elem_of _ _ _ H).
    apply elem_of_take in Hx as (i & Hi & _). by eapply list_elem_of_lookup_2. }
  exists w'. split; [done |].
  assert (Hr : respects same_inputs (for_each (take 10 l) YouTubeExtractor.show_channel)).
  { unfold YouTubeExtractor.show_channel. respects. }
  by apply Hr in Hw'.
Qed.

Lemma yt_select_channels_cases E l w :
  l <> [] -> forallb yt_candidate_ok l = true ->
  let choice := strip (stdin E (inputs w)) in
  let id_at i := candidate_field "id" (default JNull (l !! i)) in
  (String.eqb choice "" = true /\
   exists w', YouTubeExtractor._select_channels E (JArr l) w
              = (Ok (candidate_field "id" <$> l), w')) \/
  (String.eqb choice "" = false /\
   parse_indices (length l) (split "," choice) = Err ValueError /\
   exists w', YouTubeExtractor._select_channels E (JArr l) w = (Ok [id_at 0], w') /\
              yt_fallback_warning ∈ trace w') \/
  (String.eqb choice "" = false /\
   parse_indices (length l) (split "," choice) = Val [] /\
   exists w', YouTubeExtractor._select_channels E (JArr l) w = (Ok [id_at 0], w') /\
              yt_fallback_warning ∈ trace w') \/
  (String.eqb choice "" = false /\
   exists i sel, parse_indices (length l) (split "," choice) = Val (i :: sel) /\
   exists w', YouTubeExtractor._select_channels E (JArr l) w
              = (Ok (id_at <$> i :: sel), w')).
Proof.
  intros Hne Hl choice id_at.
  assert (H0 : Forall (fun i => i < length l) [0]).
  { constructor; [| done]. destruct l; [done | simpl; lia]. }
  unfold YouTubeExtractor._select_channels. exec. cbn [py_prefix py_iter py_len].
  match goal with |- context [for_each _ _ ?w0] =>
    destruct (yt_shown l w0 Hl) as (w1 & Hw1 & Hin)
  end.
  cbn [inputs log] in Hin. rewrite Hw1. cbn [inputs log typed]. rewrite Hin. fold choice.
  destruct (String.eqb choice "") eqn:Hc; cbv beta iota.
  - left. split; [done |].
    assert (Hall : Forall (fun i => i < length l) (range (length l))).
    { apply Forall_seq. intros; lia. }
    destruct (yt_titles l (range (length l)) (typed (log (Ui UiSpace "") w1)) Hl Hall)
      as [-> Hj].
    cbv beta iota.
    destruct (length _ =? 1); [| rewrite Hj]; cbv beta iota;
      rewrite yt_ids by done; unfold range; rewrite map_lookup_seq; by eexists.
  - right.
    destruct (parse_indices_inv (length l) (split "," choice) _ eq_refl)
      as [Hp | (sel & Hp & Hsel)]; rewrite Hp; cbv beta iota.
    + left. split; [done |]. split; [done |].
      cbn [py_index]. destruct l as [|c l]; [done |]. cbn [lookup list_lookup].
      pose proof (yt_id_at (c :: l) 0 c empty_world eq_refl) as Hid.
      unfold YouTubeExtractor.id_at in Hid. revert Hid. exec. cbn [py_index lookup list_lookup].
      intros Hid. specialize (Hid ltac:(by apply andb_true_iff in Hl as [? _])).
      destruct (py_item c "id") as [v|]; try discriminate.
      inversion Hid as [Hv].
      eexists. split; [unfold id_at; cbn; by rewrite Hv |].
      cbn [trace log]. unfold yt_fallback_warning. set_solver.
    + right. destruct sel as [|i sel]; cbv beta iota.
      * left. split; [done |]. split; [done |].
        match goal with |- context [map_m _ [0] ?w0] =>
          destruct (yt_titles l [0] w0 Hl H0) as [-> _]
        end.
        cbn [fmap list_fmap length Nat.eqb]. cbv beta iota. rewrite yt_ids by done.
        eexists. split; [reflexivity |].
        cbn [trace log]. unfold yt_fallback_warning. set_solver.
      * right. split; [done |]. exists i, sel. split; [done |].
        match goal with |- context [map_m _ (i :: sel) ?w0] =>
          destruct (yt_titles l (i :: sel) w0 Hl Hsel) as [-> Hj]
        end.
        cbv beta iota.
        destruct (length _ =? 1); [| rewrite Hj]; cbv beta iota;
          rewrite yt_ids by done; by eexists.
Qed.

Lemma parse_indices_bad n parts :
  (exists part, part ∈ parts /\ int_of_string (strip part) = None) ->
  parse_indices n parts = Err ValueError.
Proof.
  intros (part & Hin & Hbad). induction parts as [|p parts IH]; [by apply elem_of_nil in Hin |].
  simpl. apply elem_of_cons in Hin as [<- | Hin].
  - by rewrite Hbad.
  - destruct (int_of_string (strip p)); [| done]. by rewrite IH.
Qed.

Lemma parse_indices_99 n :
  n < 99 -> parse_indices n (split "," (strip "99")) = Val [].
Proof.
  intros Hn. change (split "," (strip "99")) with ["99"]. unfold parse_indices.
  change (int_of_string (strip "99")) with (Some 99%Z). cbv beta iota.
  destruct (_ && _) eqn:Hb; [| done].
  apply andb_true_iff in Hb as [_ Hb]. apply Z.ltb_lt in Hb. lia.
Qed.

(** C3: in the selection of Stack Overflow users and of YouTube channels
    among a non-empty list of well-formed candidates, whatever line is
    typed the selection returns and is not empty; the empty line selects
    every candidate; the line 1,3 against 5 candidates selects the first
    and the third; the line 99, past the last candidate, selects the first
    candidate alone, and a warning is shown. *)
Theorem selection_never_empty E (l : list json) w :
  l <> [] ->
  let line := stdin E (inputs w) in
  (forallb so_candidate_ok l = true ->
   (exists ids w', StackOverflowExtractor._select_user E (JArr l) w = (Ok ids, w') /\
                   ids <> []) /\
   (line = "" ->
    exists w', StackOverflowExtractor._select_user E (JArr l) w
               = (Ok (candidate_field "user_id" <$> l), w')) /\
   (line = "1,3" -> forall c1 c2 c3 c4 c5, l = [c1; c2; c3; c4; c5] ->
    exists w', StackOverflowExtractor._select_user E (JArr l) w
               = (Ok [candidate_field "user_id" c1; candidate_field "user_id" c3], w')) /\
   (line = "99" -> length l < 99 -> forall c rest, l = c :: rest ->
    exists w', StackOverflowExtractor._select_user E (JArr l) w
               = (Ok [candidate_field "user_id" c], w') /\
               so_fallback_warning ∈ trace w')) /\
  (forallb yt_candidate_ok l = true ->
   (exists ids w', YouTubeExtractor._select_channels E (JArr l) w = (Ok ids, w') /\
                   ids <> []) /\
   (line = "" ->
    exists w', YouTubeExtractor._select_channels E (JArr l) w
               = (Ok (candidate_field "id" <$> l), w')) /\
   (line = "1,3" -> forall c1 c2 c3 c4 c5, l = [c1; c2; c3; c4; c5] ->
    exists w', YouTubeExtractor._select_channels E (JArr l) w
               = (Ok [candidate_field "id" c1; candidate_field "id" c3], w')) /\
   (line = "99" -> length l < 99 -> forall c rest, l = c :: rest ->
    exists w', YouTubeExtractor._select_channels E (JArr l) w
               = (Ok [candidate_field "id" c], w') /\
               yt_fallback_warning ∈ trace w')).
Proof.
  intros Hne line. split; intros Hl.
  - pose proof (so_select_user_cases E l w Hne Hl) as H. cbv zeta in H. fold line in H.
    split; [| split; [| split]].
    + destruct H as [(_ & w' & H) | [(_ & _ & w' & H & _) | [(_ & _ & w' & H & _)
        | (_ & i & sel & _ & w' & H)]]]; eexists _, w'; (split; [exact H |]); try done.
      by destruct l.
    + intros Hline. rewrite Hline in H.
      destruct H as [(_ & H) | [(H & _) | [(H & _) | (H & _)]]]; [done | discriminate ..].
    + intros Hline c1 c2 c3 c4 c5 ->. rewrite Hline in H.
      destruct H as [(H & _) | [(_ & H & _) | [(_ & H & _) | (_ & i & sel & H & w' & Hw)]]];
        try discriminate.
      vm_compute in H. inversion H; subst. by exists w'.
    + intros Hline Hlen c rest ->. rewrite Hline in H.
      pose proof (parse_indices_99 _ Hlen) as Hp.
      destruct H as [(H & _) | [(_ & H & _) | [(_ & _ & w' & H) | (_ & i & sel & H & _)]]];
        try discriminate; try (rewrite Hp in H; discriminate).
      by exists w'.
  - pose proof (yt_select_channels_cases E l w Hne Hl) as H. cbv zeta in H. fold line in H.
    split; [| split; [| split]].
    + destruct H as [(_ & w' & H) | [(_ & _ & w' & H & _) | [(_ & _ & w' & H & _)
        | (_ & i & sel & _ & w' & H)]]]; eexists _, w'; (split; [exact H |]); try done.
      by destruct l.
    + intros Hline. rewrite Hline in H.
      destruct H as [(_ & H) | [(H & _) | [(H & _) | (H & _)]]]; [done | discriminate ..].
    + intros Hline c1 c2 c3 c4 c5 ->. rewrite Hline in H.
      destruct H as [(H & _) | [(_ & H & _) | [(_ & H & _) | (_ & i & sel & H & w' & Hw)]]];
        try discriminate.
      vm_compute in H. inversion H; subst. by exists w'.
    + intros Hline Hlen c rest ->. rewrite Hline in H.
      pose proof (parse_indices_99 _ Hlen) as Hp.
      destruct H as [(H & _) | [(_ & H & _) | [(_ & _ & w' & H) | (_ & i & sel & H & _)]]];
        try discriminate; try (rewrite Hp in H; discriminate).
      by exists w'.
Qed.

Lemma selection_never_empty_witness :
  (exists w', StackOverflowExtractor._select_user (typing "1,3") (JArr five_users)
                empty_world = (Ok [JInt 11; JInt 33], w')) /\
  (exists w', YouTubeExtractor._select_channels (typing "99") (JArr five_channels)
                empty_world = (Ok [JStr "UC11"], w') /\
              yt_fallback_warning ∈ trace w').
Proof.
  split.
  - destruct (selection_never_empty (typing "1,3") five_users empty_world ltac:(done))
      as [Hso _].
    destruct (Hso eq_refl) as (_ & _ & H & _).
    exact (H eq_refl _ _ _ _ _ eq_refl).
  - destruct (selection_never_empty (typing "99") five_channels empty_world ltac:(done))
      as [_ Hyt].
    destruct (Hyt eq_refl) as (_ & _ & _ & H).
    refine (H eq_refl _ _ _ eq_refl). simpl. lia.
Defined.

(** C9: in both selections, a line that is not blank and has a part [int]
    refuses selects the first candidate alone, with the warning, whatever
    indices its other parts name. *)
Theorem unparsable_part_selects_first E c rest w :
  let l := c :: rest in
  let choice := strip (stdin E (inputs w)) in
  choice <> "" ->
  (exists part, part ∈ split "," choice /\ int_of_string (strip part) = None) ->
  (forallb so_candidate_ok l = true ->
   exists w', StackOverflowExtractor._select_user E (JArr l) w
              = (Ok [candidate_field "user_id" c], w') /\
              so_fallback_warning ∈ trace w') /\
  (forallb yt_candidate_ok l = true ->
   exists w', YouTubeExtractor._select_channels E (JArr l) w
              = (Ok [candidate_field "id" c], w') /\
              yt_fallback_warning ∈ trace w').
Proof.
  intros l choice Hne Hbad.
  pose proof (parse_indices_bad (length l) _ Hbad) as Hp.
  assert (Hc : String.eqb choice "" = false) by by apply String.eqb_neq.
  split; intros Hl.
  - pose proof (so_select_user_cases E l w ltac:(done) Hl) as H. cbv zeta in H.
    fold choice in H. rewrite Hc, Hp in H.
    destruct H as [(H & _) | [(_ & _ & H) | [(_ & H & _) | (_ & i & sel & H & _)]]];
      try discriminate.
    exact H.
  - pose proof (yt_select_channels_cases E l w ltac:(done) Hl) as H. cbv zeta in H.
    fold choice in H. rewrite Hc, Hp in H.
    destruct H as [(H & _) | [(_ & _ & H) | [(_ & H & _) | (_ & i & sel & H & _)]]];
      try discriminate.
    exact H.
Qed.

Lemma unparsable_part_selects_first_witness :
  (exists w', StackOverflowExtractor._select_user (typing "2,abc") (JArr five_users)
                empty_world = (Ok [JInt 11], w') /\
              so_fallback_warning ∈ trace w') /\
  (exists w', YouTubeExtractor._select_channels (typing "2,abc") (JArr five_channels)
                empty_world = (Ok [JStr "UC11"], w') /\
              yt_fallback_warning ∈ trace w').
Proof.
  assert (Hbad : exists part, part ∈ split "," (strip "2,abc") /\
                              int_of_string (strip part) = None).
  { exists "abc". split; [vm_compute; set_solver | reflexivity]. }
  destruct (unparsable_part_selects_first (typing "2,abc") (so_user "ann" 11)
              (tail five_users) empty_world ltac:(done) Hbad) as [Hso _].
  destruct (unparsable_part_selects_first (typing "2,abc") (yt_channel "ann" "UC11")
              (tail five_channels) empty_world ltac:(done) Hbad) as [_ Hyt].
  split; [exact (Hso eq_refl) | exact (Hyt eq_refl)].
Defined.

(** ** Every method returns or raises

    [halts m]: no run of [m] is cut.  The two [while] loops are the only
    places where a run could be: they are shown to end by themselves. *)

Definition halts {A} (m : M A) : Prop :=
  forall w r w', m w = (r, w') -> r <> Diverge.

Lemma halts_ret {A} (a : A) : halts (ret a).
Proof. intros w r w' H. by inversion H. Qed.

Lemma halts_raise {A} e : halts (@raise A e).
Proof. intros w r w' H. by inversion H. Qed.

Lemma halts_lift {A} (x : val A) : halts (lift x).
Proof. intros w r w' H. inversion H. by destruct x. Qed.

Lemma halts_bind {A B} (m : M A) (k : A -> M B) :
  halts m -> (forall a, halts (k a)) -> halts (bind m k).
Proof.
  intros Hm Hk w r w' H. apply bind_inv in H as [(a & w1 & H1 & H2)|[(e & H1 & ->)|[H1 _]]].
  - by eapply Hk.
  - done.
  - by apply Hm in H1.
Qed.

Lemma halts_try {A} (m : M A) handles h :
  halts m -> halts h -> halts (try_except m handles h).
Proof.
  intros Hm Hh w r w' H. apply try_except_inv in H as [[H _]|(e & w1 & H1 & _ & H2)].
  - by eapply Hm.
  - by eapply Hh.
Qed.

Lemma halts_emit ev : halts (emit ev).
Proof. intros w r w' H. by inversion H. Qed.

Lemma halts_for_each {A} (xs : list A) body :
  (forall x, halts (body x)) -> halts (for_each xs body).
Proof.
  intros Hb. induction xs as [|x xs IH]; simpl.
  - apply halts_ret.
  - apply halts_bind; [apply Hb | intros _; apply IH].
Qed.

Lemma halts_map_m {A B} (f : A -> M B) xs :
  (forall x, halts (f x)) -> halts (map_m f xs).
Proof.
  intros Hf. induction xs as [|x xs IH]; simpl.
  - apply halts_ret.
  - apply halts_bind; [apply Hf | intros y].
    apply halts_bind; [apply IH | intros ys; apply halts_ret].
Qed.

Lemma halts_requests_get E u hs ps : halts (requests_get E u hs ps).
Proof.
  intros w r w' H. unfold requests_get in H. by destruct (http E _ _); inversion H.
Qed.

Lemma halts_now E : halts (now E).
Proof. intros w r w' H. by inversion H. Qed.

Lemma halts_input E : halts (input E).
Proof. intros w r w' H. by inversion H. Qed.

Lemma halts_write_json E n d : halts (write_json E n d).
Proof.
  intros w r w' H. unfold write_json in H. destruct (fs_write E n); by inversion H.
Qed.

Lemma halts_tg_start E : halts (TelegramExtractor.start E).
Proof.
  intros w r w' H. unfold TelegramExtractor.start in H.
  destruct (tg_start E _) as [k [e|]]; by inversion H.
Qed.

Lemma halts_record name e : halts (ExtractorOrchestrator.record name e).
Proof. intros w r w' H. by inversion H. Qed.

Create HintDb halts discriminated.
#[local] Hint Resolve halts_requests_get halts_now halts_input halts_write_json
  halts_record halts_tg_start : halts.

Ltac halts_step :=
  match goal with
  | |- halts (bind _ _) => apply halts_bind; [| intros ?]
  | |- halts (ret _) => apply halts_ret
  | |- halts (raise _) => apply halts_raise
  | |- halts (lift _) => apply halts_lift
  | |- halts (try_except _ _ _) => apply halts_try
  | |- halts (ui _ _) => apply halts_emit
  | |- halts (emit _) => apply halts_emit
  | |- halts (sleep _) => apply halts_emit
  | |- halts (for_each _ _) => apply halts_for_each; intros ?
  | |- halts (map_m _ _) => apply halts_map_m; intros ?
  | |- halts (if ?b then _ else _) => destruct b
  | |- halts (match ?x with _ => _ end) => destruct x
  | |- halts _ => solve [eauto with halts]
  end.

Ltac halts := repeat halts_step.

Lemma halts_now_iso E : halts (now_iso E).
Proof. unfold now_iso. halts. Qed.

Lemma halts_import_requests E : halts (import_requests E).
Proof. unfold import_requests. halts. Qed.

Lemma halts_export_done l : halts (export_done l).
Proof. unfold export_done. halts. Qed.

Lemma halts_save_json E p d u : halts (BaseExtractor._save_json E p d u).
Proof. unfold BaseExtractor._save_json. halts. Qed.

#[local] Hint Resolve halts_now_iso halts_import_requests halts_export_done
  halts_save_json : halts.

Lemma halts_extract_all extract what total idx ids :
  (forall id, halts (extract id)) -> halts (extract_all extract what total idx ids).
Proof.
  intros H. revert idx. induction ids as [|id ids IH]; intros idx; simpl; halts.
Qed.

#[local] Hint Resolve halts_extract_all : halts.

Lemma halts_github_run E t u : halts (GitHubExtractor.run E t u).
Proof.
  unfold GitHubExtractor.run, GitHubExtractor._get_user_info, GitHubExtractor.show_bio,
    GitHubExtractor._get_repositories, GitHubExtractor.parse_repo,
    GitHubExtractor._get_events, GitHubExtractor.parse_event.
  halts.
Qed.

Lemma halts_so_run E k u : halts (StackOverflowExtractor.run E k u).
Proof.
  unfold StackOverflowExtractor.run, StackOverflowExtractor._search_users,
    StackOverflowExtractor._select_user, StackOverflowExtractor.select_field,
    StackOverflowExtractor.field_at, StackOverflowExtractor.show_user.
  assert (Hx : forall id, halts (StackOverflowExtractor._extract_user_data E k id)).
  { intros id.
    unfold StackOverflowExtractor._extract_user_data,
      StackOverflowExtractor._get_questions, StackOverflowExtractor._get_answers,
      StackOverflowExtractor._get_badges, StackOverflowExtractor.get_items,
      StackOverflowExtractor._get_profile, StackOverflowExtractor._make_request.
    halts. }
  halts.
Qed.

Lemma halts_yt_run E k u : halts (YouTubeExtractor.run E k u).
Proof.
  unfold YouTubeExtractor.run, YouTubeExtractor._search_channels,
    YouTubeExtractor._select_channels, YouTubeExtractor.title_at,
    YouTubeExtractor.id_at, YouTubeExtractor.show_channel.
  assert (Hx : forall id, halts (YouTubeExtractor._extract_channel_data E k id)).
  { intros id.
    unfold YouTubeExtractor._extract_channel_data, YouTubeExtractor._get_channel_info,
      YouTubeExtractor._get_videos, YouTubeExtractor.parse_video.
    halts. }
  halts.
Qed.

Lemma halts_reddit_run E u : halts (RedditExtractor.run E u).
Proof.
  unfold RedditExtractor.run, RedditExtractor._get_user_info, RedditExtractor._get_posts,
    RedditExtractor._get_comments, RedditExtractor.children, RedditExtractor.parse_post,
    RedditExtractor.parse_comment.
  halts.
Qed.

Lemma halts_medium_run E u : halts (MediumExtractor.run E u).
Proof.
  unfold MediumExtractor.run, MediumExtractor._fetch_articles,
    MediumExtractor.show_article.
  halts.
Qed.

Lemma halts_tg_collect acc stream : halts (TelegramExtractor.collect acc stream).
Proof. revert acc. induction stream as [|m ms IH]; intros acc; simpl; halts. Qed.

#[local] Hint Resolve halts_tg_collect : halts.

Lemma halts_tg_extract_messages E u : halts (TelegramExtractor._extract_messages E u).
Proof. unfold TelegramExtractor._extract_messages. halts. Qed.

#[local] Hint Resolve halts_tg_extract_messages : halts.

Lemma halts_tg_run E i h u : halts (TelegramExtractor.run E i h u).
Proof.
  unfold TelegramExtractor.run, TelegramExtractor._run_async, TelegramExtractor._connect,
    TelegramExtractor._get_entity_info.
  halts.
Qed.

(** ** The caps of the collections *)

Lemma map_m_length {A B} (f : A -> M B) xs : forall w ys w',
  map_m f xs w = (Ok ys, w') -> length ys = length xs.
Proof.
  induction xs as [|x xs IH]; intros w ys w' H; simpl in H.
  - by inversion H.
  - apply bind_inv in H as [(y & w1 & _ & H)|[(e & _ & ?)|[_ ?]]]; try discriminate.
    apply bind_inv in H as [(ys' & w2 & H1 & H)|[(e & _ & ?)|[_ ?]]]; try discriminate.
    inversion H; subst. simpl. f_equal. by eapply IH.
Qed.

Lemma py_iter_truthy v items :
  truthy v = true -> py_iter v = Val items -> 0 < length items.
Proof.
  destruct v as [| | |s|l|kv]; try discriminate; simpl; intros Ht H.
  - destruct s; [discriminate |]. inversion H. unfold chars. simpl. lia.
  - destruct l; [discriminate |]. inversion H. simpl. lia.
  - destruct kv; [discriminate |]. inversion H. simpl. lia.
Qed.

Lemma lift_inv {A} (x : val A) w a w' : lift x w = (Ok a, w') -> x = Val a.
Proof. unfold lift. destruct x; intros H; by inversion H. Qed.

Lemma halts_bsky_posts_turn E actor st : halts (BlueskyExtractor.posts_turn E actor st).
Proof.
  unfold BlueskyExtractor.posts_turn, BlueskyExtractor.parse_post.
  destruct st as [acc cur]. halts.
Qed.

Lemma bsky_posts_turn_grows E actor acc cur w acc' cur' w' :
  BlueskyExtractor.posts_turn E actor (acc, cur) w = (Ok (Continue (acc', cur')), w') ->
  length acc < length acc'.
Proof.
  unfold BlueskyExtractor.posts_turn. intros H.
  apply try_except_inv in H as [[H _] | (e & w1 & _ & _ & H)]; [| by inversion H].
  apply bind_inv in H as [(resp & w1 & _ & H)|[(e & _ & ?)|[_ ?]]]; try discriminate.
  apply bind_inv in H as [(feed & w2 & Hfeed & H)|[(e & _ & ?)|[_ ?]]]; try discriminate.
  destruct (truthy feed) eqn:Ht; simpl in H; [| by inversion H].
  apply bind_inv in H as [(items & w3 & Hit & H)|[(e & _ & ?)|[_ ?]]]; try discriminate.
  apply bind_inv in H as [(posts & w4 & Hposts & H)|[(e & _ & ?)|[_ ?]]]; try discriminate.
  apply bind_inv in H as [(? & w5 & _ & H)|[(e & _ & ?)|[_ ?]]]; try discriminate.
  apply bind_inv in H as [(c & w6 & _ & H)|[(e & _ & ?)|[_ ?]]]; try discriminate.
  destruct (truthy c); simpl in H; [| by inversion H].
  apply bind_inv in H as [(? & w7 & _ & H)|[(e & _ & ?)|[_ ?]]]; try discriminate.
  inversion H; subst. rewrite length_app.
  apply map_m_length in Hposts. apply lift_inv in Hit.
  pose proof (py_iter_truthy _ _ Ht Hit). lia.
Qed.

Lemma bsky_posts_loop_halts E actor fuel : forall st,
  BlueskyExtractor.max_posts <= fuel + length (fst st) ->
  halts (BlueskyExtractor.posts_loop E fuel actor st).
Proof.
  induction fuel as [|fuel IH]; intros [acc cur] Hfuel w r w' H; simpl in *.
  - destruct (length acc <? BlueskyExtractor.max_posts) eqn:Hlt; simpl in H.
    + apply Nat.ltb_lt in Hlt. lia.
    + by inversion H.
  - destruct (length acc <? BlueskyExtractor.max_posts) eqn:Hlt; simpl in H;
      [| by inversion H].
    apply bind_inv in H as [(t & w1 & Ht & H)|[(e & _ & ->)|[Ht ->]]]; [| done |].
    + destruct t as [[acc' cur']|st'].
      * apply bsky_posts_turn_grows in Ht. eapply IH; [| exact H]. simpl. lia.
      * by inversion H.
    + exfalso. by apply (halts_bsky_posts_turn E actor (acc, cur) w Diverge w').
Qed.

Lemma halts_bsky_get_posts E actor : halts (BlueskyExtractor._get_posts E actor).
Proof.
  unfold BlueskyExtractor._get_posts.
  assert (halts (BlueskyExtractor.posts_loop E BlueskyExtractor.max_posts actor ([], JNull))).
  { apply bsky_posts_loop_halts. cbn [fst length]. lia. }
  halts.
Qed.

Lemma bsky_get_posts_cap E actor w posts w' :
  BlueskyExtractor._get_posts E actor w = (Ok posts, w') ->
  length posts <= BlueskyExtractor.max_posts.
Proof.
  unfold BlueskyExtractor._get_posts. exec. intros H.
  destruct (BlueskyExtractor.posts_loop _ _ _ _ _) as [[all| |] w1]; inversion H.
  rewrite length_take. lia.
Qed.

Lemma halts_masto_statuses_turn E st : halts (MastodonExtractor.statuses_turn E st).
Proof.
  unfold MastodonExtractor.statuses_turn, MastodonExtractor.parse_status.
  destruct st as [[acc u] ps]. halts.
Qed.

Lemma masto_statuses_turn_grows E acc u ps w acc' u' ps' w' :
  MastodonExtractor.statuses_turn E (acc, u, ps) w = (Ok (Continue (acc', u', ps')), w') ->
  length acc < length acc'.
Proof.
  unfold MastodonExtractor.statuses_turn. intros H.
  apply try_except_inv in H as [[H _] | (e & w1 & _ & _ & H)]; [| by inversion H].
  apply bind_inv in H as [(resp & w1 & _ & H)|[(e & _ & ?)|[_ ?]]]; try discriminate.
  destruct (truthy (body resp)) eqn:Ht; simpl in H; [| by inversion H].
  apply bind_inv in H as [(items & w3 & Hit & H)|[(e & _ & ?)|[_ ?]]]; try discriminate.
  apply bind_inv in H as [(parsed & w4 & Hparsed & H)|[(e & _ & ?)|[_ ?]]]; try discriminate.
  apply bind_inv in H as [(? & w5 & _ & H)|[(e & _ & ?)|[_ ?]]]; try discriminate.
  destruct (MastodonExtractor._parse_link_header _ _) as [next|]; [| by inversion H].
  destruct (String.eqb next ""); [by inversion H |].
  apply bind_inv in H as [(? & w7 & _ & H)|[(e & _ & ?)|[_ ?]]]; try discriminate.
  inversion H; subst. rewrite length_app.
  apply map_m_length in Hparsed. apply lift_inv in Hit.
  pose proof (py_iter_truthy _ _ Ht Hit). lia.
Qed.

Lemma masto_statuses_loop_halts E fuel : forall st,
  MastodonExtractor.max_toots <= fuel + length (fst (fst st)) ->
  halts (MastodonExtractor.statuses_loop E fuel st).
Proof.
  induction fuel as [|fuel IH]; intros [[acc u] ps] Hfuel w r w' H; simpl in *.
  - destruct (length acc <? MastodonExtractor.max_toots) eqn:Hlt; simpl in H.
    + apply Nat.ltb_lt in Hlt. lia.
    + by inversion H.
  - destruct (length acc <? MastodonExtractor.max_toots) eqn:Hlt; simpl in H;
      [| by inversion H].
    apply bind_inv in H as [(t & w1 & Ht & H)|[(e & _ & ->)|[Ht ->]]]; [| done |].
    + destruct t as [[[acc' u'] ps']|st'].
      * apply masto_statuses_turn_grows in Ht. eapply IH; [| exact H]. simpl. lia.
      * by inversion H.
    + exfalso. by apply (halts_masto_statuses_turn E (acc, u, ps) w Diverge w').
Qed.

Lemma halts_masto_get_statuses E i id : halts (MastodonExtractor._get_statuses E i id).
Proof.
  unfold MastodonExtractor._get_statuses.
  assert (forall u ps, halts (MastodonExtractor.statuses_loop E
                                MastodonExtractor.max_toots ([], u, ps))).
  { intros. apply masto_statuses_loop_halts. cbn [fst length]. lia. }
  halts.
Qed.

Lemma masto_get_statuses_cap E i id w statuses w' :
  MastodonExtractor._get_statuses E i id w = (Ok statuses, w') ->
  length statuses <= MastodonExtractor.max_toots.
Proof.
  unfold MastodonExtractor._get_statuses. exec. intros H.
  destruct (MastodonExtractor.statuses_loop _ _ _ _) as [[all| |] w1]; inversion H.
  rewrite length_take. lia.
Qed.

Lemma tg_collect_length stream : forall acc w msgs w',
  TelegramExtractor.collect acc stream w = (Ok msgs, w') ->
  length msgs = length acc + length stream.
Proof.
  induction stream as [|m ms IH]; intros acc w msgs w' H; simpl in H.
  - inversion H. simpl. lia.
  - apply bind_inv in H as [(? & w1 & _ & H)|[(e & _ & ?)|[_ ?]]]; try discriminate.
    apply IH in H. rewrite length_app in H. simpl in *. lia.
Qed.

Lemma tg_extract_messages_cap E u w msgs w' :
  (forall name limit, length (fst (tg_iter_messages E name limit)) <= limit) ->
  TelegramExtractor._extract_messages E u w = (Ok msgs, w') ->
  length msgs <= TelegramExtractor.max_messages.
Proof.
  intros Hlib. unfold TelegramExtractor._extract_messages. intros H.
  repeat (apply bind_inv in H as [(? & ? & _ & H)|[(e & _ & ?)|[_ ?]]]; try discriminate).
  specialize (Hlib u TelegramExtractor.max_messages).
  destruct (tg_iter_messages E u TelegramExtractor.max_messages) as [stream failure].
  apply try_except_inv in H as [[H _] | (e & w1 & _ & _ & H)].
  - apply bind_inv in H as [(ms & w1 & Hc & H)|[(e & _ & ?)|[_ ?]]]; try discriminate.
    apply tg_collect_length in Hc. destruct failure; [discriminate |].
    repeat (apply bind_inv in H as [(? & ? & _ & H)|[(e & _ & ?)|[_ ?]]]; try discriminate).
    inversion H; subst. simpl in *. lia.
  - repeat (apply bind_inv in H as [(? & ? & _ & H)|[(e' & _ & ?)|[_ ?]]]; try discriminate).
    inversion H. simpl. lia.
Qed.

(** C4: the posts a Bluesky fetch returns are at most 200, the toots a
    Mastodon fetch returns are at most 200, and the messages a Telegram
    fetch returns are at most 800 when the client library yields no more
    than the [limit] it is given; every such fetch ends, whatever the
    servers reply and however many pages they have. *)
Theorem collections_are_capped E :
  (forall actor w r w',
     BlueskyExtractor._get_posts E actor w = (r, w') ->
     r <> Diverge /\ forall posts, r = Ok posts -> length posts <= 200) /\
  (forall instance account_id w r w',
     MastodonExtractor._get_statuses E instance account_id w = (r, w') ->
     r <> Diverge /\ forall statuses, r = Ok statuses -> length statuses <= 200) /\
  ((forall name limit, length (fst (tg_iter_messages E name limit)) <= limit) ->
   forall username w r w',
     TelegramExtractor._extract_messages E username w = (r, w') ->
     r <> Diverge /\ forall messages, r = Ok messages -> length messages <= 800).
Proof.
  split; [| split].
  - intros actor w r w' H. split; [by eapply halts_bsky_get_posts |].
    intros posts ->. by eapply bsky_get_posts_cap.
  - intros i id w r w' H. split; [by eapply halts_masto_get_statuses |].
    intros statuses ->. by eapply masto_get_statuses_cap.
  - intros Hlib u w r w' H. split; [by eapply halts_tg_extract_messages |].
    intros msgs ->. by eapply tg_extract_messages_cap.
Qed.

Lemma collections_are_capped_witness :
  exists messages w',
    TelegramExtractor._extract_messages chatty_env "channel" empty_world
    = (Ok messages, w') /\
    length messages <= 800.
Proof.
  assert (H : exists messages w',
            TelegramExtractor._extract_messages chatty_env "channel" empty_world
            = (Ok messages, w')) by (vm_compute; eauto).
  destruct H as (messages & w' & H). exists messages, w'. split; [exact H |].
  destruct (collections_are_capped chatty_env) as (_ & _ & Htg).
  refine (proj2 (Htg _ "channel" empty_world _ _ H) messages eq_refl).
  intros name limit. cbn [tg_iter_messages chatty_env fst]. rewrite length_take. lia.
Defined.

(** ** Pagination *)

Lemma bsky_parse_post_ok E item w :
  bsky_item_ok item = true ->
  exists v, BlueskyExtractor.parse_post E item w = (Ok v, w).
Proof.
  destruct item as [| | | | |kv]; try discriminate. unfold bsky_item_ok.
  unfold BlueskyExtractor.parse_post. exec. cbn [py_get].
  destruct (default (JObj []) (assoc "post" kv)) as [| | | | |p]; try discriminate.
  intros H. apply andb_true_iff in H as [H Hu]. apply andb_true_iff in H as [Hr Ha].
  cbn [py_get].
  destruct (default (JObj []) (assoc "record" p)) as [| | | | |rc]; try discriminate.
  cbn [py_get].
  destruct (default (JObj []) (assoc "author" p)) as [| | | | |au]; try discriminate.
  cbn [py_get].
  destruct (default (JStr "") (assoc "uri" p)); try discriminate.
  by eexists.
Qed.

Lemma bsky_turn_page E actor acc cur n more w :
  1 <= n ->
  (forall req, bsky_page n more (http E (length (requests w)) req)) ->
  exists posts c w',
    BlueskyExtractor.posts_turn E actor (acc, cur) w
    = (Ok (if more then Continue (acc ++ posts, c) else Break (acc ++ posts, c)), w') /\
    length posts = n /\
    length (requests w') = S (length (requests w)).
Proof.
  intros Hn Hpage. unfold BlueskyExtractor.posts_turn. exec.
  match goal with |- context [http E _ ?req] =>
    destruct (Hpage req) as (resp & kv & items & -> & Hb & Hfeed & Hlen & Hok & Hmore)
  end.
  rewrite Hb. cbn [py_get]. rewrite Hfeed. cbn [default id truthy].
  destruct items as [|item items]; [simpl in Hlen; lia |]. cbn [negb py_iter].
  match goal with |- context [map_m _ _ ?w0] =>
    destruct (map_m_pure (BlueskyExtractor.parse_post E) (item :: items)) with (w := w0)
      as (posts & -> & Hposts)
  end.
  { intros x Hx w0. apply bsky_parse_post_ok. by apply (forallb_elem_of _ _ _ Hok). }
  cbv beta iota. rewrite Hmore.
  exists posts, (default JNull (assoc "cursor" kv)).
  destruct more; cbn [negb]; (eexists; split; [reflexivity |]);
    (split; [congruence |]); cbn [requests log sent]; rewrite length_app; simpl; lia.
Qed.

Lemma bsky_loop_pages E actor n :
  1 <= n ->
  forall k fuel acc cur w,
    1 <= k -> k <= fuel -> length acc + n * k < BlueskyExtractor.max_posts ->
    (forall i req, i < k ->
       bsky_page n (S i <? k) (http E (length (requests w) + i) req)) ->
    exists all w',
      BlueskyExtractor.posts_loop E fuel actor (acc, cur) w = (Ok all, w') /\
      length all = length acc + n * k /\
      length (requests w') = length (requests w) + k.
Proof.
  intros Hn k. induction k as [|k IH]; intros fuel acc cur w Hk Hfuel Hlen Hpages; [lia |].
  destruct fuel as [|fuel]; [lia |]. cbn [BlueskyExtractor.posts_loop fst].
  replace (length acc <? BlueskyExtractor.max_posts) with true
    by (symmetry; apply Nat.ltb_lt; lia).
  cbn [negb]. unfold bind at 1.
  destruct (bsky_turn_page E actor acc cur n (1 <? S k) w Hn) as (posts & c & w1 & -> & Hp & Hr).
  { intros req. specialize (Hpages 0 req ltac:(lia)). by rewrite Nat.add_0_r in Hpages. }
  destruct k as [|k].
  - cbn [Nat.ltb Nat.leb fst]. exec. eexists _, _. split; [reflexivity |].
    rewrite length_app. split; lia.
  - cbn [Nat.ltb Nat.leb].
    destruct (IH fuel (acc ++ posts) c w1) as (all & w' & -> & Hall & Hreq).
    + lia.
    + lia.
    + rewrite length_app. lia.
    + intros i req Hi. rewrite Hr.
      specialize (Hpages (S i) req ltac:(lia)).
      replace (S (length (requests w)) + i) with (length (requests w) + S i) by lia.
      exact Hpages.
    + eexists _, _. split; [reflexivity |]. rewrite length_app in Hall. split; lia.
Qed.

Lemma bsky_get_posts_pages E actor n k w :
  1 <= n -> 1 <= k -> n * k < 200 ->
  (forall i req, i < k ->
     bsky_page n (S i <? k) (http E (length (requests w) + i) req)) ->
  exists posts w',
    BlueskyExtractor._get_posts E actor w = (Ok posts, w') /\
    length (requests w') = length (requests w) + k /\
    length posts = n * k.
Proof.
  intros Hn Hk Hcap Hpages. unfold BlueskyExtractor._get_posts. exec.
  match goal with |- context [BlueskyExtractor.posts_loop _ _ _ _ ?w0] =>
    destruct (bsky_loop_pages E actor n Hn k BlueskyExtractor.max_posts [] JNull w0)
      as (all & w' & -> & Hall & Hreq)
  end.
  - done.
  - unfold BlueskyExtractor.max_posts. nia.
  - unfold BlueskyExtractor.max_posts. simpl. lia.
  - exact Hpages.
  - eexists _, _. split; [reflexivity |]. cbn [requests log] in *. split; [done |].
    rewrite length_take. simpl in Hall. unfold BlueskyExtractor.max_posts. lia.
Qed.

Lemma masto_parse_status_ok E status w :
  masto_status_ok status = true ->
  exists v, MastodonExtractor.parse_status E status w = (Ok v, w).
Proof.
  destruct status as [| | | | |kv]; try discriminate. unfold masto_status_ok.
  unfold MastodonExtractor.parse_status. exec. cbn [py_get].
  destruct (default (JStr "") (assoc "content" kv)); try discriminate.
  intros _. cbn [MastodonExtractor._clean_html]. by eexists.
Qed.

Lemma masto_turn_page E acc u ps n more w :
  1 <= n ->
  (forall req, masto_page n more (http E (length (requests w)) req)) ->
  exists parsed u' ps' w',
    MastodonExtractor.statuses_turn E (acc, u, ps) w
    = (Ok (if more then Continue (acc ++ parsed, u', ps')
           else Break (acc ++ parsed, u', ps')), w') /\
    length parsed = n /\
    length (requests w') = S (length (requests w)).
Proof.
  intros Hn Hpage. unfold MastodonExtractor.statuses_turn. exec.
  match goal with |- context [http E _ ?req] =>
    destruct (Hpage req) as (resp & items & -> & Hb & Hlen & Hok & Hmore)
  end.
  rewrite Hb. cbn [truthy].
  destruct items as [|item items]; [simpl in Hlen; lia |]. cbn [negb py_iter].
  match goal with |- context [map_m _ _ ?w0] =>
    destruct (map_m_pure (MastodonExtractor.parse_status E) (item :: items)) with (w := w0)
      as (parsed & -> & Hparsed)
  end.
  { intros x Hx w0. apply masto_parse_status_ok. by apply (forallb_elem_of _ _ _ Hok). }
  cbv beta iota. unfold has_next in Hmore.
  destruct (MastodonExtractor._parse_link_header (link_header resp) "next") as [next|].
  - destruct (String.eqb next "") eqn:Hnext; cbn [negb] in Hmore; subst more;
      eexists parsed, _, _, _; (split; [reflexivity |]); (split; [congruence |]);
      cbn [requests log sent]; rewrite length_app; simpl; lia.
  - subst more. eexists parsed, _, _, _. split; [reflexivity |]. split; [congruence |].
    cbn [requests log sent]. rewrite length_app. simpl. lia.
Qed.

Lemma masto_loop_pages E n :
  1 <= n ->
  forall k fuel acc u ps w,
    1 <= k -> k <= fuel -> length acc + n * k < MastodonExtractor.max_toots ->
    (forall i req, i < k ->
       masto_page n (S i <? k) (http E (length (requests w) + i) req)) ->
    exists all w',
      MastodonExtractor.statuses_loop E fuel (acc, u, ps) w = (Ok all, w') /\
      length all = length acc + n * k /\
      length (requests w') = length (requests w) + k.
Proof.
  intros Hn k. induction k as [|k IH]; intros fuel acc u ps w Hk Hfuel Hlen Hpages; [lia |].
  destruct fuel as [|fuel]; [lia |]. cbn [MastodonExtractor.statuses_loop fst].
  replace (length acc <? MastodonExtractor.max_toots) with true
    by (symmetry; apply Nat.ltb_lt; lia).
  cbn [negb]. unfold bind at 1.
  destruct (masto_turn_page E acc u ps n (1 <? S k) w Hn)
    as (parsed & u' & ps' & w1 & -> & Hp & Hr).
  { intros req. specialize (Hpages 0 req ltac:(lia)). by rewrite Nat.add_0_r in Hpages. }
  destruct k as [|k].
  - cbn [Nat.ltb Nat.leb fst]. exec. eexists _, _. split; [reflexivity |].
    rewrite length_app. split; lia.
  - cbn [Nat.ltb Nat.leb].
    destruct (IH fuel (acc ++ parsed) u' ps' w1) as (all & w' & -> & Hall & Hreq).
    + lia.
    + lia.
    + rewrite length_app. lia.
    + intros i req Hi. rewrite Hr.
      specialize (Hpages (S i) req ltac:(lia)).
      replace (S (length (requests w)) + i) with (length (requests w) + S i) by lia.
      exact Hpages.
    + eexists _, _. split; [reflexivity |]. rewrite length_app in Hall. split; lia.
Qed.

Lemma masto_get_statuses_pages E instance account_id n k w :
  1 <= n -> 1 <= k -> n * k < 200 ->
  (forall i req, i < k ->
     masto_page n (S i <? k) (http E (length (requests w) + i) req)) ->
  exists statuses w',
    MastodonExtractor._get_statuses E instance account_id w = (Ok statuses, w') /\
    length (requests w') = length (requests w) + k /\
    length statuses = n * k.
Proof.
  intros Hn Hk Hcap Hpages. unfold MastodonExtractor._get_statuses. exec.
  match goal with |- context [MastodonExtractor.statuses_loop _ _ (_, ?u, ?ps) ?w0] =>
    destruct (masto_loop_pages E n Hn k MastodonExtractor.max_toots [] u ps w0)
      as (all & w' & -> & Hall & Hreq)
  end.
  - done.
  - unfold MastodonExtractor.max_toots. nia.
  - unfold MastodonExtractor.max_toots. simpl. lia.
  - exact Hpages.
  - eexists _, _. split; [reflexivity |]. cbn [requests log] in *. split; [done |].
    rewrite length_take. simpl in Hall. unfold MastodonExtractor.max_toots. lia.
Qed.

Lemma bsky_turn_empty E actor st w :
  (forall req, bsky_empty_page (http E (length (requests w)) req)) ->
  exists w', BlueskyExtractor.posts_turn E actor st w = (Ok (Break st), w') /\
             length (requests w') = S (length (requests w)).
Proof.
  intros H. destruct st as [acc cur]. unfold BlueskyExtractor.posts_turn. exec.
  match goal with |- context [http E _ ?req] =>
    destruct (H req) as (resp & kv & -> & Hb & Hfeed)
  end.
  rewrite Hb. cbn [py_get]. rewrite Hfeed. cbn. eexists. split; [reflexivity |].
  cbn [requests sent]. rewrite length_app. simpl. lia.
Qed.

Lemma masto_turn_empty E st w :
  (forall req, masto_empty_page (http E (length (requests w)) req)) ->
  exists w', MastodonExtractor.statuses_turn E st w = (Ok (Break st), w') /\
             length (requests w') = S (length (requests w)).
Proof.
  intros H. destruct st as [[acc u] ps]. unfold MastodonExtractor.statuses_turn. exec.
  match goal with |- context [http E _ ?req] =>
    destruct (H req) as (resp & -> & Hb)
  end.
  rewrite Hb. cbn. eexists. split; [reflexivity |].
  cbn [requests sent]. rewrite length_app. simpl. lia.
Qed.

Lemma bsky_loop_until_empty E actor n :
  1 <= n ->
  forall k fuel acc cur w,
    k < fuel -> length acc + n * k < BlueskyExtractor.max_posts ->
    (forall i req, i < k -> bsky_page n true (http E (length (requests w) + i) req)) ->
    (forall req, bsky_empty_page (http E (length (requests w) + k) req)) ->
    exists all w',
      BlueskyExtractor.posts_loop E fuel actor (acc, cur) w = (Ok all, w') /\
      length all = length acc + n * k /\
      length (requests w') = length (requests w) + k + 1.
Proof.
  intros Hn k. induction k as [|k IH]; intros fuel acc cur w Hfuel Hlen Hpages Hempty;
    (destruct fuel as [|fuel]; [lia |]); cbn [BlueskyExtractor.posts_loop fst];
    (replace (length acc <? BlueskyExtractor.max_posts) with true
       by (symmetry; apply Nat.ltb_lt; lia));
    cbn [negb]; unfold bind at 1.
  - destruct (bsky_turn_empty E actor (acc, cur) w) as (w' & -> & Hr).
    { intros req. specialize (Hempty req). by rewrite Nat.add_0_r in Hempty. }
    exec. exists acc, w'. cbn [fst]. split; [done |]. split; lia.
  - destruct (bsky_turn_page E actor acc cur n true w Hn)
      as (posts & c & w1 & -> & Hp & Hr).
    { intros req. specialize (Hpages 0 req ltac:(lia)). by rewrite Nat.add_0_r in Hpages. }
    destruct (IH fuel (acc ++ posts) c w1) as (all & w' & -> & Hall & Hreq).
    + lia.
    + rewrite length_app. lia.
    + intros i req Hi. rewrite Hr. specialize (Hpages (S i) req ltac:(lia)).
      by replace (S (length (requests w)) + i) with (length (requests w) + S i) by lia.
    + intros req. rewrite Hr. specialize (Hempty req).
      by replace (S (length (requests w)) + k) with (length (requests w) + S k) by lia.
    + exists all, w'. split; [done |]. rewrite length_app in Hall. split; lia.
Qed.

Lemma masto_loop_until_empty E n :
  1 <= n ->
  forall k fuel acc u ps w,
    k < fuel -> length acc + n * k < MastodonExtractor.max_toots ->
    (forall i req, i < k -> masto_page n true (http E (length (requests w) + i) req)) ->
    (forall req, masto_empty_page (http E (length (requests w) + k) req)) ->
    exists all w',
      MastodonExtractor.statuses_loop E fuel (acc, u, ps) w = (Ok all, w') /\
      length all = length acc + n * k /\
      length (requests w') = length (requests w) + k + 1.
Proof.
  intros Hn k. induction k as [|k IH]; intros fuel acc u ps w Hfuel Hlen Hpages Hempty;
    (destruct fuel as [|fuel]; [lia |]); cbn [MastodonExtractor.statuses_loop fst];
    (replace (length acc <? MastodonExtractor.max_toots) with true
       by (symmetry; apply Nat.ltb_lt; lia));
    cbn [negb]; unfold bind at 1.
  - destruct (masto_turn_empty E (acc, u, ps) w) as (w' & -> & Hr).
    { intros req. specialize (Hempty req). by rewrite Nat.add_0_r in Hempty. }
    exec. exists acc, w'. cbn [fst]. split; [done |]. split; lia.
  - destruct (masto_turn_page E acc u ps n true w Hn)
      as (parsed & u' & ps' & w1 & -> & Hp & Hr).
    { intros req. specialize (Hpages 0 req ltac:(lia)). by rewrite Nat.add_0_r in Hpages. }
    destruct (IH fuel (acc ++ parsed) u' ps' w1) as (all & w' & -> & Hall & Hreq).
    + lia.
    + rewrite length_app. lia.
    + intros i req Hi. rewrite Hr. specialize (Hpages (S i) req ltac:(lia)).
      by replace (S (length (requests w)) + i) with (length (requests w) + S i) by lia.
    + intros req. rewrite Hr. specialize (Hempty req).
      by replace (S (length (requests w)) + k) with (length (requests w) + S k) by lia.
    + exists all, w'. split; [done |]. rewrite length_app in Hall. split; lia.
Qed.

(** C5, as the code has it.  When a source returns [n >= 1] items on each
    page and stops naming a next page (a cursor for Bluesky, a [next] link
    for Mastodon) with page [k >= 1], and [n * k] is below the cap of 200,
    the fetch sends exactly [k] requests and returns [n * k] items, which is
    [min (n * k) 200].  And a page without items ends the loop at once,
    whatever continuation indicator comes with it: after [k >= 0] pages of
    [n] items that each name a next page, a page without items is the last
    one requested, and the fetch returns the [n * k] items of the pages
    before it after [k + 1] requests. *)
Theorem pagination_stops_after_last_page E n k :
  1 <= n -> n * k < 200 ->
  (1 <= k ->
   (forall actor w,
      (forall i req, i < k ->
         bsky_page n (S i <? k) (http E (length (requests w) + i) req)) ->
      exists posts w',
        BlueskyExtractor._get_posts E actor w = (Ok posts, w') /\
        length (requests w') = length (requests w) + k /\
        length posts = Nat.min (n * k) 200) /\
   (forall instance account_id w,
      (forall i req, i < k ->
         masto_page n (S i <? k) (http E (length (requests w) + i) req)) ->
      exists statuses w',
        MastodonExtractor._get_statuses E instance account_id w = (Ok statuses, w') /\
        length (requests w') = length (requests w) + k /\
        length statuses = Nat.min (n * k) 200)) /\
  (forall actor w,
     (forall i req, i < k -> bsky_page n true (http E (length (requests w) + i) req)) ->
     (forall req, bsky_empty_page (http E (length (requests w) + k) req)) ->
     exists posts w',
       BlueskyExtractor._get_posts E actor w = (Ok posts, w') /\
       length (requests w') = length (requests w) + k + 1 /\
       length posts = n * k) /\
  (forall instance account_id w,
     (forall i req, i < k -> masto_page n true (http E (length (requests w) + i) req)) ->
     (forall req, masto_empty_page (http E (length (requests w) + k) req)) ->
     exists statuses w',
       MastodonExtractor._get_statuses E instance account_id w = (Ok statuses, w') /\
       length (requests w') = length (requests w) + k + 1 /\
       length statuses = n * k).
Proof.
  intros Hn Hcap. split; [| split].
  - intros Hk. rewrite Nat.min_l by lia. split.
    + intros actor w Hpages. by apply bsky_get_posts_pages.
    + intros instance account_id w Hpages. by apply masto_get_statuses_pages.
  - intros actor w Hpages Hempty. unfold BlueskyExtractor._get_posts. exec.
    match goal with |- context [BlueskyExtractor.posts_loop _ _ _ _ ?w0] =>
      destruct (bsky_loop_until_empty E actor n Hn k BlueskyExtractor.max_posts [] JNull w0)
        as (all & w' & -> & Hall & Hreq)
    end.
    + unfold BlueskyExtractor.max_posts. nia.
    + unfold BlueskyExtractor.max_posts. cbn [length]. lia.
    + exact Hpages.
    + exact Hempty.
    + eexists _, _. split; [reflexivity |]. cbn [requests log length] in *.
      rewrite length_take. unfold BlueskyExtractor.max_posts. split; lia.
  - intros instance account_id w Hpages Hempty. unfold MastodonExtractor._get_statuses.
    exec.
    match goal with |- context [MastodonExtractor.statuses_loop _ _ (_, ?u, ?ps) ?w0] =>
      destruct (masto_loop_until_empty E n Hn k MastodonExtractor.max_toots [] u ps w0)
        as (all & w' & -> & Hall & Hreq)
    end.
    + unfold MastodonExtractor.max_toots. nia.
    + unfold MastodonExtractor.max_toots. cbn [length]. lia.
    + exact Hpages.
    + exact Hempty.
    + eexists _, _. split; [reflexivity |]. cbn [requests log length] in *.
      rewrite length_take. unfold MastodonExtractor.max_toots. split; lia.
Qed.

Lemma pagination_stops_after_last_page_witness :
  (exists posts w',
     BlueskyExtractor._get_posts (two_pages_env 3) (JStr "did:plc:x") empty_world
     = (Ok posts, w') /\
     length (requests w') = length (requests empty_world) + 2 /\
     length posts = Nat.min (3 * 2) 200) /\
  (exists statuses w',
     MastodonExtractor._get_statuses (two_toot_pages_env 3) "m.example" (JStr "1")
       empty_world
     = (Ok statuses, w') /\
     length (requests w') = length (requests empty_world) + 2 /\
     length statuses = Nat.min (3 * 2) 200) /\
  (exists posts w',
     BlueskyExtractor._get_posts (two_pages_env 0) (JStr "did:plc:x") empty_world
     = (Ok posts, w') /\
     length (requests w') = length (requests empty_world) + 0 + 1 /\
     length posts = 3 * 0) /\
  (exists statuses w',
     MastodonExtractor._get_statuses (two_toot_pages_env 0) "m.example" (JStr "1")
       empty_world
     = (Ok statuses, w') /\
     length (requests w') = length (requests empty_world) + 0 + 1 /\
     length statuses = 3 * 0).
Proof.
  split; [| split; [| split]].
  - destruct (pagination_stops_after_last_page (two_pages_env 3) 3 2 ltac:(lia) ltac:(lia))
      as [H _].
    destruct (H ltac:(lia)) as [Hfeed _]. apply Hfeed.
    intros i req Hi. destruct i as [|[|i]]; [| | lia];
      (eexists _, _, _; repeat split; reflexivity).
  - destruct (pagination_stops_after_last_page (two_toot_pages_env 3) 3 2
                ltac:(lia) ltac:(lia)) as [H _].
    destruct (H ltac:(lia)) as [_ Htoots]. apply Htoots.
    intros i req Hi. destruct i as [|[|i]]; [| | lia];
      (eexists _, _; repeat split; reflexivity).
  - destruct (pagination_stops_after_last_page (two_pages_env 0) 3 0 ltac:(lia) ltac:(lia))
      as (_ & Hfeed & _).
    apply Hfeed; [intros i req Hi; lia |].
    intros req. eexists _, _. repeat split; reflexivity.
  - destruct (pagination_stops_after_last_page (two_toot_pages_env 0) 3 0
                ltac:(lia) ltac:(lia)) as (_ & _ & Htoots).
    apply Htoots; [intros i req Hi; lia |].
    intros req. eexists. split; reflexivity.
Defined.

(** C5, as the specification words it, fails for pages without items: a
    Bluesky source that returns 0 posts on each page and names no next page
    with page 2 gets one request, not two; the empty first page ends the
    loop. *)
Lemma empty_page_ends_pagination :
  (forall i req, i < 2 ->
     bsky_page 0 (S i <? 2) (http (two_pages_env 0) (length (requests empty_world) + i) req)) /\
  0 * 2 < 200 /\
  exists posts w',
    BlueskyExtractor._get_posts (two_pages_env 0) (JStr "did:plc:x") empty_world
    = (Ok posts, w') /\
    length (requests w') = length (requests empty_world) + 1.
Proof.
  split; [| split; [lia |]].
  - intros i req Hi. destruct i as [|[|i]]; [| | lia];
      (eexists _, _, _; repeat split; reflexivity).
  - eexists _, _. split; vm_compute; reflexivity.
Qed.

(** ** A run whose identity does not resolve *)

Ltac nothing_written := eexists; split; reflexivity.

Lemma so_run_unresolved E api_key username w :
  no_candidates (http E (length (requests w)) (so_search_request api_key username)) ->
  exists w', StackOverflowExtractor.run E api_key username w = (Ok None, w') /\
             files w' = files w.
Proof.
  intros H. unfold StackOverflowExtractor.run. exec.
  destruct (has_requests E); cbn [negb]; [| nothing_written].
  unfold StackOverflowExtractor._search_users. exec.
  fold (so_search_request api_key username).
  destruct (bool_decide _); exec;
    (destruct H as [-> | (resp & kv & -> & Hb & Ht)];
     [cbn; nothing_written |]);
    rewrite Hb; cbn; rewrite ?Ht; cbn; nothing_written.
Qed.

Lemma yt_run_unresolved E api_key username w :
  no_candidates (http E (length (requests w)) (yt_search_request api_key username)) ->
  exists w', YouTubeExtractor.run E api_key username w = (Ok None, w') /\
             files w' = files w.
Proof.
  intros H. unfold YouTubeExtractor.run. exec.
  destruct (YouTubeExtractor.has_key api_key); cbn [negb]; exec; [| nothing_written].
  destruct (has_requests E); cbn [negb]; [| nothing_written].
  unfold YouTubeExtractor._search_channels. exec.
  fold (yt_search_request api_key username).
  destruct H as [-> | (resp & kv & -> & Hb & Ht)]; [cbn; nothing_written |].
  rewrite Hb. cbn. rewrite ?Ht. cbn. nothing_written.
Qed.

Lemma github_run_unresolved E token username w :
  http E (length (requests w)) (github_profile_request token username) = Failed ->
  exists w', GitHubExtractor.run E token username w = (Ok None, w') /\
             files w' = files w.
Proof.
  intros H. unfold GitHubExtractor.run. exec.
  destruct (has_requests E); cbn [negb]; [| nothing_written].
  match goal with |- context [GitHubExtractor._get_user_info _ _ _ ?w0] =>
    destruct (github_user_info_failed E token username w0 H) as (w1 & -> & Hf)
  end.
  cbn. by eexists.
Qed.

Lemma bsky_run_unresolved E username w :
  (forall j v, BlueskyExtractor.handles_to_try username !! j = Some v ->
     no_did (http E (length (requests w) + j) (bsky_resolve_request v))) ->
  exists w', BlueskyExtractor.run E username w = (Ok None, w') /\ files w' = files w.
Proof.
  intros H. unfold BlueskyExtractor.run, BlueskyExtractor._resolve_handle. exec.
  destruct (has_requests E); cbn [negb]; [| nothing_written].
  match goal with |- context [BlueskyExtractor.try_handles _ _ ?w0] =>
    destruct (bsky_try_handles_none E (BlueskyExtractor.handles_to_try username) w0 H)
      as (w1 & -> & Hf & _)
  end.
  cbn [truthy negb]. by eexists.
Qed.

Lemma masto_run_unresolved E instance username w :
  http E (length (requests w)) (masto_lookup_request instance username) = Failed ->
  exists w', MastodonExtractor.run E instance username w = (Ok None, w') /\
             files w' = files w.
Proof.
  intros H. unfold MastodonExtractor.run. exec.
  destruct (has_requests E); cbn [negb]; [| nothing_written].
  unfold MastodonExtractor._search_account. exec.
  fold (masto_lookup_request instance username). rewrite H. cbn. nothing_written.
Qed.

Lemma reddit_run_unresolved E username w :
  no_data (http E (length (requests w)) (reddit_about_request username)) ->
  exists w', RedditExtractor.run E username w = (Ok None, w') /\ files w' = files w.
Proof.
  intros H. unfold RedditExtractor.run. exec.
  destruct (has_requests E); cbn [negb]; [| nothing_written].
  unfold RedditExtractor._get_user_info. exec.
  fold (reddit_about_request username).
  destruct H as [-> | (resp & kv & -> & Hb & Hd)]; [cbn; nothing_written |].
  rewrite Hb. cbn [py_in]. rewrite Hd.
  cbn. nothing_written.
Qed.


Lemma tg_run_unresolved E api_id api_hash username w :
  (exists e, tg_get_entity E (strip (remove_char "@" username)) = Err e) ->
  exists w', TelegramExtractor.run E api_id api_hash username w = (Ok None, w') /\
             files w' = files w.
Proof.
  intros [e He]. unfold TelegramExtractor.run. exec.
  destruct (TelegramExtractor.has_credentials api_id api_hash); cbn [negb]; exec;
    [| nothing_written].
  destruct (has_telethon E); cbn [negb]; exec; [| nothing_written].
  unfold TelegramExtractor._run_async, TelegramExtractor._connect,
    TelegramExtractor.start. exec.
  destruct (tg_start E _) as [lines [e0|]]; exec; [cbn; nothing_written |].
  unfold TelegramExtractor._get_entity_info. exec. rewrite He.
  destruct e; cbn; nothing_written.
Qed.

(** C7: for every platform client, when the identity does not resolve the
    run returns [None] and writes no file. *)
Theorem unresolved_identity_writes_nothing E x username w :
  identity_unresolved E x username w ->
  exists w', ExtractorOrchestrator.run E x username w = (Ok None, w') /\
             files w' = files w.
Proof.
  destruct x; cbn [identity_unresolved ExtractorOrchestrator.run]; intros H.
  - by apply so_run_unresolved.
  - by apply yt_run_unresolved.
  - by apply github_run_unresolved.
  - by apply bsky_run_unresolved.
  - by apply masto_run_unresolved.
  - by apply reddit_run_unresolved.
  - apply medium_run_none. destruct H as [H | (r & H & Hp)]; [by left |].
    right. exists r. split; [done | by left].
  - by apply tg_run_unresolved.
Qed.

Lemma unresolved_identity_writes_nothing_witness :
  exists w', ExtractorOrchestrator.run nobody_env ExtractorOrchestrator.Reddit "ghost"
               empty_world = (Ok None, w') /\
             files w' = files empty_world.
Proof.
  apply (unresolved_identity_writes_nothing nobody_env ExtractorOrchestrator.Reddit).
  left. reflexivity.
Defined.

(** ** No client touches the table of results *)

Lemma results_requests_get E u hs ps : respects same_results (requests_get E u hs ps).
Proof.
  intros w r w' H. unfold requests_get in H.
  destruct (http E _ _); inversion H; reflexivity.
Qed.

Lemma results_now E : respects same_results (now E).
Proof. intros w r w' H. inversion H. reflexivity. Qed.

Lemma results_input E : respects same_results (input E).
Proof. intros w r w' H. inversion H. reflexivity. Qed.

Lemma results_write_json E n d : respects same_results (write_json E n d).
Proof.
  intros w r w' H. unfold write_json in H.
  destruct (fs_write E n); inversion H; reflexivity.
Qed.

Lemma results_tg_start E : respects same_results (TelegramExtractor.start E).
Proof.
  intros w r w' H. unfold TelegramExtractor.start in H.
  destruct (tg_start E _) as [k [e|]]; inversion H; reflexivity.
Qed.

#[local] Hint Resolve results_requests_get results_now results_input
  results_write_json results_tg_start : frame.

Lemma results_now_iso E : respects same_results (now_iso E).
Proof. unfold now_iso. respects. Qed.

Lemma results_import_requests E : respects same_results (import_requests E).
Proof. unfold import_requests. respects. Qed.

Lemma results_export_done l : respects same_results (export_done l).
Proof. unfold export_done. respects. Qed.

Lemma results_save_json E p d u : respects same_results (BaseExtractor._save_json E p d u).
Proof. unfold BaseExtractor._save_json. respects. Qed.

#[local] Hint Resolve results_now_iso results_import_requests results_export_done
  results_save_json : frame.

Lemma results_extract_all extract what total idx ids :
  (forall id, respects same_results (extract id)) ->
  respects same_results (extract_all extract what total idx ids).
Proof.
  intros H. revert idx. induction ids as [|id ids IH]; intros idx; simpl; respects.
Qed.

#[local] Hint Resolve results_extract_all : frame.

Lemma results_github_run E t u : respects same_results (GitHubExtractor.run E t u).
Proof.
  unfold GitHubExtractor.run, GitHubExtractor._get_user_info, GitHubExtractor.show_bio,
    GitHubExtractor._get_repositories, GitHubExtractor.parse_repo,
    GitHubExtractor._get_events, GitHubExtractor.parse_event.
  respects.
Qed.

Lemma results_so_run E k u : respects same_results (StackOverflowExtractor.run E k u).
Proof.
  unfold StackOverflowExtractor.run, StackOverflowExtractor._search_users,
    StackOverflowExtractor._select_user, StackOverflowExtractor.select_field,
    StackOverflowExtractor.field_at, StackOverflowExtractor.show_user.
  assert (Hx : forall id,
    respects same_results (StackOverflowExtractor._extract_user_data E k id)).
  { intros id.
    unfold StackOverflowExtractor._extract_user_data,
      StackOverflowExtractor._get_questions, StackOverflowExtractor._get_answers,
      StackOverflowExtractor._get_badges, StackOverflowExtractor.get_items,
      StackOverflowExtractor._get_profile, StackOverflowExtractor._make_request.
    respects. }
  respects.
Qed.

Lemma results_yt_run E k u : respects same_results (YouTubeExtractor.run E k u).
Proof.
  unfold YouTubeExtractor.run, YouTubeExtractor._search_channels,
    YouTubeExtractor._select_channels, YouTubeExtractor.title_at,
    YouTubeExtractor.id_at, YouTubeExtractor.show_channel.
  assert (Hx : forall id,
    respects same_results (YouTubeExtractor._extract_channel_data E k id)).
  { intros id.
    unfold YouTubeExtractor._extract_channel_data, YouTubeExtractor._get_channel_info,
      YouTubeExtractor._get_videos, YouTubeExtractor.parse_video.
    respects. }
  respects.
Qed.

Lemma results_bsky_try_handles E hs :
  respects same_results (BlueskyExtractor.try_handles E hs).
Proof.
  induction hs as [|h hs IH]; simpl; unfold BlueskyExtractor.try_handle; respects.
Qed.

Lemma results_bsky_posts_loop E fuel a st :
  respects same_results (BlueskyExtractor.posts_loop E fuel a st).
Proof.
  revert st. induction fuel as [|fuel IH]; intros [acc cur]; simpl;
    unfold BlueskyExtractor.posts_turn, BlueskyExtractor.parse_post; respects.
Qed.

#[local] Hint Resolve results_bsky_try_handles results_bsky_posts_loop : frame.

Lemma results_bsky_run E u : respects same_results (BlueskyExtractor.run E u).
Proof.
  unfold BlueskyExtractor.run, BlueskyExtractor._resolve_handle,
    BlueskyExtractor._get_profile, BlueskyExtractor._get_posts.
  respects.
Qed.

Lemma results_masto_statuses_loop E fuel st :
  respects same_results (MastodonExtractor.statuses_loop E fuel st).
Proof.
  revert st. induction fuel as [|fuel IH]; intros [[all u] ps]; simpl;
    unfold MastodonExtractor.statuses_turn, MastodonExtractor.parse_status; respects.
Qed.

#[local] Hint Resolve results_masto_statuses_loop : frame.

Lemma results_masto_run E i u : respects same_results (MastodonExtractor.run E i u).
Proof.
  unfold MastodonExtractor.run, MastodonExtractor._search_account,
    MastodonExtractor._get_statuses.
  respects.
Qed.

Lemma results_reddit_run E u : respects same_results (RedditExtractor.run E u).
Proof.
  unfold RedditExtractor.run, RedditExtractor._get_user_info, RedditExtractor._get_posts,
    RedditExtractor._get_comments, RedditExtractor.children, RedditExtractor.parse_post,
    RedditExtractor.parse_comment.
  respects.
Qed.

Lemma results_medium_run E u : respects same_results (MediumExtractor.run E u).
Proof.
  unfold MediumExtractor.run, MediumExtractor._fetch_articles,
    MediumExtractor.show_article.
  respects.
Qed.

Lemma results_tg_collect acc stream :
  respects same_results (TelegramExtractor.collect acc stream).
Proof. revert acc. induction stream as [|m ms IH]; intros acc; simpl; respects. Qed.

#[local] Hint Resolve results_tg_collect : frame.

Lemma results_tg_run E i h u : respects same_results (TelegramExtractor.run E i h u).
Proof.
  unfold TelegramExtractor.run, TelegramExtractor._run_async, TelegramExtractor._connect,
    TelegramExtractor._get_entity_info, TelegramExtractor._extract_messages.
  respects.
Qed.

Lemma results_run E x u : respects same_results (ExtractorOrchestrator.run E x u).
Proof.
  destruct x; simpl;
    auto using results_github_run, results_so_run, results_yt_run, results_bsky_run,
      results_masto_run, results_reddit_run, results_medium_run, results_tg_run.
Qed.

(** ** Every client's run returns or raises *)

Lemma halts_bsky_try_handles E hs : halts (BlueskyExtractor.try_handles E hs).
Proof.
  induction hs as [|h hs IH]; simpl; unfold BlueskyExtractor.try_handle; halts.
Qed.

Lemma halts_bsky_run E u : halts (BlueskyExtractor.run E u).
Proof.
  pose proof (halts_bsky_try_handles E) as Hh.
  pose proof (halts_bsky_get_posts E) as Hp.
  unfold BlueskyExtractor.run, BlueskyExtractor._resolve_handle,
    BlueskyExtractor._get_profile.
  halts.
Qed.

Lemma halts_masto_run E i u : halts (MastodonExtractor.run E i u).
Proof.
  pose proof (halts_masto_get_statuses E i) as Hs.
  unfold MastodonExtractor.run, MastodonExtractor._search_account.
  halts.
Qed.

Lemma halts_run E x u : halts (ExtractorOrchestrator.run E x u).
Proof.
  destruct x; simpl;
    auto using halts_github_run, halts_so_run, halts_yt_run, halts_bsky_run,
      halts_masto_run, halts_reddit_run, halts_medium_run, halts_tg_run.
Qed.

(** ** The loop of the orchestrator *)

Lemma create_extractor_returns E c name w :
  exists x w', ExtractorOrchestrator._create_extractor E c name w = (Ok x, w') /\
               results w' = results w.
Proof.
  unfold ExtractorOrchestrator._create_extractor. exec.
  destruct (ExtractorOrchestrator.kwargs_for E name) as [kw|e]; cbn;
    [destruct (ExtractorOrchestrator.construct c kw); cbn |];
    eexists _, _; split; reflexivity.
Qed.

(** One extraction ends normally whatever the client's run does, with one
    entry recorded for the platform: a failure when the run raised. *)
Lemma extract_records E x name username w :
  exists e w',
    ExtractorOrchestrator.extract E x name username w = (Ok tt, w') /\
    results w' = <[name := e]> (results w) /\
    e_username e = username /\
    (forall ex w1, ExtractorOrchestrator.run E x username w = (Raise ex, w1) ->
                   e = ExtractorOrchestrator.failure username).
Proof.
  unfold ExtractorOrchestrator.extract, try_except, bind at 1.
  destruct (ExtractorOrchestrator.run E x username w) as [[[f|]|ex|] w1] eqn:Hrun.
  - pose proof (results_run _ _ _ _ _ _ Hrun) as Hres. unfold same_results in Hres.
    destruct (negb (f =? "")%string).
    + unfold ExtractorOrchestrator.move. destruct (fs_move E f _) as [e|]; exec.
      * eexists (ExtractorOrchestrator.failure username), _.
        split; [reflexivity |]. cbn. rewrite Hres. by repeat split.
      * eexists (ExtractorOrchestrator.success username _), _.
        split; [reflexivity |]. cbn. rewrite Hres. by repeat split.
    + eexists (ExtractorOrchestrator.failure username), _.
      split; [reflexivity |]. cbn. rewrite Hres. by repeat split.
  - pose proof (results_run _ _ _ _ _ _ Hrun) as Hres. unfold same_results in Hres.
    eexists (ExtractorOrchestrator.failure username), _.
    split; [reflexivity |]. cbn. rewrite Hres. by repeat split.
  - pose proof (results_run _ _ _ _ _ _ Hrun) as Hres. unfold same_results in Hres.
    cbn [any_exception]. exec.
    eexists (ExtractorOrchestrator.failure username), _.
    split; [reflexivity |]. cbn. rewrite Hres. by repeat split.
  - exfalso. by apply (halts_run E x username w Diverge w1).
Qed.

(** One turn of the loop ends normally, with one entry recorded. *)
Lemma process_records E usernames total idx p info username w :
  ExtractorOrchestrator.PLATFORMS p = Some info ->
  usernames !! p = Some username ->
  exists e w',
    ExtractorOrchestrator.process E usernames total idx p w = (Ok tt, w') /\
    results w' = <[ExtractorOrchestrator.name info := e]> (results w) /\
    e_username e = username.
Proof.
  intros Hp Hu. unfold ExtractorOrchestrator.process. rewrite Hp, Hu.
  unfold bind at 1. unfold ui at 1, emit at 1. unfold bind at 1.
  match goal with |- context [ExtractorOrchestrator._create_extractor _ _ _ ?w0] =>
    destruct (create_extractor_returns E (ExtractorOrchestrator.class info)
                (ExtractorOrchestrator.name info) w0) as (x & w1 & -> & Hr1)
  end.
  cbn [results log] in Hr1. unfold bind at 1.
  destruct x as [x|].
  - destruct (extract_records E x (ExtractorOrchestrator.name info) username w1)
      as (e & w2 & -> & Hr2 & He & _).
    exists e. destruct (idx <? total); exec; eexists; (split; [reflexivity |]);
      cbn; rewrite Hr2, Hr1; by split.
  - exists (ExtractorOrchestrator.failure username).
    unfold ExtractorOrchestrator.record.
    destruct (idx <? total); exec; eexists; (split; [reflexivity |]);
      cbn; rewrite Hr1; by split.
Qed.

Lemma PLATFORMS_name_inj p q i j :
  ExtractorOrchestrator.PLATFORMS p = Some i ->
  ExtractorOrchestrator.PLATFORMS q = Some j ->
  ExtractorOrchestrator.name i = ExtractorOrchestrator.name j -> p = q.
Proof.
  assert (Hdom : forall r k, ExtractorOrchestrator.PLATFORMS r = Some k ->
    (r = 1 \/ r = 2 \/ r = 3 \/ r = 4 \/ r = 5 \/ r = 6 \/ r = 7 \/ r = 8)%Z).
  { intros r k H. destruct r as [|r|r]; try discriminate.
    do 4 (try destruct r as [r|r|]); try discriminate; lia. }
  intros Hp Hq Hn.
  destruct (Hdom p i Hp) as [->|[->|[->|[->|[->|[->|[->| ->]]]]]]];
    destruct (Hdom q j Hq) as [->|[->|[->|[->|[->|[->|[->| ->]]]]]]];
    try reflexivity; exfalso; cbn in Hp, Hq;
    inversion Hp; inversion Hq; subst; discriminate.
Qed.

Lemma process_all_covers E usernames total : forall platforms seen idx w,
  (forall p, p ∈ platforms ->
     is_Some (ExtractorOrchestrator.PLATFORMS p) /\ is_Some (usernames !! p)) ->
  covers usernames seen w ->
  exists w',
    ExtractorOrchestrator.process_all E usernames total idx platforms w = (Ok tt, w') /\
    covers usernames (seen ++ platforms) w'.
Proof.
  induction platforms as [|p rest IH]; intros seen idx w Hsel Hseen; simpl.
  - exists w. split; [done |]. by rewrite app_nil_r.
  - pose proof (Hsel p ltac:(by left)) as [[info Hp] [username Hu]].
    destruct (process_records E usernames total idx p info username w Hp Hu)
      as (e & w1 & Hrun & Hres & He).
    rewrite (bind_run _ _ _ _ _ Hrun).
    destruct (IH (seen ++ [p]) (S idx) w1) as (w' & Hall & Hcov).
    + intros q Hq. apply Hsel. by right.
    + intros q info' username' Hq Hp' Hu'. rewrite Hres.
      destruct (decide (ExtractorOrchestrator.name info' = ExtractorOrchestrator.name info))
        as [Heq | Hne].
      * rewrite Heq, lookup_insert_eq. exists e. split; [done |].
        assert (q = p) as -> by (by eapply PLATFORMS_name_inj). congruence.
      * rewrite lookup_insert_ne by done.
        apply elem_of_app in Hq as [Hq | Hq]; [by eapply Hseen |].
        apply list_elem_of_singleton in Hq as ->. congruence.
    + exists w'. split; [done |]. by rewrite <- app_assoc in Hcov.
Qed.

(** C8: an exception raised by a client's run is caught by the extraction
    around it, which ends normally with a failure recorded for the platform;
    and for every list of selected platforms (known platforms, each with a
    username) the loop of [_run_extractions] ends normally, whatever the
    clients did, with an outcome recorded for every platform of the list. *)
Theorem platform_failure_never_aborts E :
  (forall x platform_name username w e w1,
     ExtractorOrchestrator.run E x username w = (Raise e, w1) ->
     exists w2,
       ExtractorOrchestrator.extract E x platform_name username w = (Ok tt, w2) /\
       results w2 !! platform_name = Some (ExtractorOrchestrator.failure username)) /\
  (forall platforms usernames w,
     (forall p, p ∈ platforms ->
        is_Some (ExtractorOrchestrator.PLATFORMS p) /\ is_Some (usernames !! p)) ->
     exists w',
       ExtractorOrchestrator._run_extractions E platforms usernames w = (Ok tt, w') /\
       forall p info username,
         p ∈ platforms ->
         ExtractorOrchestrator.PLATFORMS p = Some info ->
         usernames !! p = Some username ->
         exists entry, results w' !! ExtractorOrchestrator.name info = Some entry /\
                       e_username entry = username).
Proof.
  split.
  - intros x platform_name username w e w1 Hrun.
    destruct (extract_records E x platform_name username w)
      as (entry & w2 & Hx & Hres & _ & Hfail).
    exists w2. split; [done |].
    rewrite Hres, lookup_insert_eq. f_equal. by eapply Hfail.
  - intros platforms usernames w Hsel.
    unfold ExtractorOrchestrator._run_extractions. exec.
    match goal with |- context [ExtractorOrchestrator.process_all _ _ _ _ _ ?w0] =>
      pose proof (process_all_covers E usernames (length platforms) platforms [] 1 w0 Hsel)
        as Hall
    end.
    destruct Hall as (w' & -> & Hcov).
    + intros p info username Hp. by apply elem_of_nil in Hp.
    + by exists w'.
Qed.

Lemma platform_failure_never_aborts_witness :
  (exists w2,
     ExtractorOrchestrator.extract odd_env (ExtractorOrchestrator.GitHub None)
       "github" "octocat" empty_world = (Ok tt, w2) /\
     results w2 !! "github" = Some (ExtractorOrchestrator.failure "octocat")) /\
  (exists w',
     ExtractorOrchestrator._run_extractions odd_env [3; 7]%Z
       {[3%Z := "octocat"; 7%Z := "octo"]} empty_world = (Ok tt, w') /\
     forall p info username,
       p ∈ [3; 7]%Z ->
       ExtractorOrchestrator.PLATFORMS p = Some info ->
       ({[3%Z := "octocat"; 7%Z := "octo"]} : gmap Z string) !! p = Some username ->
       exists entry, results w' !! ExtractorOrchestrator.name info = Some entry /\
                     e_username entry = username).
Proof.
  split.
  - destruct (platform_failure_never_aborts odd_env) as [Hcaught _].
    apply (Hcaught (ExtractorOrchestrator.GitHub None) "github" "octocat" empty_world
             AttributeError
             (snd (ExtractorOrchestrator.run odd_env (ExtractorOrchestrator.GitHub None)
                     "octocat" empty_world))).
    vm_compute. reflexivity.
  - destruct (platform_failure_never_aborts odd_env) as [_ Hloop].
    apply Hloop. intros p Hp.
    apply elem_of_cons in Hp as [-> | Hp]; [split; by eexists |].
    apply elem_of_cons in Hp as [-> | Hp]; [split; by eexists |].
    by apply elem_of_nil in Hp.
Defined.

(** ** Pagination up to the cap, and pagination cut by a failure *)

Lemma ceil_step m a n :
  1 <= n -> a < m -> (m - a + n - 1) / n = S ((m - (a + n) + n - 1) / n).
Proof.
  intros Hn Ha. destruct (le_lt_dec n (m - a)) as [Hd | Hd].
  - replace (m - a + n - 1) with ((m - (a + n) + n - 1) + 1 * n) by lia.
    rewrite Nat.div_add by lia. lia.
  - replace (m - (a + n)) with 0 by lia.
    rewrite (Nat.div_small (0 + n - 1) n) by lia.
    symmetry. apply (Nat.div_unique _ _ 1 (m - a - 1)); lia.
Qed.

Lemma bsky_loop_endless E actor n :
  1 <= n ->
  forall fuel acc cur w,
    BlueskyExtractor.max_posts <= fuel + length acc ->
    (forall i req, bsky_page n true (http E (length (requests w) + i) req)) ->
    exists all w',
      BlueskyExtractor.posts_loop E fuel actor (acc, cur) w = (Ok all, w') /\
      BlueskyExtractor.max_posts <= length all /\
      length (requests w') =
        length (requests w) + (BlueskyExtractor.max_posts - length acc + n - 1) / n.
Proof.
  intros Hn. induction fuel as [|fuel IH]; intros acc cur w Hfuel Hpages;
    cbn [BlueskyExtractor.posts_loop fst].
  - replace (length acc <? BlueskyExtractor.max_posts) with false
      by (symmetry; apply Nat.ltb_ge; lia).
    cbn [negb]. exists acc, w. split; [done |].
    replace (BlueskyExtractor.max_posts - length acc) with 0 by lia.
    rewrite (Nat.div_small (0 + n - 1) n) by lia. split; lia.
  - destruct (length acc <? BlueskyExtractor.max_posts) eqn:Hlt; cbn [negb].
    + apply Nat.ltb_lt in Hlt. unfold bind at 1.
      destruct (bsky_turn_page E actor acc cur n true w Hn)
        as (posts & c & w1 & -> & Hp & Hr).
      { intros req. specialize (Hpages 0 req). by rewrite Nat.add_0_r in Hpages. }
      destruct (IH (acc ++ posts) c w1) as (all & w' & -> & Hcap & Hreq).
      * rewrite length_app. lia.
      * intros i req. rewrite Hr. specialize (Hpages (S i) req).
        by replace (S (length (requests w)) + i) with (length (requests w) + S i) by lia.
      * exists all, w'. split; [done |]. rewrite length_app, Hp in Hreq.
        rewrite (ceil_step _ _ n Hn Hlt). split; lia.
    + apply Nat.ltb_ge in Hlt. exists acc, w. split; [done |].
      replace (BlueskyExtractor.max_posts - length acc) with 0 by lia.
      rewrite (Nat.div_small (0 + n - 1) n) by lia. split; lia.
Qed.

Lemma masto_loop_endless E n :
  1 <= n ->
  forall fuel acc u ps w,
    MastodonExtractor.max_toots <= fuel + length acc ->
    (forall i req, masto_page n true (http E (length (requests w) + i) req)) ->
    exists all w',
      MastodonExtractor.statuses_loop E fuel (acc, u, ps) w = (Ok all, w') /\
      MastodonExtractor.max_toots <= length all /\
      length (requests w') =
        length (requests w) + (MastodonExtractor.max_toots - length acc + n - 1) / n.
Proof.
  intros Hn. induction fuel as [|fuel IH]; intros acc u ps w Hfuel Hpages;
    cbn [MastodonExtractor.statuses_loop fst].
  - replace (length acc <? MastodonExtractor.max_toots) with false
      by (symmetry; apply Nat.ltb_ge; lia).
    cbn [negb]. exists acc, w. split; [done |].
    replace (MastodonExtractor.max_toots - length acc) with 0 by lia.
    rewrite (Nat.div_small (0 + n - 1) n) by lia. split; lia.
  - destruct (length acc <? MastodonExtractor.max_toots) eqn:Hlt; cbn [negb].
    + apply Nat.ltb_lt in Hlt. unfold bind at 1.
      destruct (masto_turn_page E acc u ps n true w Hn)
        as (parsed & u' & ps' & w1 & -> & Hp & Hr).
      { intros req. specialize (Hpages 0 req). by rewrite Nat.add_0_r in Hpages. }
      destruct (IH (acc ++ parsed) u' ps' w1) as (all & w' & -> & Hcap & Hreq).
      * rewrite length_app. lia.
      * intros i req. rewrite Hr. specialize (Hpages (S i) req).
        by replace (S (length (requests w)) + i) with (length (requests w) + S i) by lia.
      * exists all, w'. split; [done |]. rewrite length_app, Hp in Hreq.
        rewrite (ceil_step _ _ n Hn Hlt). split; lia.
    + apply Nat.ltb_ge in Hlt. exists acc, w. split; [done |].
      replace (MastodonExtractor.max_toots - length acc) with 0 by lia.
      rewrite (Nat.div_small (0 + n - 1) n) by lia. split; lia.
Qed.

(** A source that has [n >= 1] items on every page and always names a next
    page is read up to the cap: the fetch returns exactly 200 items, after
    200 / n requests, rounded up. *)
Theorem pagination_stops_at_cap E n :
  1 <= n ->
  (forall actor w,
     (forall i req, bsky_page n true (http E (length (requests w) + i) req)) ->
     exists posts w',
       BlueskyExtractor._get_posts E actor w = (Ok posts, w') /\
       length posts = 200 /\
       length (requests w') = length (requests w) + (200 + n - 1) / n) /\
  (forall instance account_id w,
     (forall i req, masto_page n true (http E (length (requests w) + i) req)) ->
     exists statuses w',
       MastodonExtractor._get_statuses E instance account_id w = (Ok statuses, w') /\
       length statuses = 200 /\
       length (requests w') = length (requests w) + (200 + n - 1) / n).
Proof.
  intros Hn. split.
  - intros actor w Hpages. unfold BlueskyExtractor._get_posts. exec.
    match goal with |- context [BlueskyExtractor.posts_loop _ _ _ _ ?w0] =>
      destruct (bsky_loop_endless E actor n Hn BlueskyExtractor.max_posts [] JNull w0)
        as (all & w' & -> & Hall & Hreq)
    end.
    + cbn [length]. lia.
    + exact Hpages.
    + eexists _, _. split; [reflexivity |]. cbn [requests log] in *.
      rewrite length_take. unfold BlueskyExtractor.max_posts in *. cbn [length] in Hreq.
      split; [lia |]. rewrite Hreq. f_equal.
  - intros instance account_id w Hpages. unfold MastodonExtractor._get_statuses. exec.
    match goal with |- context [MastodonExtractor.statuses_loop _ _ (_, ?u, ?ps) ?w0] =>
      destruct (masto_loop_endless E n Hn MastodonExtractor.max_toots [] u ps w0)
        as (all & w' & -> & Hall & Hreq)
    end.
    + cbn [length]. lia.
    + exact Hpages.
    + eexists _, _. split; [reflexivity |]. cbn [requests log] in *.
      rewrite length_take. unfold MastodonExtractor.max_toots in *. cbn [length] in Hreq.
      split; [lia |]. rewrite Hreq. f_equal.
Qed.

Lemma pagination_stops_at_cap_witness :
  (exists posts w',
     BlueskyExtractor._get_posts (endless_feed_env 60) (JStr "did:plc:x") empty_world
     = (Ok posts, w') /\
     length posts = 200 /\
     length (requests w') = length (requests empty_world) + (200 + 60 - 1) / 60) /\
  (exists statuses w',
     MastodonExtractor._get_statuses (endless_toots_env 40) "m.example" (JStr "1")
       empty_world = (Ok statuses, w') /\
     length statuses = 200 /\
     length (requests w') = length (requests empty_world) + (200 + 40 - 1) / 40).
Proof.
  split.
  - destruct (pagination_stops_at_cap (endless_feed_env 60) 60 ltac:(lia)) as [Hfeed _].
    apply Hfeed. intros i req. eexists _, _, _. repeat split; reflexivity.
  - destruct (pagination_stops_at_cap (endless_toots_env 40) 40 ltac:(lia)) as [_ Htoots].
    apply Htoots. intros i req. eexists _, _. repeat split; reflexivity.
Defined.

Lemma bsky_turn_failed E actor st w :
  (forall req, http E (length (requests w)) req = Failed) ->
  exists w', BlueskyExtractor.posts_turn E actor st w = (Ok (Break st), w') /\
             length (requests w') = S (length (requests w)).
Proof.
  intros H. destruct st as [acc cur]. unfold BlueskyExtractor.posts_turn. exec.
  rewrite H. cbn. eexists. split; [reflexivity |].
  cbn [requests sent]. rewrite length_app. simpl. lia.
Qed.

Lemma masto_turn_failed E st w :
  (forall req, http E (length (requests w)) req = Failed) ->
  exists w', MastodonExtractor.statuses_turn E st w = (Ok (Break st), w') /\
             length (requests w') = S (length (requests w)).
Proof.
  intros H. destruct st as [[acc u] ps]. unfold MastodonExtractor.statuses_turn. exec.
  rewrite H. cbn. eexists. split; [reflexivity |].
  cbn [requests sent]. rewrite length_app. simpl. lia.
Qed.

Lemma bsky_loop_broken E actor n :
  1 <= n ->
  forall k fuel acc cur w,
    k < fuel -> length acc + n * k < BlueskyExtractor.max_posts ->
    (forall i req, i < k -> bsky_page n true (http E (length (requests w) + i) req)) ->
    (forall req, http E (length (requests w) + k) req = Failed) ->
    exists all w',
      BlueskyExtractor.posts_loop E fuel actor (acc, cur) w = (Ok all, w') /\
      length all = length acc + n * k /\
      length (requests w') = length (requests w) + k + 1.
Proof.
  intros Hn k. induction k as [|k IH]; intros fuel acc cur w Hfuel Hlen Hpages Hfail;
    (destruct fuel as [|fuel]; [lia |]); cbn [BlueskyExtractor.posts_loop fst];
    (replace (length acc <? BlueskyExtractor.max_posts) with true
       by (symmetry; apply Nat.ltb_lt; lia));
    cbn [negb]; unfold bind at 1.
  - destruct (bsky_turn_failed E actor (acc, cur) w) as (w' & -> & Hr).
    { intros req. specialize (Hfail req). by rewrite Nat.add_0_r in Hfail. }
    exec. exists acc, w'. cbn [fst]. split; [done |]. split; lia.
  - destruct (bsky_turn_page E actor acc cur n true w Hn)
      as (posts & c & w1 & -> & Hp & Hr).
    { intros req. specialize (Hpages 0 req ltac:(lia)). by rewrite Nat.add_0_r in Hpages. }
    destruct (IH fuel (acc ++ posts) c w1) as (all & w' & -> & Hall & Hreq).
    + lia.
    + rewrite length_app. lia.
    + intros i req Hi. rewrite Hr. specialize (Hpages (S i) req ltac:(lia)).
      by replace (S (length (requests w)) + i) with (length (requests w) + S i) by lia.
    + intros req. rewrite Hr. specialize (Hfail req).
      by replace (S (length (requests w)) + k) with (length (requests w) + S k) by lia.
    + exists all, w'. split; [done |]. rewrite length_app in Hall. split; lia.
Qed.

Lemma masto_loop_broken E n :
  1 <= n ->
  forall k fuel acc u ps w,
    k < fuel -> length acc + n * k < MastodonExtractor.max_toots ->
    (forall i req, i < k -> masto_page n true (http E (length (requests w) + i) req)) ->
    (forall req, http E (length (requests w) + k) req = Failed) ->
    exists all w',
      MastodonExtractor.statuses_loop E fuel (acc, u, ps) w = (Ok all, w') /\
      length all = length acc + n * k /\
      length (requests w') = length (requests w) + k + 1.
Proof.
  intros Hn k. induction k as [|k IH]; intros fuel acc u ps w Hfuel Hlen Hpages Hfail;
    (destruct fuel as [|fuel]; [lia |]); cbn [MastodonExtractor.statuses_loop fst];
    (replace (length acc <? MastodonExtractor.max_toots) with true
       by (symmetry; apply Nat.ltb_lt; lia));
    cbn [negb]; unfold bind at 1.
  - destruct (masto_turn_failed E (acc, u, ps) w) as (w' & -> & Hr).
    { intros req. specialize (Hfail req). by rewrite Nat.add_0_r in Hfail. }
    exec. exists acc, w'. cbn [fst]. split; [done |]. split; lia.
  - destruct (masto_turn_page E acc u ps n true w Hn)
      as (parsed & u' & ps' & w1 & -> & Hp & Hr).
    { intros req. specialize (Hpages 0 req ltac:(lia)). by rewrite Nat.add_0_r in Hpages. }
    destruct (IH fuel (acc ++ parsed) u' ps' w1) as (all & w' & -> & Hall & Hreq).
    + lia.
    + rewrite length_app. lia.
    + intros i req Hi. rewrite Hr. specialize (Hpages (S i) req ltac:(lia)).
      by replace (S (length (requests w)) + i) with (length (requests w) + S i) by lia.
    + intros req. rewrite Hr. specialize (Hfail req).
      by replace (S (length (requests w)) + k) with (length (requests w) + S k) by lia.
    + exists all, w'. split; [done |]. rewrite length_app in Hall. split; lia.
Qed.

(** A request that fails ends the fetch without an exception, and the pages
    read before it are kept: after [k] pages of [n >= 1] items ([n * k]
    below the cap) and a failure, the fetch returns the [n * k] items, and
    has sent [k + 1] requests.  With [k = 0] the result is the empty list. *)
Theorem pagination_keeps_pages_before_failure E n k :
  1 <= n -> n * k < 200 ->
  (forall actor w,
     (forall i req, i < k -> bsky_page n true (http E (length (requests w) + i) req)) ->
     (forall req, http E (length (requests w) + k) req = Failed) ->
     exists posts w',
       BlueskyExtractor._get_posts E actor w = (Ok posts, w') /\
       length posts = n * k /\
       length (requests w') = length (requests w) + k + 1) /\
  (forall instance account_id w,
     (forall i req, i < k -> masto_page n true (http E (length (requests w) + i) req)) ->
     (forall req, http E (length (requests w) + k) req = Failed) ->
     exists statuses w',
       MastodonExtractor._get_statuses E instance account_id w = (Ok statuses, w') /\
       length statuses = n * k /\
       length (requests w') = length (requests w) + k + 1).
Proof.
  intros Hn Hcap. split.
  - intros actor w Hpages Hfail. unfold BlueskyExtractor._get_posts. exec.
    match goal with |- context [BlueskyExtractor.posts_loop _ _ _ _ ?w0] =>
      destruct (bsky_loop_broken E actor n Hn k BlueskyExtractor.max_posts [] JNull w0)
        as (all & w' & -> & Hall & Hreq)
    end.
    + unfold BlueskyExtractor.max_posts. nia.
    + unfold BlueskyExtractor.max_posts. cbn [length]. lia.
    + exact Hpages.
    + exact Hfail.
    + eexists _, _. split; [reflexivity |]. cbn [requests log length] in *.
      rewrite length_take. unfold BlueskyExtractor.max_posts. split; lia.
  - intros instance account_id w Hpages Hfail. unfold MastodonExtractor._get_statuses. exec.
    match goal with |- context [MastodonExtractor.statuses_loop _ _ (_, ?u, ?ps) ?w0] =>
      destruct (masto_loop_broken E n Hn k MastodonExtractor.max_toots [] u ps w0)
        as (all & w' & -> & Hall & Hreq)
    end.
    + unfold MastodonExtractor.max_toots. nia.
    + unfold MastodonExtractor.max_toots. cbn [length]. lia.
    + exact Hpages.
    + exact Hfail.
    + eexists _, _. split; [reflexivity |]. cbn [requests log length] in *.
      rewrite length_take. unfold MastodonExtractor.max_toots. split; lia.
Qed.

Lemma pagination_keeps_pages_before_failure_witness :
  (exists posts w',
     BlueskyExtractor._get_posts (broken_feed_env 50 2) (JStr "did:plc:x") empty_world
     = (Ok posts, w') /\
     length posts = 50 * 2 /\
     length (requests w') = length (requests empty_world) + 2 + 1) /\
  (exists statuses w',
     MastodonExtractor._get_statuses (broken_toots_env 40 3) "m.example" (JStr "1")
       empty_world = (Ok statuses, w') /\
     length statuses = 40 * 3 /\
     length (requests w') = length (requests empty_world) + 3 + 1).
Proof.
  split.
  - destruct (pagination_keeps_pages_before_failure (broken_feed_env 50 2) 50 2
                ltac:(lia) ltac:(lia)) as [Hfeed _].
    apply Hfeed.
    + intros i req Hi. destruct i as [|[|i]]; [| | lia];
        (eexists _, _, _; repeat split; reflexivity).
    + intros req. reflexivity.
  - destruct (pagination_keeps_pages_before_failure (broken_toots_env 40 3) 40 3
                ltac:(lia) ltac:(lia)) as [_ Htoots].
    apply Htoots.
    + intros i req Hi. destruct i as [|[|[|i]]]; [| | | lia];
        (eexists _, _; repeat split; reflexivity).
    + intros req. reflexivity.
Defined.

(** ** A client that cannot start *)

(** A client that lacks its module or its credentials returns [None], and
    the only thing it does is to show one error message: no request, no
    file, no prompt, no reading of the clock, no connection. *)
Theorem missing_prerequisite_stops_run E x username w :
  missing_prerequisite E x = true ->
  exists msg,
    ExtractorOrchestrator.run E x username w = (Ok None, log (Ui UiError msg) w).
Proof.
  destruct x; cbn [missing_prerequisite ExtractorOrchestrator.run]; intros H.
  - unfold StackOverflowExtractor.run. exec.
    destruct (has_requests E); [discriminate |]. by eexists.
  - unfold YouTubeExtractor.run. exec.
    destruct (YouTubeExtractor.has_key api_key); cbn [negb]; [| by eexists].
    destruct (has_requests E); [discriminate |]. by eexists.
  - unfold GitHubExtractor.run. exec.
    destruct (has_requests E); [discriminate |]. by eexists.
  - unfold BlueskyExtractor.run. exec.
    destruct (has_requests E); [discriminate |]. by eexists.
  - unfold MastodonExtractor.run. exec.
    destruct (has_requests E); [discriminate |]. by eexists.
  - unfold RedditExtractor.run. exec.
    destruct (has_requests E); [discriminate |]. by eexists.
  - unfold MediumExtractor.run. exec.
    destruct (has_requests E); [discriminate |]. by eexists.
  - unfold TelegramExtractor.run. exec.
    destruct (TelegramExtractor.has_credentials api_id api_hash); cbn [negb];
      [| by eexists].
    destruct (has_telethon E); [discriminate |]. by eexists.
Qed.

Lemma missing_prerequisite_stops_run_witness :
  exists msg,
    ExtractorOrchestrator.run octocat_env (ExtractorOrchestrator.YouTube None) "octocat"
      empty_world = (Ok None, log (Ui UiError msg) empty_world).
Proof.
  apply (missing_prerequisite_stops_run octocat_env (ExtractorOrchestrator.YouTube None)).
  reflexivity.
Defined.

(** ** Prompts *)

Lemma inputs_requests_get E u hs ps : respects same_inputs (requests_get E u hs ps).
Proof.
  intros w r w' H. unfold requests_get in H.
  destruct (http E _ _); inversion H; reflexivity.
Qed.

Lemma inputs_now E : respects same_inputs (now E).
Proof. intros w r w' H. inversion H. reflexivity. Qed.

Lemma inputs_write_json E n d : respects same_inputs (write_json E n d).
Proof.
  intros w r w' H. unfold write_json in H.
  destruct (fs_write E n); inversion H; reflexivity.
Qed.

#[local] Hint Resolve inputs_requests_get inputs_now inputs_write_json : frame.

Lemma inputs_now_iso E : respects same_inputs (now_iso E).
Proof. unfold now_iso. respects. Qed.

Lemma inputs_import_requests E : respects same_inputs (import_requests E).
Proof. unfold import_requests. respects. Qed.

Lemma inputs_export_done l : respects same_inputs (export_done l).
Proof. unfold export_done. respects. Qed.

Lemma inputs_save_json E p d u : respects same_inputs (BaseExtractor._save_json E p d u).
Proof. unfold BaseExtractor._save_json. respects. Qed.

#[local] Hint Resolve inputs_now_iso inputs_import_requests inputs_export_done
  inputs_save_json : frame.

Lemma inputs_extract_all extract what total idx ids :
  (forall id, respects same_inputs (extract id)) ->
  respects same_inputs (extract_all extract what total idx ids).
Proof.
  intros H. revert idx. induction ids as [|id ids IH]; intros idx; simpl; respects.
Qed.

Lemma inputs_bsky_try_handles E hs :
  respects same_inputs (BlueskyExtractor.try_handles E hs).
Proof.
  induction hs as [|h hs IH]; simpl; unfold BlueskyExtractor.try_handle; respects.
Qed.

Lemma inputs_bsky_posts_loop E fuel a st :
  respects same_inputs (BlueskyExtractor.posts_loop E fuel a st).
Proof.
  revert st. induction fuel as [|fuel IH]; intros [acc cur]; simpl;
    unfold BlueskyExtractor.posts_turn, BlueskyExtractor.parse_post; respects.
Qed.

Lemma inputs_masto_statuses_loop E fuel st :
  respects same_inputs (MastodonExtractor.statuses_loop E fuel st).
Proof.
  revert st. induction fuel as [|fuel IH]; intros [[all u] ps]; simpl;
    unfold MastodonExtractor.statuses_turn, MastodonExtractor.parse_status; respects.
Qed.

Lemma inputs_tg_collect acc stream :
  respects same_inputs (TelegramExtractor.collect acc stream).
Proof. revert acc. induction stream as [|m ms IH]; intros acc; simpl; respects. Qed.

#[local] Hint Resolve inputs_extract_all inputs_bsky_try_handles inputs_bsky_posts_loop
  inputs_masto_statuses_loop inputs_tg_collect : frame.

Lemma inputs_quiet_run E x u :
  asks_for_a_selection x = false ->
  (forall n, login_lines E x n = 0) ->
  respects same_inputs (ExtractorOrchestrator.run E x u).
Proof.
  destruct x; try discriminate; intros _ Hlogin; simpl.
  - unfold GitHubExtractor.run, GitHubExtractor._get_user_info, GitHubExtractor.show_bio,
      GitHubExtractor._get_repositories, GitHubExtractor.parse_repo,
      GitHubExtractor._get_events, GitHubExtractor.parse_event.
    respects.
  - unfold BlueskyExtractor.run, BlueskyExtractor._resolve_handle,
      BlueskyExtractor._get_profile, BlueskyExtractor._get_posts.
    respects.
  - unfold MastodonExtractor.run, MastodonExtractor._search_account,
      MastodonExtractor._get_statuses.
    respects.
  - unfold RedditExtractor.run, RedditExtractor._get_user_info,
      RedditExtractor._get_posts, RedditExtractor._get_comments,
      RedditExtractor.children, RedditExtractor.parse_post,
      RedditExtractor.parse_comment.
    respects.
  - unfold MediumExtractor.run, MediumExtractor._fetch_articles,
      MediumExtractor.show_article.
    respects.
  - assert (Hstart : respects same_inputs (TelegramExtractor.start E)).
    { intros w r w' H. unfold TelegramExtractor.start in H.
      specialize (Hlogin (inputs w)). cbn [login_lines] in Hlogin.
      destruct (tg_start E (inputs w)) as [k [e|]]; cbn [fst] in Hlogin; subst k;
        inversion H; unfold same_inputs; cbn; lia. }
    unfold TelegramExtractor.run, TelegramExtractor._run_async,
      TelegramExtractor._connect, TelegramExtractor._get_entity_info,
      TelegramExtractor._extract_messages.
    respects.
Qed.

Lemma reads_quiet n {A} (m : M A) : respects same_inputs m -> reads n m.
Proof. intros H w r w' Hm. apply H in Hm. unfold same_inputs in Hm. lia. Qed.

Lemma reads_bind a b {A B} (m : M A) (k : A -> M B) :
  reads a m -> (forall x, reads b (k x)) -> reads (a + b) (bind m k).
Proof.
  intros Hm Hk w r w' H.
  apply bind_inv in H as [(x & w1 & H1 & H2)|[(e & H1 & ->)|[H1 ->]]].
  - apply Hm in H1. apply Hk in H2. lia.
  - apply Hm in H1. lia.
  - apply Hm in H1. lia.
Qed.

Lemma reads_try a b {A} (m : M A) handles h :
  reads a m -> reads b h -> reads (a + b) (try_except m handles h).
Proof.
  intros Hm Hh w r w' H.
  apply try_except_inv in H as [[H _]|(e & w1 & H1 & _ & H2)].
  - apply Hm in H. lia.
  - apply Hm in H1. apply Hh in H2. lia.
Qed.

Lemma reads_input E : reads 1 (input E).
Proof. intros w r w' H. inversion H. simpl. lia. Qed.

Ltac reads_step :=
  match goal with
  | |- reads ?n (bind _ _) =>
      first [ apply (reads_bind 0 n); [apply reads_quiet; solve [respects] | intros ?]
            | apply (reads_bind n 0); [| intros ?; apply reads_quiet; solve [respects]] ]
  | |- reads ?n (try_except _ _ _) =>
      apply (reads_try n 0); [| apply reads_quiet; solve [respects]]
  | |- reads _ (if ?b then _ else _) => destruct b
  | |- reads _ (match ?x with _ => _ end) => destruct x
  | |- reads 1 (input _) => apply reads_input
  | |- reads _ _ => apply reads_quiet; solve [respects]
  end.

Lemma reads_so_run E k u : reads 1 (StackOverflowExtractor.run E k u).
Proof.
  assert (Hx : forall id,
    respects same_inputs (StackOverflowExtractor._extract_user_data E k id)).
  { intros id.
    unfold StackOverflowExtractor._extract_user_data,
      StackOverflowExtractor._get_questions, StackOverflowExtractor._get_answers,
      StackOverflowExtractor._get_badges, StackOverflowExtractor.get_items,
      StackOverflowExtractor._get_profile, StackOverflowExtractor._make_request.
    respects. }
  unfold StackOverflowExtractor.run, StackOverflowExtractor._search_users,
    StackOverflowExtractor._select_user, StackOverflowExtractor.select_field,
    StackOverflowExtractor.field_at, StackOverflowExtractor.show_user.
  repeat reads_step.
Qed.

Lemma reads_yt_run E k u : reads 1 (YouTubeExtractor.run E k u).
Proof.
  assert (Hx : forall id,
    respects same_inputs (YouTubeExtractor._extract_channel_data E k id)).
  { intros id.
    unfold YouTubeExtractor._extract_channel_data, YouTubeExtractor._get_channel_info,
      YouTubeExtractor._get_videos, YouTubeExtractor.parse_video.
    respects. }
  unfold YouTubeExtractor.run, YouTubeExtractor._search_channels,
    YouTubeExtractor._select_channels, YouTubeExtractor.title_at,
    YouTubeExtractor.id_at, YouTubeExtractor.show_channel.
  repeat reads_step.
Qed.

(** What [_connect] reads at the keyboard is what the login of the client
    library reads. *)
Lemma tg_connect_reads E w r w' :
  TelegramExtractor._connect E w = (r, w') ->
  inputs w' = inputs w + fst (tg_start E (inputs w)).
Proof.
  unfold TelegramExtractor._connect, TelegramExtractor.start. exec.
  destruct (tg_start E (inputs w)) as [k [e|]]; cbn; intros H; inversion H; reflexivity.
Qed.

Ltac same_inputs_in H :=
  match type of H with
  | ?m _ = _ =>
      let Q := fresh in
      assert (Q : respects same_inputs m) by respects;
      apply Q in H; unfold same_inputs in H
  end.

Lemma reads_tg_run E i h u w r w' :
  TelegramExtractor.run E i h u w = (r, w') ->
  inputs w <= inputs w' <= inputs w + fst (tg_start E (inputs w)).
Proof.
  unfold TelegramExtractor.run.
  destruct (negb _); [intros H; same_inputs_in H; lia |].
  destruct (negb _); [intros H; same_inputs_in H; lia |].
  unfold TelegramExtractor._run_async, TelegramExtractor._get_entity_info,
    TelegramExtractor._extract_messages.
  intros H.
  apply bind_inv in H as [(x & w1 & H1 & H)|[(e & H1 & ->)|[H1 ->]]];
    same_inputs_in H1; [| lia | lia].
  apply bind_inv in H as [(c & w2 & Hc & H)|[(e & Hc & ->)|[Hc ->]]];
    apply tg_connect_reads in Hc; rewrite H1 in Hc; [| lia | lia].
  same_inputs_in H. lia.
Qed.

(** The prompts of a run are few: the Stack Overflow and the YouTube clients,
    which ask for a selection among the candidates, read at most one line
    at the keyboard; the GitHub, Bluesky, Mastodon, Reddit and Medium
    clients read none; the Telegram client has no prompt of its own, and
    reads at most what the login of its client library reads. *)
Theorem run_prompts_at_most_once E x username w r w' :
  ExtractorOrchestrator.run E x username w = (r, w') ->
  inputs w <= inputs w' /\
  inputs w' <= inputs w + (if asks_for_a_selection x then 1 else 0)
               + login_lines E x (inputs w).
Proof.
  intros H.
  destruct x; cbn [asks_for_a_selection login_lines ExtractorOrchestrator.run] in *.
  - apply reads_so_run in H. lia.
  - apply reads_yt_run in H. lia.
  - apply (inputs_quiet_run E (ExtractorOrchestrator.GitHub token) username) in H;
      [unfold same_inputs in H; lia | done | done].
  - apply (inputs_quiet_run E ExtractorOrchestrator.Bluesky username) in H;
      [unfold same_inputs in H; lia | done | done].
  - apply (inputs_quiet_run E (ExtractorOrchestrator.Mastodon instance) username) in H;
      [unfold same_inputs in H; lia | done | done].
  - apply (inputs_quiet_run E ExtractorOrchestrator.Reddit username) in H;
      [unfold same_inputs in H; lia | done | done].
  - apply (inputs_quiet_run E ExtractorOrchestrator.Medium username) in H;
      [unfold same_inputs in H; lia | done | done].
  - apply reads_tg_run in H. lia.
Qed.

Lemma run_prompts_at_most_once_witness :
  let x := ExtractorOrchestrator.StackOverflow None in
  let out := ExtractorOrchestrator.run five_users_env x "ann" empty_world in
  inputs empty_world <= inputs (snd out) /\
  inputs (snd out) <= inputs empty_world + (if asks_for_a_selection x then 1 else 0)
                      + login_lines five_users_env x (inputs empty_world).
Proof.
  intros x out.
  apply (run_prompts_at_most_once five_users_env x "ann" empty_world (fst out)).
  apply surjective_pairing.
Defined.

(** ** What an outcome of the table of results tells *)

Lemma sapp_not_empty (a b : string) c : String.eqb (a +:+ String c b) "" = false.
Proof. destruct a; [rewrite sapp_nil | rewrite sapp_cons]; reflexivity. Qed.

Lemma saved_name_not_empty E p u w w' f : saved E p u w w' f -> String.eqb f "" = false.
Proof. intros (data & n & n' & _ & -> & _). apply sapp_not_empty. Qed.

Lemma extract_outcome E x platform_name username w :
  exists e w',
    ExtractorOrchestrator.extract E x platform_name username w = (Ok tt, w') /\
    results w' = <[platform_name := e]> (results w) /\
    ((exists f doc,
        let dest := results_dir E +:+ "/" +:+ f in
        e = ExtractorOrchestrator.success username dest /\
        files w' = files w ++ [(f, doc)] /\
        file_name_is stamp8_6 (ExtractorOrchestrator.platform_name x) username f = true /\
        fs_move E f dest = None /\
        Moved f dest ∈ trace w') \/
     (e = ExtractorOrchestrator.failure username /\
      (files w' = files w \/
       exists f doc, files w' = files w ++ [(f, doc)] /\
                     is_Some (fs_move E f (results_dir E +:+ "/" +:+ f))))).
Proof.
  unfold ExtractorOrchestrator.extract, try_except, bind at 1.
  destruct (ExtractorOrchestrator.run E x username w) as [[[f|]|ex|] w1] eqn:Hrun.
  - pose proof (results_run _ _ _ _ _ _ Hrun) as Hres. unfold same_results in Hres.
    pose proof (saves_run _ _ _ _ _ _ Hrun) as Hsaved. cbv beta iota in Hsaved.
    rewrite (saved_name_not_empty _ _ _ _ _ _ Hsaved). cbn [negb].
    destruct Hsaved as (data & n & n' & Hfiles & Hname & _).
    unfold ExtractorOrchestrator.move.
    destruct (fs_move E f _) as [e|] eqn:Hmove; exec.
    + eexists (ExtractorOrchestrator.failure username), _.
      split; [reflexivity |]. cbn. rewrite Hres. split; [done |].
      right. split; [done |]. right. exists f, (JObj data). by rewrite Hmove.
    + eexists (ExtractorOrchestrator.success username _), _.
      split; [reflexivity |]. cbn. rewrite Hres. split; [done |].
      left. exists f, (JObj data). cbv zeta. split; [done |]. split; [done |].
      split; [rewrite Hname; apply file_name_shape |].
      split; [done |]. set_solver.
  - pose proof (results_run _ _ _ _ _ _ Hrun) as Hres. unfold same_results in Hres.
    pose proof (saves_run _ _ _ _ _ _ Hrun) as Hsaved. cbv beta iota in Hsaved.
    eexists (ExtractorOrchestrator.failure username), _.
    split; [reflexivity |]. cbn. rewrite Hres. split; [done |]. right. by split; [| left].
  - pose proof (results_run _ _ _ _ _ _ Hrun) as Hres. unfold same_results in Hres.
    pose proof (saves_run _ _ _ _ _ _ Hrun) as Hsaved. cbv beta iota in Hsaved.
    cbn [any_exception]. exec.
    eexists (ExtractorOrchestrator.failure username), _.
    split; [reflexivity |]. cbn. rewrite Hres. split; [done |]. right. by split; [| left].
  - exfalso. by apply (halts_run E x username w Diverge w1).
Qed.

(** One extraction records one outcome, and the outcome tells what happened
    to the document: it is a success, with the path of the document in the
    results directory, exactly when the run wrote one file (named after the
    client's platform, the username and the time) and the move of that file
    into the results directory went through; it is a failure when nothing
    was written, and also when the file was written but could not be
    moved: the document then stays where the run wrote it. *)
Theorem outcome_tells_what_was_saved E x platform_name username w :
  exists e w',
    ExtractorOrchestrator.extract E x platform_name username w = (Ok tt, w') /\
    results w' = <[platform_name := e]> (results w) /\
    ((exists f doc,
        let dest := results_dir E +:+ "/" +:+ f in
        e = ExtractorOrchestrator.success username dest /\
        files w' = files w ++ [(f, doc)] /\
        file_name_is stamp8_6 (ExtractorOrchestrator.platform_name x) username f = true /\
        fs_move E f dest = None /\
        Moved f dest ∈ trace w') \/
     (e = ExtractorOrchestrator.failure username /\
      (files w' = files w \/
       exists f doc, files w' = files w ++ [(f, doc)] /\
                     is_Some (fs_move E f (results_dir E +:+ "/" +:+ f))))).
Proof. apply extract_outcome. Qed.

(** ** The selection ranges over all the candidates found *)

Lemma parse_indices_digit n d :
  1 <= d <= 9 -> d <= n ->
  parse_indices n (split "," (strip (String (digit (Z.of_nat d)) ""))) = Val [d - 1].
Proof.
  intros Hd Hn.
  assert (Hcase : d = 1 \/ d = 2 \/ d = 3 \/ d = 4 \/ d = 5 \/ d = 6 \/ d = 7 \/ d = 8 \/
                  d = 9) by lia.
  destruct Hcase as [->|[->|[->|[->|[->|[->|[->|[->| ->]]]]]]]];
    (match goal with |- parse_indices _ (split _ (strip ?s)) = _ =>
       let t := eval vm_compute in (split "," (strip s)) in
       change (split "," (strip s)) with t
     end;
     unfold parse_indices;
     match goal with |- context [int_of_string (strip ?s)] =>
       let z := eval vm_compute in (int_of_string (strip s)) in
       change (int_of_string (strip s)) with z
     end;
     cbv beta iota;
     destruct (_ && _) eqn:Hb; [reflexivity |];
     apply andb_false_iff in Hb as [Hb | Hb];
     [apply Z.leb_gt in Hb | apply Z.ltb_ge in Hb]; lia).
Qed.

Lemma selected_among l (f : json -> json) sel :
  Forall (fun i => i < length l) sel ->
  forall id, id ∈ (fun i => f (default JNull (l !! i))) <$> sel -> id ∈ f <$> l.
Proof.
  intros Hsel id Hid. apply list_elem_of_fmap in Hid as (i & -> & Hi).
  rewrite Forall_forall in Hsel. specialize (Hsel i Hi).
  destruct (lookup_lt_is_Some_2 l i Hsel) as [u Hu]. rewrite Hu. cbn [default].
  apply list_elem_of_fmap. exists u. split; [done |]. by eapply list_elem_of_lookup_2.
Qed.

Lemma strip_digit_not_empty d :
  1 <= d <= 9 -> String.eqb (strip (String (digit (Z.of_nat d)) "")) "" = false.
Proof.
  intros Hd.
  assert (Hcase : d = 1 \/ d = 2 \/ d = 3 \/ d = 4 \/ d = 5 \/ d = 6 \/ d = 7 \/ d = 8 \/
                  d = 9) by lia.
  by destruct Hcase as [->|[->|[->|[->|[->|[->|[->|[->| ->]]]]]]]].
Qed.

(** The ids a selection returns are ids of candidates of the list, whatever
    line is typed; and a digit [d] up to the number of candidates selects
    the candidate of rank [d].  For Stack Overflow this reaches candidates
    the prompt has not displayed: it lists the first five of the candidates
    found, and the selection ranges over all of them. *)
Theorem selection_ranges_over_all_candidates E (l : list json) w :
  l <> [] ->
  let line := stdin E (inputs w) in
  (forallb so_candidate_ok l = true ->
   (exists ids w',
      StackOverflowExtractor._select_user E (JArr l) w = (Ok ids, w') /\
      forall id, id ∈ ids -> id ∈ candidate_field "user_id" <$> l) /\
   (forall d c, 1 <= d <= 9 -> l !! (d - 1) = Some c ->
      line = String (digit (Z.of_nat d)) "" ->
      exists w', StackOverflowExtractor._select_user E (JArr l) w
                 = (Ok [candidate_field "user_id" c], w'))) /\
  (forallb yt_candidate_ok l = true ->
   (exists ids w',
      YouTubeExtractor._select_channels E (JArr l) w = (Ok ids, w') /\
      forall id, id ∈ ids -> id ∈ candidate_field "id" <$> l) /\
   (forall d c, 1 <= d <= 9 -> l !! (d - 1) = Some c ->
      line = String (digit (Z.of_nat d)) "" ->
      exists w', YouTubeExtractor._select_channels E (JArr l) w
                 = (Ok [candidate_field "id" c], w'))).
Proof.
  intros Hne line.
  assert (H0 : Forall (fun i => i < length l) [0]).
  { constructor; [| done]. destruct l; [done | simpl; lia]. }
  split; intros Hl.
  - pose proof (so_select_user_cases E l w Hne Hl) as H. cbv zeta in H. fold line in H.
    split.
    + destruct H as [(_ & w' & H) | [(_ & _ & w' & H & _) | [(_ & _ & w' & H & _)
        | (_ & i & sel & Hp & w' & H)]]]; eexists _, w'; (split; [exact H |]).
      * done.
      * by apply (selected_among l (candidate_field "user_id") [0]).
      * by apply (selected_among l (candidate_field "user_id") [0]).
      * apply (selected_among l (candidate_field "user_id") (i :: sel)).
        by destruct (parse_indices_inv _ _ _ Hp) as [? | (? & [= <-] & ?)].
    + intros d c Hd Hc Hline. rewrite Hline in H.
      pose proof (parse_indices_digit (length l) d Hd) as Hp.
      rewrite Hp in H by (apply lookup_lt_Some in Hc; lia).
      rewrite (strip_digit_not_empty d Hd) in H.
      destruct H as [([=] & _) | [(_ & [=] & _) | [(_ & [=] & _)
        | (_ & i & sel & [= <- <-] & w' & H)]]].
      exists w'. cbn [fmap list_fmap] in H. by rewrite Hc in H.
  - pose proof (yt_select_channels_cases E l w Hne Hl) as H. cbv zeta in H. fold line in H.
    split.
    + destruct H as [(_ & w' & H) | [(_ & _ & w' & H & _) | [(_ & _ & w' & H & _)
        | (_ & i & sel & Hp & w' & H)]]]; eexists _, w'; (split; [exact H |]).
      * done.
      * by apply (selected_among l (candidate_field "id") [0]).
      * by apply (selected_among l (candidate_field "id") [0]).
      * apply (selected_among l (candidate_field "id") (i :: sel)).
        by destruct (parse_indices_inv _ _ _ Hp) as [? | (? & [= <-] & ?)].
    + intros d c Hd Hc Hline. rewrite Hline in H.
      pose proof (parse_indices_digit (length l) d Hd) as Hp.
      rewrite Hp in H by (apply lookup_lt_Some in Hc; lia).
      rewrite (strip_digit_not_empty d Hd) in H.
      destruct H as [([=] & _) | [(_ & [=] & _) | [(_ & [=] & _)
        | (_ & i & sel & [= <- <-] & w' & H)]]].
      exists w'. cbn [fmap list_fmap] in H. by rewrite Hc in H.
Qed.

Lemma selection_ranges_over_all_candidates_witness :
  (exists w', StackOverflowExtractor._select_user (typing "7") (JArr seven_users)
                empty_world = (Ok [JInt 77], w')) /\
  (exists w', YouTubeExtractor._select_channels (typing "7") (JArr seven_channels)
                empty_world = (Ok [JStr "UC77"], w')).
Proof.
  split.
  - destruct (selection_ranges_over_all_candidates (typing "7") seven_users empty_world
                ltac:(done)) as [Hso _].
    destruct (Hso eq_refl) as [_ H].
    refine (H 7 (so_user "gus" 77) _ eq_refl eq_refl). lia.
  - destruct (selection_ranges_over_all_candidates (typing "7") seven_channels empty_world
                ltac:(done)) as [_ Hyt].
    destruct (Hyt eq_refl) as [_ H].
    refine (H 7 (yt_channel "gus" "UC77") _ eq_refl eq_refl). lia.
Defined.

(** ** Telegram: all the messages or none *)

Lemma tg_collect_all stream : forall acc w,
  exists w', TelegramExtractor.collect acc stream w
             = (Ok (acc ++ (TelegramExtractor.parse_message <$> stream)), w').
Proof.
  induction stream as [|m ms IH]; intros acc w; cbn [TelegramExtractor.collect].
  - exists w. by rewrite app_nil_r.
  - destruct (length (acc ++ [TelegramExtractor.parse_message m]) mod 100 =? 0); exec;
      match goal with |- context [TelegramExtractor.collect ?a ms ?w0] =>
        destruct (IH a w0) as (w' & ->)
      end; exists w'; by rewrite <- app_assoc.
Qed.

(** The messages of a Telegram extraction are those of the whole stream, in
    its order, when the stream ends by itself; when the stream ends with an
    exception the result is the empty list, whatever number of messages it
    had yielded before: nothing of what was read is kept, and no exception
    leaves the method. *)
Theorem telegram_messages_all_or_nothing E username w :
  exists w',
    TelegramExtractor._extract_messages E username w
    = (Ok (match snd (tg_iter_messages E username TelegramExtractor.max_messages) with
           | Some _ => []
           | None => TelegramExtractor.parse_message <$>
                       fst (tg_iter_messages E username TelegramExtractor.max_messages)
           end), w').
Proof.
  unfold TelegramExtractor._extract_messages. exec.
  destruct (tg_iter_messages E username TelegramExtractor.max_messages)
    as [stream failure].
  match goal with |- context [TelegramExtractor.collect [] stream ?w0] =>
    destruct (tg_collect_all stream [] w0) as (w1 & ->)
  end.
  cbn [app fst snd]. destruct failure as [e|]; cbn; by eexists.
Qed.

(** ** The platforms named on the command line *)

Lemma PLATFORMS_dom p info :
  ExtractorOrchestrator.PLATFORMS p = Some info ->
  (p = 1 \/ p = 2 \/ p = 3 \/ p = 4 \/ p = 5 \/ p = 6 \/ p = 7 \/ p = 8)%Z.
Proof.
  intros H. destruct p as [|p|p]; try discriminate.
  do 4 (try destruct p as [p|p|]); try discriminate; lia.
Qed.

Lemma platform_keys_known p :
  p ∈ ExtractorOrchestrator.platform_keys <-> is_Some (ExtractorOrchestrator.PLATFORMS p).
Proof.
  split.
  - unfold ExtractorOrchestrator.platform_keys. intros H.
    repeat (apply elem_of_cons in H as [-> | H]; [by eexists |]).
    by apply elem_of_nil in H.
  - intros [info H]. unfold ExtractorOrchestrator.platform_keys.
    destruct (PLATFORMS_dom p info H) as [->|[->|[->|[->|[->|[->|[->| ->]]]]]]];
      set_solver.
Qed.

Lemma by_name_of_id p info :
  ExtractorOrchestrator.PLATFORMS p = Some info ->
  ExtractorOrchestrator.PLATFORMS_BY_NAME !! ExtractorOrchestrator.name info = Some p.
Proof.
  intros H.
  destruct (PLATFORMS_dom p info H) as [->|[->|[->|[->|[->|[->|[->| ->]]]]]]];
    cbn in H; inversion H; subst; vm_compute; reflexivity.
Qed.

Lemma id_of_by_name nm p :
  ExtractorOrchestrator.PLATFORMS_BY_NAME !! nm = Some p ->
  exists info, ExtractorOrchestrator.PLATFORMS p = Some info /\
               ExtractorOrchestrator.name info = nm.
Proof.
  unfold ExtractorOrchestrator.PLATFORMS_BY_NAME, ExtractorOrchestrator.platform_keys.
  cbn [foldl ExtractorOrchestrator.PLATFORMS ExtractorOrchestrator.name].
  intros H.
  repeat (apply lookup_insert_Some in H as [[<- <-] | [_ H]]; [by eexists |]).
  by rewrite lookup_empty in H.
Qed.

Lemma digit_not_space c : is_digit c = true -> is_space c = false.
Proof.
  unfold is_digit, is_space. intros H. apply andb_true_iff in H as [H1 H2].
  apply Nat.leb_le in H1. apply Nat.leb_le in H2.
  apply orb_false_iff. split; apply andb_false_iff; right; apply Nat.leb_gt; lia.
Qed.

Lemma rstrip_digits s :
  forallb is_digit (list_ascii_of_string s) = true -> rstrip s = s.
Proof.
  induction s as [|c r IH]; [done |]. cbn [list_ascii_of_string forallb rstrip].
  intros H. apply andb_true_iff in H as [Hc Hr]. rewrite (IH Hr).
  destruct r; [by rewrite (digit_not_space c Hc) | done].
Qed.

Lemma strip_digits s :
  forallb is_digit (list_ascii_of_string s) = true -> strip s = s.
Proof.
  intros H. unfold strip.
  replace (lstrip s) with s; [by apply rstrip_digits |].
  destruct s as [|c r]; [done |]. cbn [list_ascii_of_string forallb] in H.
  apply andb_true_iff in H as [Hc _]. cbn [lstrip]. by rewrite (digit_not_space c Hc).
Qed.

Lemma int_digits_all s : forall acc after,
  forallb is_digit (list_ascii_of_string s) = true ->
  s <> "" \/ after = true ->
  is_Some (int_digits acc after s).
Proof.
  induction s as [|c r IH]; intros acc after H Hne; cbn [int_digits].
  - destruct Hne as [? | ->]; [done | by eexists].
  - cbn [list_ascii_of_string forallb] in H. apply andb_true_iff in H as [Hc Hr].
    rewrite Hc. apply IH; [done | by right].
Qed.

Lemma digit_is_no_sign c :
  is_digit c = true -> c <> "-"%char /\ c <> "+"%char.
Proof. intros H. split; intros ->; discriminate. Qed.

Lemma int_of_digits s : isdigit s = true -> is_Some (int_of_string s).
Proof.
  unfold isdigit. intros H. apply andb_true_iff in H as [Hne Hd].
  unfold int_of_string. rewrite (strip_digits s Hd).
  destruct s as [|c r]; [discriminate |].
  pose proof Hd as Hc. cbn [list_ascii_of_string forallb] in Hc.
  apply andb_true_iff in Hc as [Hc _].
  destruct (digit_is_no_sign c Hc) as [Hm Hp].
  assert (Hall : is_Some (int_digits 0 false (String c r)))
    by (apply int_digits_all; [done | by left]).
  destruct c as [[] [] [] [] [] [] [] []]; try done.
Qed.

Lemma parse_part_known part :
  exists l, ExtractorOrchestrator.parse_part part = Val l /\
            Forall (fun p => is_Some (ExtractorOrchestrator.PLATFORMS p)) l.
Proof.
  unfold ExtractorOrchestrator.parse_part. destruct (isdigit part) eqn:Hd.
  - destruct (int_of_digits part Hd) as [pid ->].
    destruct (bool_decide _) eqn:Hk; eexists; (split; [reflexivity |]); [| done].
    apply bool_decide_eq_true in Hk. by constructor.
  - destruct (_ !! _) as [pid|] eqn:Hn; eexists; (split; [reflexivity |]); [| done].
    apply id_of_by_name in Hn as (info & Hp & _). constructor; [by eexists | done].
Qed.

Lemma parse_parts_known parts :
  exists l, ExtractorOrchestrator.parse_parts parts = Val l /\
            Forall (fun p => is_Some (ExtractorOrchestrator.PLATFORMS p)) l.
Proof.
  induction parts as [|part rest (more & IH & Hmore)]; cbn [ExtractorOrchestrator.parse_parts].
  - by exists [].
  - destruct (parse_part_known part) as (here & -> & Hhere). rewrite IH.
    eexists. split; [reflexivity |]. by apply Forall_app.
Qed.

Lemma parse_parts_app a b la lb :
  ExtractorOrchestrator.parse_parts a = Val la ->
  ExtractorOrchestrator.parse_parts b = Val lb ->
  ExtractorOrchestrator.parse_parts (a ++ b) = Val (la ++ lb).
Proof.
  revert la. induction a as [|part a IH]; intros la Ha Hb; simpl in *.
  - by inversion Ha.
  - destruct (ExtractorOrchestrator.parse_part part) as [here|]; [| discriminate].
    destruct (ExtractorOrchestrator.parse_parts a) as [more|]; [| discriminate].
    inversion Ha; subst. rewrite (IH more eq_refl Hb). by rewrite app_assoc.
Qed.

Lemma split_not_nil sep s : split sep s <> [].
Proof.
  induction s as [|c r IH]; [done |]. simpl.
  destruct (ascii_eqb c sep); [done |]. by destruct (split sep r).
Qed.

Lemma split_app sep (a b : string) :
  split sep (a +:+ String sep b) = split sep a ++ split sep b.
Proof.
  induction a as [|c a IH].
  - rewrite sapp_nil. simpl. unfold ascii_eqb. by rewrite Ascii.eqb_refl.
  - rewrite sapp_cons. simpl. destruct (ascii_eqb c sep).
    + by rewrite IH.
    + rewrite IH. pose proof (split_not_nil sep a). by destruct (split sep a).
Qed.

Lemma platform_names_known l :
  Forall (fun p => is_Some (ExtractorOrchestrator.PLATFORMS p)) l ->
  exists names, ExtractorOrchestrator.platform_names l = Val names /\
                length names = length l.
Proof.
  induction 1 as [|p l [info Hp] _ (names & IH & Hlen)]; simpl.
  - by exists [].
  - rewrite Hp, IH. eexists. split; [reflexivity |]. simpl. by rewrite Hlen.
Qed.

(** [_parse_platform_arg] returns for every text (of the ASCII range, and
    short enough for [int] to convert any run of digits in it): it never
    raises, what it returns are keys of [PLATFORMS] only, whatever else the
    text names being dropped, so that the names of the platforms selected
    can be looked up. *)
Theorem platform_arg_selects_known_platforms platforms_str :
  ascii_text platforms_str = true ->
  String.length platforms_str <= 4300 ->
  exists selected names,
    ExtractorOrchestrator._parse_platform_arg platforms_str = Val selected /\
    Forall (fun p => is_Some (ExtractorOrchestrator.PLATFORMS p)) selected /\
    ExtractorOrchestrator.platform_names selected = Val names.
Proof.
  intros _ _. unfold ExtractorOrchestrator._parse_platform_arg.
  destruct (parse_parts_known (strip <$> split "," platforms_str)) as (l & -> & Hl).
  destruct (platform_names_known l Hl) as (names & Hn & _). by exists l, names.
Qed.

Lemma platform_arg_selects_known_platforms_witness :
  exists selected names,
    ExtractorOrchestrator._parse_platform_arg "github, 9, Reddit ,x,07" = Val selected /\
    Forall (fun p => is_Some (ExtractorOrchestrator.PLATFORMS p)) selected /\
    ExtractorOrchestrator.platform_names selected = Val names.
Proof.
  apply platform_arg_selects_known_platforms; [reflexivity | simpl; lia].
Defined.

(** The number of a platform and its name denote the same platform:
    [PLATFORMS_BY_NAME] maps the name of each entry of [PLATFORMS] back to
    its key, and has no other name; so [_parse_platform_arg] returns the
    key alone for the name, in lower case or capitalized and with blanks
    around it, and for the number. *)
Theorem platform_name_and_number_agree p info :
  ExtractorOrchestrator.PLATFORMS p = Some info ->
  let name := ExtractorOrchestrator.name info in
  ExtractorOrchestrator.PLATFORMS_BY_NAME !! name = Some p /\
  (forall other q, ExtractorOrchestrator.PLATFORMS_BY_NAME !! other = Some q ->
     exists info', ExtractorOrchestrator.PLATFORMS q = Some info' /\
                   ExtractorOrchestrator.name info' = other) /\
  ExtractorOrchestrator._parse_platform_arg name = Val [p] /\
  ExtractorOrchestrator._parse_platform_arg (" " +:+ capitalize name +:+ " ") = Val [p] /\
  ExtractorOrchestrator._parse_platform_arg (String (digit p) "") = Val [p].
Proof.
  intros H name. split; [by apply by_name_of_id |]. split; [apply id_of_by_name |].
  subst name.
  destruct (PLATFORMS_dom p info H) as [->|[->|[->|[->|[->|[->|[->| ->]]]]]]];
    cbn in H; inversion H; subst; vm_compute; done.
Qed.

Lemma platform_name_and_number_agree_witness :
  ExtractorOrchestrator._parse_platform_arg "github" = Val [3%Z] /\
  ExtractorOrchestrator._parse_platform_arg " Github " = Val [3%Z] /\
  ExtractorOrchestrator._parse_platform_arg "3" = Val [3%Z].
Proof.
  destruct (platform_name_and_number_agree 3
              {| ExtractorOrchestrator.name := "github";
                 ExtractorOrchestrator.class := ExtractorOrchestrator.GitHubClass |}
              eq_refl) as (_ & _ & H1 & H2 & H3).
  split; [exact H1 | split; [exact H2 | exact H3]].
Defined.

(** Commas compose: the platforms of [a,b] are those of [a] followed by
    those of [b].  Nothing is merged: a platform named twice is selected
    twice. *)
Theorem platform_arg_concatenates a b la lb :
  ExtractorOrchestrator._parse_platform_arg a = Val la ->
  ExtractorOrchestrator._parse_platform_arg b = Val lb ->
  ExtractorOrchestrator._parse_platform_arg (a +:+ "," +:+ b) = Val (la ++ lb).
Proof.
  unfold ExtractorOrchestrator._parse_platform_arg. intros Ha Hb.
  change ("," +:+ b) with (String ","%char b).
  rewrite split_app, fmap_app. by apply parse_parts_app.
Qed.

Lemma platform_arg_concatenates_witness :
  ExtractorOrchestrator._parse_platform_arg ("github" +:+ "," +:+ "3") = Val ([3] ++ [3])%Z.
Proof. apply platform_arg_concatenates; reflexivity. Defined.

(** ** The platforms selected at the prompt *)

Lemma ints_of_raises parts e :
  ExtractorOrchestrator.ints_of parts = Err e -> e = ValueError.
Proof.
  induction parts as [|x rest IH]; simpl; [discriminate |].
  destruct (String.eqb (strip x) ""); [exact IH |].
  destruct (int_of_string (strip x)); [| by intros [= <-]].
  destruct (ExtractorOrchestrator.ints_of rest); [discriminate |].
  intros [= <-]. by apply IH.
Qed.

Lemma known_are_known zs :
  Forall (fun p => is_Some (ExtractorOrchestrator.PLATFORMS p))
         (ExtractorOrchestrator.known zs).
Proof.
  apply Forall_forall. intros p Hp. unfold ExtractorOrchestrator.known in Hp.
  by apply list_elem_of_filter in Hp as [Hp _].
Qed.

Lemma platform_keys_are_known :
  Forall (fun p => is_Some (ExtractorOrchestrator.PLATFORMS p))
         ExtractorOrchestrator.platform_keys.
Proof. apply Forall_forall. intros p Hp. by apply platform_keys_known. Qed.

Lemma platform_list_shown :
  omap ExtractorOrchestrator.PLATFORMS ExtractorOrchestrator.platform_keys
  = [ {| ExtractorOrchestrator.name := "stackoverflow";
         ExtractorOrchestrator.class := ExtractorOrchestrator.StackOverflowClass |};
      {| ExtractorOrchestrator.name := "youtube";
         ExtractorOrchestrator.class := ExtractorOrchestrator.YouTubeClass |};
      {| ExtractorOrchestrator.name := "github";
         ExtractorOrchestrator.class := ExtractorOrchestrator.GitHubClass |};
      {| ExtractorOrchestrator.name := "bluesky";
         ExtractorOrchestrator.class := ExtractorOrchestrator.BlueskyClass |};
      {| ExtractorOrchestrator.name := "mastodon";
         ExtractorOrchestrator.class := ExtractorOrchestrator.MastodonClass |};
      {| ExtractorOrchestrator.name := "reddit";
         ExtractorOrchestrator.class := ExtractorOrchestrator.RedditClass |};
      {| ExtractorOrchestrator.name := "medium";
         ExtractorOrchestrator.class := ExtractorOrchestrator.MediumClass |};
      {| ExtractorOrchestrator.name := "telegram";
         ExtractorOrchestrator.class := ExtractorOrchestrator.TelegramClass |} ].
Proof. reflexivity. Qed.

Lemma select_platforms_cases E w :
  let choice := strip (stdin E (inputs w)) in
  exists selected w',
    ExtractorOrchestrator._select_platforms E w = (Ok selected, w') /\
    selected <> [] /\
    Forall (fun p => is_Some (ExtractorOrchestrator.PLATFORMS p)) selected /\
    (selected = ExtractorOrchestrator.platform_keys \/
     exists zs, choice <> "" /\
                ExtractorOrchestrator.ints_of (split "," choice) = Val zs /\
                selected = ExtractorOrchestrator.known zs) /\
    (choice = "" -> selected = ExtractorOrchestrator.platform_keys) /\
    inputs w' = S (inputs w) /\ requests w' = requests w /\ files w' = files w /\
    (forall e, ExtractorOrchestrator.ints_of (split "," choice) = Err e ->
       selected = ExtractorOrchestrator.platform_keys) /\
    (forall zs, choice <> "" ->
       ExtractorOrchestrator.ints_of (split "," choice) = Val zs ->
       ExtractorOrchestrator.known zs = [] ->
       selected = ExtractorOrchestrator.platform_keys) /\
    (forall zs, choice <> "" ->
       ExtractorOrchestrator.ints_of (split "," choice) = Val zs ->
       ExtractorOrchestrator.known zs <> [] ->
       selected = ExtractorOrchestrator.known zs).
Proof.
  intros choice. unfold ExtractorOrchestrator._select_platforms, choice_list.
  rewrite platform_list_shown. cbn [fmap list_fmap for_each]. exec. fold choice.
  destruct (String.eqb choice "") eqn:Hc.
  - apply String.eqb_eq in Hc.
    eexists _, _. split; [reflexivity |]. split; [done |].
    split; [apply platform_keys_are_known |]. by repeat split; try left.
  - apply String.eqb_neq in Hc.
    destruct (ExtractorOrchestrator.ints_of (split "," choice)) as [zs|e] eqn:Hz.
    + destruct (ExtractorOrchestrator.known zs) as [|z l] eqn:Hk.
      * exec. eexists _, _. split; [reflexivity |]. split; [done |].
        split; [apply platform_keys_are_known |].
        repeat split; try (by left); try done.
        intros zs' _ [= <-] Hk'. by rewrite Hk in Hk'.
      * pose proof (known_are_known zs) as Hv. rewrite Hk in Hv.
        destruct (platform_names_known _ Hv) as (names & -> & _). exec.
        eexists _, _. split; [reflexivity |]. split; [done |]. split; [done |].
        split; [right; by exists zs |].
        repeat split; try done.
        -- intros zs' _ [= <-] Hk'. by rewrite Hk in Hk'.
        -- intros zs' _ [= <-] _. by rewrite Hk.
    + rewrite (ints_of_raises _ _ Hz). exec.
      eexists _, _. split; [reflexivity |]. split; [done |].
      split; [apply platform_keys_are_known |]. by repeat split; try left.
Qed.

(** The selection at the prompt always returns, with a list that is not
    empty and holds keys of [PLATFORMS] only.  The line typed decides it:
    all the platforms for a blank line, for a line with a part that is no
    integer, and for a line whose integers name no platform; otherwise the
    integers of the line that are keys of [PLATFORMS], in the order of the
    line and as often as the line has them.  It reads one line, sends no
    request and writes no file. *)
Theorem select_platforms_returns_known_platforms E w :
  let choice := strip (stdin E (inputs w)) in
  exists selected w',
    ExtractorOrchestrator._select_platforms E w = (Ok selected, w') /\
    selected <> [] /\
    Forall (fun p => is_Some (ExtractorOrchestrator.PLATFORMS p)) selected /\
    (selected = ExtractorOrchestrator.platform_keys \/
     exists zs, choice <> "" /\
                ExtractorOrchestrator.ints_of (split "," choice) = Val zs /\
                selected = ExtractorOrchestrator.known zs) /\
    (choice = "" -> selected = ExtractorOrchestrator.platform_keys) /\
    inputs w' = S (inputs w) /\ requests w' = requests w /\ files w' = files w /\
    (forall e, ExtractorOrchestrator.ints_of (split "," choice) = Err e ->
       selected = ExtractorOrchestrator.platform_keys) /\
    (forall zs, choice <> "" ->
       ExtractorOrchestrator.ints_of (split "," choice) = Val zs ->
       ExtractorOrchestrator.known zs = [] ->
       selected = ExtractorOrchestrator.platform_keys) /\
    (forall zs, choice <> "" ->
       ExtractorOrchestrator.ints_of (split "," choice) = Val zs ->
       ExtractorOrchestrator.known zs <> [] ->
       selected = ExtractorOrchestrator.known zs).
Proof. apply select_platforms_cases. Qed.

(** ** The usernames typed *)

Lemma same_for_all_from username platforms : forall (m : gmap Z string) p,
  foldl (fun usernames platform_id => <[platform_id := username]> usernames) m platforms
    !! p
  = if decide (p ∈ platforms) then Some username else m !! p.
Proof.
  induction platforms as [|q rest IH]; intros m p; simpl.
  - destruct (decide (p ∈ [])) as [H | _]; [by apply elem_of_nil in H | done].
  - rewrite IH. destruct (decide (p ∈ rest)) as [Hr | Hr].
    + rewrite decide_True by (by right). done.
    + destruct (decide (p = q)) as [-> | Hne].
      * rewrite decide_True by (by left). by rewrite lookup_insert_eq.
      * rewrite decide_False by (intros [? | ?]%elem_of_cons; done).
        by rewrite lookup_insert_ne.
Qed.

Lemma same_for_all_lookup username platforms p :
  ExtractorOrchestrator.same_for_all username platforms !! p
  = if decide (p ∈ platforms) then Some username else None.
Proof.
  unfold ExtractorOrchestrator.same_for_all. rewrite same_for_all_from.
  destruct (decide _); [done | apply lookup_empty].
Qed.

Lemma ask_usernames_returns E platforms :
  Forall (fun p => is_Some (ExtractorOrchestrator.PLATFORMS p)) platforms ->
  forall usernames w,
  exists usernames' w',
    ExtractorOrchestrator.ask_usernames E platforms usernames w = (Ok usernames', w') /\
    inputs w' = inputs w + length platforms /\
    requests w' = requests w /\ files w' = files w /\ trace w' = trace w /\
    (forall q, q ∉ platforms -> usernames' !! q = usernames !! q) /\
    (forall q, q ∈ platforms -> is_Some (usernames' !! q)) /\
    (forall i q, platforms !! i = Some q ->
       (forall j, i < j -> platforms !! j <> Some q) ->
       usernames' !! q = Some (strip (stdin E (inputs w + i)))).
Proof.
  induction 1 as [|p rest [info Hp] _ IH]; intros usernames w;
    cbn [ExtractorOrchestrator.ask_usernames].
  - exists usernames, w. split; [done |]. cbn [length]. rewrite Nat.add_0_r.
    repeat split; try done.
    all: try (intros q Hq; by apply elem_of_nil in Hq).
    all: intros i q Hi; by rewrite lookup_nil in Hi.
  - rewrite Hp. exec.
    destruct (IH (<[p := strip (stdin E (inputs w))]> usernames) (typed w))
      as (us' & w' & -> & Hin & Hreq & Hfiles & Htrace & Hout & Hdom & Hval).
    cbn [inputs requests files trace typed] in *.
    exists us', w'. split; [done |]. cbn [length].
    split; [lia |]. split; [done |]. split; [done |]. split; [done |].
    assert (Hp_last : p ∉ rest -> us' !! p = Some (strip (stdin E (inputs w)))).
    { intros Hn. by rewrite (Hout p Hn), lookup_insert_eq. }
    split; [| split].
    + intros q Hq. rewrite Hout by (intros ?; apply Hq; by right).
      apply lookup_insert_ne. intros ->. apply Hq. by left.
    + intros q Hq. destruct (decide (q ∈ rest)) as [Hr | Hr]; [by apply Hdom |].
      apply elem_of_cons in Hq as [-> | Hq]; [| done]. rewrite (Hp_last Hr). by eexists.
    + intros i q Hi Hlast. destruct i as [|i]; cbn [lookup list_lookup] in Hi.
      * inversion Hi; subst q. rewrite Nat.add_0_r. apply Hp_last.
        intros Hr. apply list_elem_of_lookup_1 in Hr as [j Hj].
        by apply (Hlast (S j) ltac:(lia)).
      * rewrite (Hval i q Hi).
        -- do 3 f_equal. lia.
        -- intros j Hj. apply (Hlast (S j)). lia.
Qed.

Lemma configure_usernames_cases E platforms w :
  Forall (fun p => is_Some (ExtractorOrchestrator.PLATFORMS p)) platforms ->
  let same := among (lower (strip (stdin E (inputs w)))) ["y"; "yes"; "o"; "oui"; ""] in
  exists usernames w',
    ExtractorOrchestrator._configure_usernames E platforms w = (Ok usernames, w') /\
    (forall p, is_Some (usernames !! p) <-> p ∈ platforms) /\
    (same = true ->
     inputs w' = inputs w + 2 /\
     forall p, p ∈ platforms -> usernames !! p = Some (strip (stdin E (S (inputs w))))) /\
    (same = false ->
     inputs w' = inputs w + 1 + length platforms /\
     forall i p, platforms !! i = Some p ->
       (forall j, i < j -> platforms !! j <> Some p) ->
       usernames !! p = Some (strip (stdin E (inputs w + 1 + i)))) /\
    requests w' = requests w /\ files w' = files w.
Proof.
  intros Hvalid same. unfold ExtractorOrchestrator._configure_usernames. exec.
  fold same. destruct same eqn:Hsame.
  - exec. eexists _, _. split; [reflexivity |]. cbn [inputs requests files log typed].
    split; [| split; [| split; [done | done]]].
    + intros p. rewrite same_for_all_lookup. destruct (decide (p ∈ platforms)).
      * split; [done | by eexists].
      * split; [by intros [? [=]] | done].
    + intros _. split; [lia |]. intros p Hp. rewrite same_for_all_lookup.
      by rewrite decide_True.
  - exec.
    match goal with |- context [ExtractorOrchestrator.ask_usernames E platforms ∅ ?w0] =>
      destruct (ask_usernames_returns E platforms Hvalid ∅ w0)
        as (us & w' & -> & Hin & Hreq & Hfiles & _ & Hout & Hdom & Hval)
    end.
    cbn [inputs requests files log typed] in *.
    eexists _, _. split; [reflexivity |]. cbn [inputs requests files log typed].
    split; [| split; [done | split; [| done]]].
    + intros p. split; [| apply Hdom]. intros Hs.
      destruct (decide (p ∈ platforms)) as [| Hn]; [done |].
      rewrite (Hout p Hn), lookup_empty in Hs. by destruct Hs.
    + intros _. split; [lia |]. intros i p Hi Hlast.
      rewrite (Hval i p Hi Hlast). do 3 f_equal. lia.
Qed.

(** [_configure_usernames] gives a username to every platform of the list
    and to nothing else, so that the extraction loop finds one for each.
    With the same username for all (the answers y, yes, o, oui and the
    blank line, in any letter case) it reads two lines, and the username is
    the second, stripped; otherwise it reads one more line for each
    platform of the list, in its order, and the last line typed for a
    platform is its username.  A username may be empty. *)
Theorem configure_usernames_covers_the_selection E platforms w :
  Forall (fun p => is_Some (ExtractorOrchestrator.PLATFORMS p)) platforms ->
  let same := among (lower (strip (stdin E (inputs w)))) ["y"; "yes"; "o"; "oui"; ""] in
  exists usernames w',
    ExtractorOrchestrator._configure_usernames E platforms w = (Ok usernames, w') /\
    (forall p, is_Some (usernames !! p) <-> p ∈ platforms) /\
    (same = true ->
     inputs w' = inputs w + 2 /\
     forall p, p ∈ platforms -> usernames !! p = Some (strip (stdin E (S (inputs w))))) /\
    (same = false ->
     inputs w' = inputs w + 1 + length platforms /\
     forall i p, platforms !! i = Some p ->
       (forall j, i < j -> platforms !! j <> Some p) ->
       usernames !! p = Some (strip (stdin E (inputs w + 1 + i)))) /\
    requests w' = requests w /\ files w' = files w.
Proof. apply configure_usernames_cases. Qed.

Lemma configure_usernames_covers_the_selection_witness :
  exists usernames w',
    ExtractorOrchestrator._configure_usernames (typing " octocat ") [3; 7]%Z empty_world
    = (Ok usernames, w') /\
    (forall p, is_Some (usernames !! p) <-> p ∈ [3; 7]%Z).
Proof.
  destruct (configure_usernames_covers_the_selection (typing " octocat ") [3; 7]%Z
              empty_world) as (usernames & w' & H & Hdom & _).
  - repeat constructor; by eexists.
  - by exists usernames, w'.
Defined.

(** ** The verdict of the summary *)

#[local] Instance trace_grows_preorder : PreOrder trace_grows.
Proof.
  split.
  - intros w. exists []. by rewrite app_nil_r.
  - intros x y z [e1 H1] [e2 H2]. exists (e1 ++ e2). by rewrite H2, H1, app_assoc.
Qed.
#[local] Instance trace_grows_quiet : Quiet trace_grows.
Proof. split; [apply _ |]. intros ev w. by exists [ev]. Qed.

Lemma count_all {A} (P : A -> Prop) `{Hdec : !forall x, Decision (P x)} (l : list A) :
  length (filter P l) = length l <-> Forall P l.
Proof.
  split.
  - intros Hlen. apply Forall_forall. intros x Hx.
    destruct (decide (P x)) as [| Hn]; [done |].
    pose proof (length_filter_lt P l x Hx Hn). lia.
  - induction 1 as [|x l Hx _ IH]; [done |].
    rewrite filter_cons_True by done. simpl. by rewrite IH.
Qed.

Lemma count_none {A} (P : A -> Prop) `{Hdec : !forall x, Decision (P x)} (l : list A) :
  length (filter P l) = 0 <-> Forall (fun x => ~ P x) l.
Proof.
  induction l as [|x l IH]; [done |]. destruct (decide (P x)) as [Hx | Hx].
  - rewrite filter_cons_True by done. split; [discriminate |].
    intros H. by inversion H.
  - rewrite filter_cons_False by done. rewrite IH. split.
    + by constructor.
    + intros H. by inversion H.
Qed.

Lemma show_outcome_ok row w :
  exists w', ExtractorOrchestrator.show_outcome row w = (Ok tt, w').
Proof.
  destruct row as [platform data]. unfold ExtractorOrchestrator.show_outcome. exec.
  destruct (e_filename data) as [f|]; [destruct (negb (String.eqb f "")) |];
    by eexists.
Qed.

Lemma show_outcomes_logged rows :
  respects trace_grows (for_each rows ExtractorOrchestrator.show_outcome) /\
  respects same_results (for_each rows ExtractorOrchestrator.show_outcome) /\
  respects same_files (for_each rows ExtractorOrchestrator.show_outcome) /\
  respects same_requests (for_each rows ExtractorOrchestrator.show_outcome) /\
  respects same_inputs (for_each rows ExtractorOrchestrator.show_outcome).
Proof.
  repeat split; apply respects_for_each; try apply _; intros [platform data];
    unfold ExtractorOrchestrator.show_outcome; respects.
Qed.

Lemma show_summary_runs E start_time w :
  exists evs w',
    ExtractorOrchestrator._show_summary E start_time w = (Ok tt, w') /\
    trace w' = trace w ++ (summary_header ++ evs)
                 ++ verdict_of (map_to_list (results w)) :: summary_footer /\
    results w' = results w /\ files w' = files w /\ requests w' = requests w /\
    inputs w' = inputs w.
Proof.
  set (rows := map_to_list (results w)).
  destruct (show_outcomes_logged rows) as (Htr & Hres & Hfi & Hreq & Hin).
  unfold ExtractorOrchestrator._show_summary, ExtractorOrchestrator.the_results.
  destruct start_time as [t|]; exec; fold rows;
    match goal with |- context [for_each rows _ ?w0] =>
      destruct (for_each_ok ExtractorOrchestrator.show_outcome rows
                  ltac:(intros; apply show_outcome_ok) w0) as (w1 & Hw1);
      rewrite Hw1;
      destruct (Htr _ _ _ Hw1) as (evs & Hevs);
      pose proof (Hres _ _ _ Hw1) as Hr1; pose proof (Hfi _ _ _ Hw1) as Hf1;
      pose proof (Hreq _ _ _ Hw1) as Hq1; pose proof (Hin _ _ _ Hw1) as Hi1
    end;
    unfold same_results, same_files, same_requests, same_inputs in Hr1, Hf1, Hq1, Hi1;
    cbn [results files requests inputs trace log ticked] in Hr1, Hf1, Hq1, Hi1, Hevs;
    exists evs; eexists; (split; [reflexivity |]);
    cbn [results files requests inputs trace log ticked];
    (split; [| by repeat split]);
    rewrite Hevs; unfold summary_header, summary_footer, verdict_of;
    rewrite <- !app_assoc; reflexivity.
Qed.

(** The summary ends with one verdict, followed by its footer: all
    succeeded exactly when the table of results is not empty and every
    outcome in it is a success; all failed exactly when no outcome is a
    success, which includes the empty table; partial success otherwise.
    The summary never raises and leaves the table, the files, the requests
    and the keyboard alone. *)
Theorem summary_gives_one_verdict E start_time w :
  exists pre verdict w',
    ExtractorOrchestrator._show_summary E start_time w = (Ok tt, w') /\
    trace w' = trace w ++ pre ++ verdict :: summary_footer /\
    (verdict = ExtractorOrchestrator.all_succeeded <->
     results w <> ∅ /\ map_Forall (fun _ e => e_success e = true) (results w)) /\
    (verdict = ExtractorOrchestrator.all_failed <->
     map_Forall (fun _ e => e_success e <> true) (results w)) /\
    (verdict = ExtractorOrchestrator.all_succeeded \/
     verdict = ExtractorOrchestrator.partial_success \/
     verdict = ExtractorOrchestrator.all_failed) /\
    results w' = results w /\ files w' = files w /\ requests w' = requests w /\
    inputs w' = inputs w.
Proof.
  set (rows := map_to_list (results w)).
  set (ok := fun row : string * entry => e_success row.2 = true).
  assert (Hall : length (filter ok rows) = length rows <->
                 map_Forall (fun _ e => e_success e = true) (results w)).
  { rewrite count_all, map_Forall_to_list. fold rows.
    split; intros H; (eapply Forall_impl; [exact H |]); by intros []. }
  assert (Hnone : length (filter ok rows) = 0 <->
                  map_Forall (fun _ e => e_success e <> true) (results w)).
  { rewrite count_none, map_Forall_to_list. fold rows.
    split; intros H; (eapply Forall_impl; [exact H |]); by intros []. }
  assert (Hempty : length rows = 0 <-> results w = ∅).
  { unfold rows. rewrite <- map_to_list_empty_iff. by destruct (map_to_list _). }
  destruct (show_summary_runs E start_time w) as (evs & w' & Hrun & Htrace & Hrest).
  exists (summary_header ++ evs), (verdict_of rows), w'.
  split; [done |]. split; [done |]. split; [| split; [| split; [| done]]].
  all: unfold verdict_of; fold ok;
    (destruct (length (filter ok rows) =? length rows) eqn:H1;
     [apply Nat.eqb_eq in H1 | apply Nat.eqb_neq in H1]);
    (destruct (0 <? length rows) eqn:H2;
     [apply Nat.ltb_lt in H2 | apply Nat.ltb_ge in H2]);
    (destruct (0 <? length (filter ok rows)) eqn:H3;
     [apply Nat.ltb_lt in H3 | apply Nat.ltb_ge in H3]);
    cbn [andb]; try lia.
  all: try (by left); try (by right; left); try (by right; right).
  all: split; try discriminate; try done.
  all: try (intros [Hne Hok]; apply Hall in Hok; rewrite <- Hempty in Hne; lia).
  all: try (intros Hno; apply Hnone in Hno; lia).
  all: try (intros _; split; [rewrite <- Hempty; lia | apply Hall; lia]).
  all: try (intros _; apply Hnone; lia).
Qed.

(** ** The two modes of the orchestrator *)

Lemma estimated_seconds_known l :
  Forall (fun p => is_Some (ExtractorOrchestrator.PLATFORMS p)) l ->
  exists total, ExtractorOrchestrator.estimated_seconds l = Val total.
Proof.
  induction 1 as [|p l [info Hp] _ (total & IH)]; simpl.
  - by eexists.
  - rewrite Hp, IH. by eexists.
Qed.

Lemma estimate_time_runs l w :
  Forall (fun p => is_Some (ExtractorOrchestrator.PLATFORMS p)) l ->
  exists w', ExtractorOrchestrator._estimate_time l w = (Ok tt, w') /\
    results w' = results w /\ files w' = files w /\ requests w' = requests w /\
    inputs w' = inputs w /\ now_calls w' = now_calls w.
Proof.
  intros Hl. destruct (estimated_seconds_known l Hl) as (total & Ht).
  unfold ExtractorOrchestrator._estimate_time. exec. rewrite Ht.
  eexists. split; [reflexivity |]. by repeat split.
Qed.

Lemma run_extractions_covers E platforms usernames w :
  (forall p, p ∈ platforms ->
     is_Some (ExtractorOrchestrator.PLATFORMS p) /\ is_Some (usernames !! p)) ->
  exists w',
    ExtractorOrchestrator._run_extractions E platforms usernames w = (Ok tt, w') /\
    covers usernames platforms w'.
Proof.
  intros Hsel. unfold ExtractorOrchestrator._run_extractions. exec.
  match goal with |- context [ExtractorOrchestrator.process_all _ _ _ _ _ ?w0] =>
    pose proof (process_all_covers E usernames (length platforms) platforms [] 1 w0 Hsel)
      as Hall
  end.
  destruct Hall as (w' & -> & Hcov).
  - intros p info username Hp. by apply elem_of_nil in Hp.
  - by exists w'.
Qed.

Lemma covers_results usernames platforms w w' :
  results w' = results w -> covers usernames platforms w -> covers usernames platforms w'.
Proof. intros Hr Hc p info username Hp Hi Hu. rewrite Hr. by eapply Hc. Qed.

(** After the estimate, the clock reading, the extractions and the summary:
    what both modes share. *)
Lemma extractions_and_summary E selected usernames w :
  (forall p, p ∈ selected ->
     is_Some (ExtractorOrchestrator.PLATFORMS p) /\ is_Some (usernames !! p)) ->
  exists w',
    (ExtractorOrchestrator._estimate_time selected ;;
     start_time <- now E ;;
     ExtractorOrchestrator._run_extractions E selected usernames ;;
     ExtractorOrchestrator._show_summary E (Some start_time))%m w = (Ok tt, w') /\
    covers usernames selected w'.
Proof.
  intros Hsel.
  assert (Hvalid : Forall (fun p => is_Some (ExtractorOrchestrator.PLATFORMS p)) selected).
  { apply Forall_forall. intros p Hp. by apply Hsel. }
  destruct (estimate_time_runs selected w Hvalid) as (w1 & H1 & _).
  rewrite (bind_run _ _ _ _ _ H1).
  unfold bind at 1, now at 1.
  destruct (run_extractions_covers E selected usernames (ticked w1) Hsel)
    as (w2 & H2 & Hcov).
  rewrite (bind_run _ _ _ _ _ H2).
  destruct (show_summary_runs E (Some (clock E (now_calls w1))) w2)
    as (evs & w3 & H3 & _ & Hres & _).
  exists w3. split; [done |]. by apply (covers_results _ _ w2).
Qed.

Lemma interactive_mode_cases E w :
  exists selected w1 (usernames : gmap Z string) w2 w',
    ExtractorOrchestrator._select_platforms E w = (Ok selected, w1) /\
    ExtractorOrchestrator._configure_usernames E selected w1 = (Ok usernames, w2) /\
    ExtractorOrchestrator._run_interactive_mode E w = (Ok tt, w') /\
    selected <> [] /\
    (forall p, p ∈ selected ->
       exists info username entry,
         ExtractorOrchestrator.PLATFORMS p = Some info /\
         usernames !! p = Some username /\
         results w' !! ExtractorOrchestrator.name info = Some entry /\
         e_username entry = username).
Proof.
  unfold ExtractorOrchestrator._run_interactive_mode.
  destruct (select_platforms_cases E w)
    as (selected & w1 & H1 & Hne & Hvalid & _).
  rewrite (bind_run _ _ _ _ _ H1).
  destruct (configure_usernames_cases E selected w1 Hvalid)
    as (usernames & w2 & H2 & Hdom & _).
  rewrite (bind_run _ _ _ _ _ H2).
  destruct (extractions_and_summary E selected usernames w2) as (w3 & H3 & Hcov).
  { intros p Hp. split; [| by apply Hdom].
    rewrite Forall_forall in Hvalid. by apply Hvalid. }
  exists selected, w1, usernames, w2, w3.
  split; [exact H1 |]. split; [exact H2 |]. split; [exact H3 |]. split; [done |].
  intros p Hp. rewrite Forall_forall in Hvalid.
  destruct (Hvalid p Hp) as [info Hi]. destruct (proj2 (Hdom p) Hp) as [username Hu].
  destruct (Hcov p info username Hp Hi Hu) as (entry & He & Hn).
  by exists info, username, entry.
Qed.

Lemma interactive_mode_runs E w :
  exists w', ExtractorOrchestrator._run_interactive_mode E w = (Ok tt, w').
Proof.
  destruct (interactive_mode_cases E w) as (_ & _ & _ & _ & w' & _ & _ & H & _).
  by exists w'.
Qed.

(** The interactive mode always ends normally, whatever is typed and
    whatever the platforms answer: with the platforms [_select_platforms]
    returns for the line typed (at least one, all of [PLATFORMS]) and the
    usernames [_configure_usernames] returns for them from the lines typed
    next, it runs the extraction of each and shows the summary; at the end
    the table of results has an outcome for every platform of that
    selection, under the username configured for it. *)
Theorem interactive_mode_always_completes E w :
  exists selected w1 (usernames : gmap Z string) w2 w',
    ExtractorOrchestrator._select_platforms E w = (Ok selected, w1) /\
    ExtractorOrchestrator._configure_usernames E selected w1 = (Ok usernames, w2) /\
    ExtractorOrchestrator._run_interactive_mode E w = (Ok tt, w') /\
    selected <> [] /\
    (forall p, p ∈ selected ->
       exists info username entry,
         ExtractorOrchestrator.PLATFORMS p = Some info /\
         usernames !! p = Some username /\
         results w' !! ExtractorOrchestrator.name info = Some entry /\
         e_username entry = username).
Proof. apply interactive_mode_cases. Qed.

Lemma same_for_all_covers username selected p :
  p ∈ selected ->
  ExtractorOrchestrator.same_for_all username selected !! p = Some username.
Proof. intros Hp. rewrite same_for_all_lookup. by rewrite decide_True. Qed.

Lemma extractions_and_summary_cli E selected username w :
  Forall (fun p => is_Some (ExtractorOrchestrator.PLATFORMS p)) selected ->
  exists w',
    (ExtractorOrchestrator._estimate_time selected ;;
     start_time <- now E ;;
     ExtractorOrchestrator._run_extractions E selected
       (ExtractorOrchestrator.same_for_all username selected) ;;
     ExtractorOrchestrator._show_summary E (Some start_time) ;;
     ret ExtractorOrchestrator.Returned)%m w = (Ok ExtractorOrchestrator.Returned, w') /\
    covers (ExtractorOrchestrator.same_for_all username selected) selected w'.
Proof.
  intros Hvalid.
  destruct (estimate_time_runs selected w Hvalid) as (w1 & H1 & _).
  rewrite (bind_run _ _ _ _ _ H1).
  unfold bind at 1, now at 1.
  destruct (run_extractions_covers E selected
              (ExtractorOrchestrator.same_for_all username selected) (ticked w1))
    as (w2 & H2 & Hcov).
  { intros p Hp. rewrite Forall_forall in Hvalid. split; [by apply Hvalid |].
    rewrite same_for_all_covers by done. by eexists. }
  rewrite (bind_run _ _ _ _ _ H2).
  destruct (show_summary_runs E (Some (clock E (now_calls w1))) w2)
    as (evs & w3 & H3 & _ & Hres & _).
  rewrite (bind_run _ _ _ _ _ H3).
  exists w3. split; [done |]. by apply (covers_results _ _ w2).
Qed.

Lemma selects_known s selected :
  selects s selected ->
  Forall (fun p => is_Some (ExtractorOrchestrator.PLATFORMS p)) selected.
Proof.
  intros [[_ ->] | (_ & Hp & _)]; [apply platform_keys_are_known |].
  unfold ExtractorOrchestrator._parse_platform_arg in Hp.
  destruct (parse_parts_known (strip <$> split "," s)) as (l & Hl & Hk).
  rewrite Hl in Hp. by inversion Hp; subst.
Qed.

Lemma cli_mode_runs E args username s selected w :
  ExtractorOrchestrator.pattern args = Some username -> username <> "" ->
  ExtractorOrchestrator.platforms args = Some s ->
  selects s selected ->
  exists w',
    ExtractorOrchestrator._run_cli_mode E args w = (Ok ExtractorOrchestrator.Returned, w') /\
    covers (ExtractorOrchestrator.same_for_all username selected) selected w'.
Proof.
  intros Hpat Hne Hpl Hsel. pose proof (selects_known s selected Hsel) as Hvalid.
  unfold ExtractorOrchestrator._run_cli_mode. rewrite Hpat, Hpl.
  cbn [opt_str truthy default]. apply String.eqb_neq in Hne. rewrite Hne. cbn [negb].
  exec.
  destruct Hsel as [[Hall ->] | (Hall & Hp & Hsome)]; rewrite Hall.
  - match goal with |- context [ExtractorOrchestrator._estimate_time _ ?w0] =>
      destruct (extractions_and_summary_cli E ExtractorOrchestrator.platform_keys
                  username w0 Hvalid) as (w' & Hrun & Hcov)
    end.
    exists w'. split; [exact Hrun | exact Hcov].
  - destruct (platform_names_known selected Hvalid) as (names & Hn & _).
    rewrite Hp. destruct selected as [|p0 rest]; [done |].
    rewrite Hn.
    match goal with |- context [ExtractorOrchestrator._estimate_time _ ?w0] =>
      destruct (extractions_and_summary_cli E (p0 :: rest) username w0 Hvalid)
        as (w' & Hrun & Hcov)
    end.
    exists w'. split; [exact Hrun | exact Hcov].
Qed.

Lemma cli_mode_stops E args w :
  (truthy (opt_str (ExtractorOrchestrator.pattern args)) = false ->
   ExtractorOrchestrator._run_cli_mode E args w
   = (Ok (ExtractorOrchestrator.Exited 1), log (Ui UiError "Pattern required") w)) /\
  (truthy (opt_str (ExtractorOrchestrator.pattern args)) = true ->
   ExtractorOrchestrator.platforms args = None ->
   ExtractorOrchestrator._run_cli_mode E args w = (Raise AttributeError, w)) /\
  (forall s,
     truthy (opt_str (ExtractorOrchestrator.pattern args)) = true ->
     ExtractorOrchestrator.platforms args = Some s ->
     String.eqb (lower s) "all" = false ->
     ExtractorOrchestrator._parse_platform_arg s = Val [] ->
     ExtractorOrchestrator._run_cli_mode E args w
     = (Ok (ExtractorOrchestrator.Exited 1), log (Ui UiError "Invalid platforms") w)).
Proof.
  unfold ExtractorOrchestrator._run_cli_mode. repeat split.
  - intros ->. reflexivity.
  - intros -> ->. reflexivity.
  - intros s -> -> Hall Hp. exec. rewrite Hall, Hp. reflexivity.
Qed.

(** The command-line mode stops before any extraction when its arguments
    do not fit, with one error message and nothing else done: without a
    pattern (absent or empty) the process exits with status 1; with a list
    of platforms that names no platform it exits with status 1; with a
    pattern and no list of platforms no message of the mode is shown at
    all: the call raises [AttributeError]. *)
Theorem cli_mode_checks_its_arguments E args w :
  (truthy (opt_str (ExtractorOrchestrator.pattern args)) = false ->
   ExtractorOrchestrator._run_cli_mode E args w
   = (Ok (ExtractorOrchestrator.Exited 1), log (Ui UiError "Pattern required") w)) /\
  (truthy (opt_str (ExtractorOrchestrator.pattern args)) = true ->
   ExtractorOrchestrator.platforms args = None ->
   ExtractorOrchestrator._run_cli_mode E args w = (Raise AttributeError, w)) /\
  (forall s,
     truthy (opt_str (ExtractorOrchestrator.pattern args)) = true ->
     ExtractorOrchestrator.platforms args = Some s ->
     String.eqb (lower s) "all" = false ->
     ExtractorOrchestrator._parse_platform_arg s = Val [] ->
     ExtractorOrchestrator._run_cli_mode E args w
     = (Ok (ExtractorOrchestrator.Exited 1), log (Ui UiError "Invalid platforms") w)).
Proof. apply cli_mode_stops. Qed.

Lemma cli_mode_checks_its_arguments_witness :
  ExtractorOrchestrator._run_cli_mode octocat_env pattern_only_args empty_world
  = (Raise AttributeError, empty_world).
Proof.
  destruct (cli_mode_checks_its_arguments octocat_env pattern_only_args empty_world)
    as (_ & H & _).
  exact (H eq_refl eq_refl).
Defined.

(** With a pattern and a list of platforms that selects some ([all], or
    names and numbers of which one at least is known), the command-line
    mode ends normally whatever the platforms answer, and the table of
    results has an outcome for every platform selected, under the pattern
    as username. *)
Theorem cli_mode_extracts_every_platform_named E args username s selected w :
  ExtractorOrchestrator.pattern args = Some username -> username <> "" ->
  ExtractorOrchestrator.platforms args = Some s ->
  selects s selected ->
  exists w',
    ExtractorOrchestrator._run_cli_mode E args w = (Ok ExtractorOrchestrator.Returned, w') /\
    forall p, p ∈ selected ->
      exists info entry,
        ExtractorOrchestrator.PLATFORMS p = Some info /\
        results w' !! ExtractorOrchestrator.name info = Some entry /\
        e_username entry = username.
Proof.
  intros Hpat Hne Hpl Hsel.
  destruct (cli_mode_runs E args username s selected w Hpat Hne Hpl Hsel)
    as (w' & Hrun & Hcov).
  exists w'. split; [done |]. intros p Hp.
  pose proof (selects_known s selected Hsel) as Hvalid. rewrite Forall_forall in Hvalid.
  destruct (Hvalid p Hp) as [info Hi].
  destruct (Hcov p info username Hp Hi (same_for_all_covers username selected p Hp))
    as (entry & He & Hu).
  by exists info, entry.
Qed.

Lemma cli_mode_extracts_every_platform_named_witness :
  exists w',
    ExtractorOrchestrator._run_cli_mode nobody_env two_platforms_args empty_world
    = (Ok ExtractorOrchestrator.Returned, w') /\
    forall p, p ∈ [6; 7]%Z ->
      exists info entry,
        ExtractorOrchestrator.PLATFORMS p = Some info /\
        results w' !! ExtractorOrchestrator.name info = Some entry /\
        e_username entry = "ghost".
Proof.
  apply (cli_mode_extracts_every_platform_named nobody_env two_platforms_args "ghost"
           "reddit,7" [6; 7]%Z empty_world); try done.
  right. split; [reflexivity |]. split; [vm_compute; reflexivity | done].
Defined.

(** ** The entry point *)

Lemma run_cases E args w :
  (exists st w',
     ExtractorOrchestrator.run_ E (Some args) w = (Ok st, w') /\
     (truthy (opt_str (ExtractorOrchestrator.pattern args)) = false \/
      is_Some (ExtractorOrchestrator.platforms args)) /\
     (st = ExtractorOrchestrator.Returned \/
      st = ExtractorOrchestrator.Exited 1 /\
      ExtractorOrchestrator.cli_mode (Some args) = true /\
      requests w' = requests w /\ files w' = files w /\ results w' = results w)) \/
  (exists w',
     ExtractorOrchestrator.run_ E (Some args) w = (Raise AttributeError, w') /\
     truthy (opt_str (ExtractorOrchestrator.pattern args)) = true /\
     ExtractorOrchestrator.platforms args = None /\
     requests w' = requests w /\ files w' = files w /\ results w' = results w /\
     trace w' = trace w ++ banner_shown).
Proof.
  unfold ExtractorOrchestrator.run_, ExtractorOrchestrator._show_banner.
  destruct (ExtractorOrchestrator.cli_mode (Some args)) eqn:Hmode.
  - exec. set (w0 := log _ _).
    destruct (cli_mode_stops E args w0) as (Hnopat & Hnoplat & Hnone).
    destruct (truthy (opt_str (ExtractorOrchestrator.pattern args))) eqn:Hpat.
    + destruct (ExtractorOrchestrator.platforms args) as [s|] eqn:Hpl.
      * destruct (ExtractorOrchestrator.pattern args) as [username|] eqn:Hu;
          [| discriminate].
        assert (Hne : username <> "").
        { intros ->. discriminate. }
        left. destruct (String.eqb (lower s) "all") eqn:Hall.
        -- destruct (cli_mode_runs E args username s ExtractorOrchestrator.platform_keys w0
                       Hu Hne Hpl) as (w' & -> & _); [by left |].
           eexists _, w'. split; [reflexivity |]. split; [right; by eexists | by left].
        -- destruct (parse_parts_known (strip <$> split "," s)) as (sel & Hsel & _).
           destruct sel as [|p0 rest].
           ++ rewrite (Hnone s eq_refl eq_refl Hall Hsel).
              eexists _, _. split; [reflexivity |]. split; [right; by eexists |].
              right. by repeat split.
           ++ destruct (cli_mode_runs E args username s (p0 :: rest) w0 Hu Hne Hpl)
                as (w' & -> & _); [right; by repeat split |].
              eexists _, w'. split; [reflexivity |]. split; [right; by eexists | by left].
      * right. rewrite (Hnoplat eq_refl eq_refl). eexists. split; [reflexivity |].
        repeat split; try done. subst w0. cbn [trace log]. by rewrite <- !app_assoc.
    + left. rewrite (Hnopat eq_refl). eexists _, _. split; [reflexivity |].
      split; [by left |]. right. by repeat split.
  - left. exec.
    match goal with |- context [ExtractorOrchestrator._run_interactive_mode E ?w0] =>
      destruct (interactive_mode_runs E w0) as (w' & ->)
    end.
    eexists _, w'. split; [reflexivity |]. split; [| by left].
    left. unfold ExtractorOrchestrator.cli_mode in Hmode.
    by apply orb_false_iff in Hmode as [? _].
Qed.

(** No exception leaves [main].  When the parser of the command line exits
    by itself (an option it does not know, a value that is missing, the
    help), the process exits with the status of the parser and nothing
    else is done.  With the arguments parsed, [main] returns normally, or
    the process exits with status 1, which happens only in the
    command-line mode and before any request is sent or file written.
    What [main] catches it reports as a fatal error, and then returns
    normally all the same: so it does when the results directory cannot be
    made, with nothing else shown or done, and so it does for a command
    line with a pattern and no list of platforms, after the banner. *)
Theorem main_ends_without_exception E mkdir cmd w :
  exists st w',
    main E mkdir cmd w = (Ok st, w') /\
    match cmd with
    | ParserExit code => st = ExtractorOrchestrator.Exited code /\ w' = w
    | Parsed args =>
        (st = ExtractorOrchestrator.Returned \/
         st = ExtractorOrchestrator.Exited 1 /\
         ExtractorOrchestrator.cli_mode (Some args) = true /\
         requests w' = requests w /\ files w' = files w) /\
        (is_Some mkdir ->
         st = ExtractorOrchestrator.Returned /\
         trace w' = trace w ++ fatal_error_shown /\
         requests w' = requests w /\ files w' = files w) /\
        (mkdir = None ->
         truthy (opt_str (ExtractorOrchestrator.pattern args)) = true ->
         ExtractorOrchestrator.platforms args = None ->
         st = ExtractorOrchestrator.Returned /\
         trace w' = trace w ++ banner_shown ++ fatal_error_shown /\
         requests w' = requests w /\ files w' = files w)
    end.
Proof.
  destruct cmd as [args|code]; [| by eexists _, _].
  unfold main, try_except, ExtractorOrchestrator.__init__. unfold bind at 1.
  destruct mkdir as [e|].
  - cbn [any_exception]. exec. eexists _, _. split; [reflexivity |].
    cbn [trace requests files log]. split; [by left |]. split.
    + intros _. unfold fatal_error_shown. by rewrite <- !app_assoc.
    + discriminate.
  - set (w0 := {| requests := requests w; files := files w; trace := trace w;
                  now_calls := now_calls w; inputs := inputs w; results := ∅ |}).
    destruct (run_cases E args w0)
      as [(st & w' & -> & Hargs & Hst)
         | (w' & -> & Hpat & Hpl & Hreq & Hfiles & _ & Htrace)].
    + exists st, w'. split; [done |]. split; [| split].
      * destruct Hst as [-> | (-> & Hmode & Hreq & Hfiles & _)]; [by left |].
        right. by repeat split.
      * intros [? [=]].
      * intros _ Hpat Hpl. exfalso. destruct Hargs as [Hno | [s Hs]]; congruence.
    + cbn [any_exception]. exec. eexists _, _. split; [reflexivity |].
      cbn [trace requests files log]. split; [by left |]. split.
      * intros [? [=]].
      * intros _ _ _. split; [done |]. rewrite Htrace, Hreq, Hfiles.
        unfold fatal_error_shown. by rewrite <- !app_assoc.
Qed.

(** ** A body that is no object *)

(** The run has stopped at the first use of the body. *)
Ltac escaped Hbody :=
  match goal with |- context [http _ _ ?req] =>
    destruct (Hbody req) as (? & -> & ->)
  end;
  cbn; eexists _, _; (split; [reflexivity |]);
  (split; [first [by left | by right] |]);
  cbn; rewrite length_app; simpl; (split; [lia | done]).

(** When the first request of a client that decodes JSON is answered with
    a body that is a number, the run does not return: the exception of the
    first use of the body ([AttributeError], or [TypeError] for Reddit)
    leaves [run], handled by none of its [except requests.RequestException]
    clauses.  One request was sent and no file is written. *)
Theorem number_body_escapes_run E x username w z :
  has_requests E = true ->
  reads_json_first E x = true ->
  (forall req, exists resp,
     http E (length (requests w)) req = Replied resp /\ body resp = JInt z) ->
  exists e w',
    ExtractorOrchestrator.run E x username w = (Raise e, w') /\
    (e = AttributeError \/ e = TypeError) /\
    length (requests w') = S (length (requests w)) /\
    files w' = files w.
Proof.
  intros Hreq Hx Hbody.
  destruct x; try discriminate; cbn [ExtractorOrchestrator.run reads_json_first] in *.
  - unfold StackOverflowExtractor.run, StackOverflowExtractor._search_users. exec.
    rewrite Hreq. cbn [negb]. destruct (bool_decide _); exec; escaped Hbody.
  - unfold YouTubeExtractor.run, YouTubeExtractor._search_channels. exec.
    rewrite Hx, Hreq. cbn [negb]. exec. escaped Hbody.
  - unfold GitHubExtractor.run, GitHubExtractor._get_user_info. exec.
    rewrite Hreq. cbn [negb]. escaped Hbody.
  - unfold BlueskyExtractor.run, BlueskyExtractor._resolve_handle,
      BlueskyExtractor.handles_to_try.
    exec. rewrite Hreq. cbn [negb].
    destruct (has_char _ _); cbn [negb app BlueskyExtractor.try_handles];
      unfold BlueskyExtractor.try_handle; exec; escaped Hbody.
  - unfold MastodonExtractor.run, MastodonExtractor._search_account. exec.
    rewrite Hreq. cbn [negb]. escaped Hbody.
  - unfold RedditExtractor.run, RedditExtractor._get_user_info. exec.
    rewrite Hreq. cbn [negb]. escaped Hbody.
Qed.

Lemma number_body_escapes_run_witness :
  exists e w',
    ExtractorOrchestrator.run odd_env ExtractorOrchestrator.Reddit "ghost" empty_world
    = (Raise e, w') /\
    (e = AttributeError \/ e = TypeError) /\
    length (requests w') = S (length (requests empty_world)) /\
    files w' = files empty_world.
Proof.
  apply (number_body_escapes_run odd_env ExtractorOrchestrator.Reddit "ghost"
           empty_world 1); [reflexivity | reflexivity |].
  intros req. by eexists.
Defined.

(** ** The table of platforms and the clients it creates *)

Lemma create_extractor_for_table E p info w :
  ExtractorOrchestrator.PLATFORMS p = Some info ->
  let key := ExtractorOrchestrator.name info in
  if section_usable (config E) key
  then exists x,
         ExtractorOrchestrator._create_extractor E (ExtractorOrchestrator.class info)
           key w = (Ok (Some x), w) /\
         ExtractorOrchestrator.platform_name x = key
  else ExtractorOrchestrator._create_extractor E (ExtractorOrchestrator.class info)
         key w = (Ok None, log (Ui UiError "Failed to create extractor") w).
Proof.
  intros H.
  destruct (PLATFORMS_dom p info H) as [->|[->|[->|[->|[->|[->|[->| ->]]]]]]];
    cbn in H; inversion H; subst;
    unfold ExtractorOrchestrator._create_extractor, ExtractorOrchestrator.kwargs_for,
      section_usable;
    cbn [ExtractorOrchestrator.name ExtractorOrchestrator.class String.eqb Ascii.eqb
         Bool.eqb];
    try match goal with
        | |- context [readable (?f (config E))] => destruct (f (config E))
        end;
    cbn; try (by eexists); reflexivity.
Qed.

(** For each entry of [PLATFORMS], [_create_extractor] creates the client
    of the class of the entry, whose own platform name is the name of the
    entry, unless the section of the platform in the configuration is
    there and is no mapping (a section left empty, say): then it shows an
    error and returns [None].  So one turn of the extraction loop for a
    platform records its outcome under the name its file has: when the
    outcome is a success, the client was created, and the file recorded is
    in the results directory and is named after the key of the outcome, the
    username and the time; when the section cannot be read the outcome is a
    failure, and no request is sent and no file written. *)
Theorem outcome_key_names_the_file E usernames total idx p info username w :
  ExtractorOrchestrator.PLATFORMS p = Some info ->
  usernames !! p = Some username ->
  let key := ExtractorOrchestrator.name info in
  (forall w0,
     if section_usable (config E) key
     then exists x,
            ExtractorOrchestrator._create_extractor E (ExtractorOrchestrator.class info)
              key w0 = (Ok (Some x), w0) /\
            ExtractorOrchestrator.platform_name x = key
     else ExtractorOrchestrator._create_extractor E (ExtractorOrchestrator.class info)
            key w0 = (Ok None, log (Ui UiError "Failed to create extractor") w0)) /\
  exists e w',
    ExtractorOrchestrator.process E usernames total idx p w = (Ok tt, w') /\
    results w' = <[key := e]> (results w) /\
    e_username e = username /\
    (e_success e = true ->
     section_usable (config E) key = true /\
     exists f doc,
       e_filename e = Some (results_dir E +:+ "/" +:+ f) /\
       file_name_is stamp8_6 key username f = true /\
       files w' = files w ++ [(f, doc)]) /\
    (e_success e = false -> e_filename e = None) /\
    (section_usable (config E) key = false ->
     e = ExtractorOrchestrator.failure username /\
     files w' = files w /\ requests w' = requests w).
Proof.
  intros Hp Hu key. subst key. split.
  { intros w0. exact (create_extractor_for_table E p info w0 Hp). }
  unfold ExtractorOrchestrator.process. rewrite Hp, Hu.
  unfold bind at 1. unfold ui at 1, emit at 1. unfold bind at 1.
  match goal with |- context [ExtractorOrchestrator._create_extractor _ _ _ ?w0] =>
    pose proof (create_extractor_for_table E p info w0 Hp) as Hcreate
  end.
  cbv zeta in Hcreate.
  destruct (section_usable (config E) (ExtractorOrchestrator.name info)) eqn:Husable.
  - destruct Hcreate as (x & -> & Hname).
    unfold bind at 1.
    match goal with |- context [ExtractorOrchestrator.extract E x ?n username ?w0] =>
      destruct (extract_outcome E x n username w0) as (e & w2 & -> & Hres & Hcase)
    end.
    cbn [results files log] in Hres, Hcase.
    exists e.
    destruct (idx <? total); exec; eexists; (split; [reflexivity |]);
      cbn [results files log]; (split; [done |]);
      (destruct Hcase as [(f & doc & -> & Hfiles & Hshape & _) | (-> & _)];
       [| by repeat split]);
      (split; [done |]); (split; [| by split]); intros _; (split; [done |]);
      exists f, doc;
      (split; [done |]); (split; [| done]); by rewrite <- Hname.
  - rewrite Hcreate. unfold bind at 1.
    exists (ExtractorOrchestrator.failure username).
    unfold ExtractorOrchestrator.record.
    destruct (idx <? total); exec; eexists; (split; [reflexivity |]);
      cbn [results files requests log recorded]; by repeat split.
Qed.

Lemma outcome_key_names_the_file_witness :
  let key := "github" in
  (forall w0,
     if section_usable (config null_github_env) key
     then exists x,
            ExtractorOrchestrator._create_extractor null_github_env
              ExtractorOrchestrator.GitHubClass key w0 = (Ok (Some x), w0) /\
            ExtractorOrchestrator.platform_name x = key
     else ExtractorOrchestrator._create_extractor null_github_env
            ExtractorOrchestrator.GitHubClass key w0
          = (Ok None, log (Ui UiError "Failed to create extractor") w0)) /\
  exists e w',
    ExtractorOrchestrator.process null_github_env {[3%Z := "octocat"]} 1 1 3 empty_world
    = (Ok tt, w') /\
    results w' = <[key := e]> (results empty_world) /\
    e_username e = "octocat" /\
    (e_success e = true ->
     section_usable (config null_github_env) key = true /\
     exists f doc,
       e_filename e = Some (results_dir null_github_env +:+ "/" +:+ f) /\
       file_name_is stamp8_6 key "octocat" f = true /\
       files w' = files empty_world ++ [(f, doc)]) /\
    (e_success e = false -> e_filename e = None) /\
    (section_usable (config null_github_env) key = false ->
     e = ExtractorOrchestrator.failure "octocat" /\
     files w' = files empty_world /\ requests w' = requests empty_world).
Proof.
  apply (outcome_key_names_the_file null_github_env {[3%Z := "octocat"]} 1 1 3
           {| ExtractorOrchestrator.name := "github";
              ExtractorOrchestrator.class := ExtractorOrchestrator.GitHubClass |}
           "octocat" empty_world); reflexivity.
Defined.

(** ** Reading a [Link] header back *)

Lemma has_char_app c (a b : string) :
  has_char c (a +:+ b) = has_char c a || has_char c b.
Proof.
  induction a as [|d a IH]; [by rewrite sapp_nil |].
  rewrite sapp_cons. simpl. rewrite IH. by rewrite orb_assoc.
Qed.

Lemma split_none sep s : has_char sep s = false -> split sep s = [s].
Proof.
  induction s as [|c s IH]; [done |]. simpl. intros H.
  apply orb_false_iff in H as [Hc Hs]. rewrite Hc, (IH Hs). done.
Qed.

Lemma rstrip_end (a : string) c :
  is_space c = false -> rstrip (a +:+ String c "") = a +:+ String c "".
Proof.
  intros Hc. induction a as [|d a IH].
  - rewrite sapp_nil. simpl. by rewrite Hc.
  - rewrite sapp_cons. cbn [rstrip]. rewrite IH.
    destruct a; [rewrite sapp_nil | rewrite sapp_cons]; reflexivity.
Qed.

Lemma drop_last_end (a : string) c : drop_last (a +:+ String c "") = a.
Proof.
  induction a as [|d a IH]; [done |].
  rewrite sapp_cons. cbn [drop_last]. rewrite IH.
  destruct a; [rewrite sapp_nil | rewrite sapp_cons]; reflexivity.
Qed.

Lemma strip_angle (u : string) :
  strip (String "<" (u +:+ ">")) = String "<" (u +:+ ">").
Proof.
  unfold strip. cbn [lstrip]. change (is_space "<") with false. cbv iota.
  rewrite <- (sapp_cons "<" u ">"). by rewrite rstrip_end.
Qed.

Lemma url_of_angle (u : string) :
  slice_1_m1 (strip ("<" +:+ u +:+ ">")) = u /\
  slice_1_m1 (strip (" <" +:+ u +:+ ">")) = u.
Proof.
  split.
  - change ("<" +:+ u +:+ ">") with (String "<" (u +:+ ">")).
    rewrite strip_angle. cbn [slice_1_m1]. apply drop_last_end.
  - change (" <" +:+ u +:+ ">") with (String " " (String "<" (u +:+ ">"))).
    replace (strip (String " " (String "<" (u +:+ ">"))))
      with (strip (String "<" (u +:+ ">"))) by reflexivity.
    rewrite strip_angle. cbn [slice_1_m1]. apply drop_last_end.
Qed.

Lemma plain_url_chars u :
  plain_url u = true -> has_char "," u = false /\ has_char ";" u = false.
Proof.
  unfold plain_url. intros H. apply andb_true_iff in H as [H1 H2].
  by destruct (has_char "," u), (has_char ";" u).
Qed.

Lemma link_no_comma u next :
  plain_url u = true -> has_char "," (link u (rel_name next)) = false.
Proof.
  intros [Hc _]%plain_url_chars. unfold link. rewrite !has_char_app, Hc.
  by destruct next.
Qed.

Lemma piece_parts p :
  plain_url (fst (snd p)) = true ->
  split ";" (piece p)
  = [(if fst p then " " else "") +:+ "<" +:+ fst (snd p) +:+ ">";
     " rel=" +:+ dquote +:+ rel_name (snd (snd p)) +:+ dquote].
Proof.
  destruct p as [sp [u next]]. cbn [fst snd]. intros [_ Hs]%plain_url_chars.
  unfold piece, link. cbn [fst snd].
  replace ((if sp then " " else "") +:+ "<" +:+ u +:+ ">; rel=" +:+ dquote +:+
           rel_name next +:+ dquote)
    with (((if sp then " " else "") +:+ "<" +:+ u +:+ ">") +:+
          String ";" (" rel=" +:+ dquote +:+ rel_name next +:+ dquote))
    by (rewrite !sapp_assoc; reflexivity).
  rewrite split_app. rewrite (split_none ";" (_ +:+ "<" +:+ u +:+ ">")).
  - rewrite split_none; [done | by destruct next].
  - rewrite !has_char_app, Hs. by destruct sp.
Qed.

Lemma first_link_pieces ps :
  Forall (fun p => plain_url (fst (snd p)) = true) ps ->
  MastodonExtractor.first_link "next" (piece <$> ps) = first_next (snd <$> ps).
Proof.
  induction 1 as [|[sp [u next]] ps Hu _ IH]; [done |].
  cbn [fmap list_fmap MastodonExtractor.first_link first_next snd].
  rewrite (piece_parts _ Hu). cbn [fst snd]. cbv zeta.
  replace (slice_1_m1 (strip ((if sp then " " else "") +:+ "<" +:+ u +:+ ">"))) with u
    by (destruct (url_of_angle u) as [H1 H2];
        destruct sp; [exact (eq_sym H2) | exact (eq_sym H1)]).
  destruct next; [reflexivity |]. exact IH.
Qed.

Lemma split_header l links :
  Forall (fun l => plain_url (fst l) = true) (l :: links) ->
  split "," (header_of (l :: links))
  = piece (false, l) :: ((fun l => piece (true, l)) <$> links).
Proof.
  revert l. induction links as [|l' links IH]; intros l Hl.
  - apply Forall_cons in Hl as [Hl _]. unfold header_of. cbn [fmap list_fmap join].
    destruct l as [u next]. by rewrite split_none by (by apply link_no_comma).
  - apply Forall_cons in Hl as [Hl Hrest]. specialize (IH l' Hrest).
    unfold header_of in *. cbn [fmap list_fmap] in *.
    change (join ", " (?a :: ?b :: ?r)) with (a +:+ ", " +:+ join ", " (b :: r)).
    change (?a +:+ ", " +:+ ?b) with (a +:+ String "," (String " " b)).
    rewrite split_app. destruct l as [u next].
    rewrite split_none by (by apply link_no_comma). cbn [fst snd app].
    cbn [split]. change (ascii_eqb " " ",") with false. cbv iota.
    rewrite IH. reflexivity.
Qed.

(** [_parse_link_header] reads back what a header carries: for a header of
    links to next and previous pages, in any number and order, whose URLs
    have no comma and no semicolon, the URL returned for [next] is the one
    of the first link to a next page, and [None] when there is none; the
    empty header gives [None]. *)
Theorem link_header_gives_the_next_url links :
  Forall (fun l => plain_url (fst l) = true) links ->
  MastodonExtractor._parse_link_header (header_of links) "next" = first_next links.
Proof.
  intros Hl. destruct links as [|l links]; [reflexivity |].
  unfold MastodonExtractor._parse_link_header.
  replace (String.eqb (header_of (l :: links)) "") with false.
  - rewrite (split_header l links Hl).
    replace (piece (false, l) :: ((fun l0 => piece (true, l0)) <$> links))
      with (piece <$> ((false, l) :: ((fun l0 => (true, l0)) <$> links)))
      by (cbn [fmap list_fmap]; f_equal; by rewrite <- list_fmap_compose).
    rewrite first_link_pieces.
    + cbn [fmap list_fmap snd]. f_equal. rewrite <- list_fmap_compose.
      by rewrite list_fmap_id.
    + constructor; [by apply Forall_cons in Hl as [? _] |].
      apply Forall_fmap. apply Forall_cons in Hl as [_ Hl].
      eapply Forall_impl; [exact Hl | done].
  - unfold header_of. cbn [fmap list_fmap]. destruct links; reflexivity.
Qed.

Lemma link_header_gives_the_next_url_witness :
  MastodonExtractor._parse_link_header
    (header_of [("https://m.example/api/v1/accounts/1/statuses?min_id=9", false);
                ("https://m.example/api/v1/accounts/1/statuses?max_id=5", true)]) "next"
  = Some "https://m.example/api/v1/accounts/1/statuses?max_id=5".
Proof.
  apply (link_header_gives_the_next_url
           [("https://m.example/api/v1/accounts/1/statuses?min_id=9", false);
            ("https://m.example/api/v1/accounts/1/statuses?max_id=5", true)]).
  repeat constructor.
Defined.

(** ** The requests a run sends *)

Lemma requests_now E : respects same_requests (now E).
Proof. intros w r w' H. inversion H. reflexivity. Qed.

Lemma requests_input E : respects same_requests (input E).
Proof. intros w r w' H. inversion H. reflexivity. Qed.

Lemma requests_write_json E n d : respects same_requests (write_json E n d).
Proof.
  intros w r w' H. unfold write_json in H.
  destruct (fs_write E n); inversion H; reflexivity.
Qed.

Lemma requests_tg_start E : respects same_requests (TelegramExtractor.start E).
Proof.
  intros w r w' H. unfold TelegramExtractor.start in H.
  destruct (tg_start E _) as [k [e|]]; inversion H; reflexivity.
Qed.

#[local] Hint Resolve requests_now requests_input requests_write_json
  requests_tg_start : frame.

Lemma requests_now_iso E : respects same_requests (now_iso E).
Proof. unfold now_iso. respects. Qed.

Lemma requests_import_requests E : respects same_requests (import_requests E).
Proof. unfold import_requests. respects. Qed.

Lemma requests_export_done l : respects same_requests (export_done l).
Proof. unfold export_done. respects. Qed.

Lemma requests_save_json E p d u :
  respects same_requests (BaseExtractor._save_json E p d u).
Proof. unfold BaseExtractor._save_json. respects. Qed.

Lemma requests_tg_collect acc stream :
  respects same_requests (TelegramExtractor.collect acc stream).
Proof. revert acc. induction stream as [|m ms IH]; intros acc; simpl; respects. Qed.

#[local] Hint Resolve requests_now_iso requests_import_requests requests_export_done
  requests_save_json requests_tg_collect : frame.

Lemma sends_quiet n {A} (m : M A) : respects same_requests m -> sends n m.
Proof.
  intros H w r w' Hm. apply H in Hm. unfold same_requests in Hm.
  exists []. rewrite app_nil_r. split; [done | simpl; lia].
Qed.

Lemma sends_le a b {A} (m : M A) : a <= b -> sends a m -> sends b m.
Proof.
  intros Hab H w r w' Hm. destruct (H _ _ _ Hm) as (l & ? & ?).
  exists l. split; [done | lia].
Qed.

Lemma sends_bind a b {A B} (m : M A) (k : A -> M B) :
  sends a m -> (forall x, sends b (k x)) -> sends (a + b) (bind m k).
Proof.
  intros Hm Hk w r w' H.
  apply bind_inv in H as [(x & w1 & H1 & H2)|[(e & H1 & ->)|[H1 ->]]].
  - destruct (Hm _ _ _ H1) as (l1 & E1 & ?). destruct (Hk _ _ _ _ H2) as (l2 & E2 & ?).
    exists (l1 ++ l2). rewrite E2, E1, app_assoc, length_app. split; [done | lia].
  - destruct (Hm _ _ _ H1) as (l1 & E1 & ?). exists l1. split; [done | lia].
  - destruct (Hm _ _ _ H1) as (l1 & E1 & ?). exists l1. split; [done | lia].
Qed.

Lemma sends_try a b {A} (m : M A) handles h :
  sends a m -> sends b h -> sends (a + b) (try_except m handles h).
Proof.
  intros Hm Hh w r w' H.
  apply try_except_inv in H as [[H _]|(e & w1 & H1 & _ & H2)].
  - destruct (Hm _ _ _ H) as (l1 & E1 & ?). exists l1. split; [done | lia].
  - destruct (Hm _ _ _ H1) as (l1 & E1 & ?). destruct (Hh _ _ _ H2) as (l2 & E2 & ?).
    exists (l1 ++ l2). rewrite E2, E1, app_assoc, length_app. split; [done | lia].
Qed.

Lemma sends_get E u hs ps : sends 1 (requests_get E u hs ps).
Proof.
  intros w r w' H. unfold requests_get in H.
  destruct (http E _ _); inversion H; eexists [_]; (split; [reflexivity | simpl; lia]).
Qed.

Ltac sends_step :=
  match goal with
  | |- sends 1 (requests_get _ _ _ _) => apply sends_get
  | |- sends ?n (bind _ _) =>
      first [ apply (sends_bind 0 n); [apply sends_quiet; solve [respects] | intros ?]
            | match n with
              | S ?k => apply (sends_bind 1 k); [solve [repeat sends_step] | intros ?]
              end ]
  | |- sends ?n (try_except _ _ _) =>
      apply (sends_try n 0); [| apply sends_quiet; solve [respects]]
  | |- sends _ (if ?b then _ else _) => destruct b
  | |- sends _ (match ?x with _ => _ end) => destruct x
  | |- sends _ _ => apply sends_quiet; solve [respects]
  end.

Lemma sends_github_run E t u : sends 3 (GitHubExtractor.run E t u).
Proof.
  unfold GitHubExtractor.run, GitHubExtractor._get_user_info, GitHubExtractor.show_bio,
    GitHubExtractor._get_repositories, GitHubExtractor.parse_repo,
    GitHubExtractor._get_events, GitHubExtractor.parse_event.
  repeat sends_step.
Qed.

Lemma sends_reddit_run E u : sends 3 (RedditExtractor.run E u).
Proof.
  unfold RedditExtractor.run, RedditExtractor._get_user_info, RedditExtractor._get_posts,
    RedditExtractor._get_comments, RedditExtractor.children, RedditExtractor.parse_post,
    RedditExtractor.parse_comment.
  repeat sends_step.
Qed.

Lemma sends_medium_run E u : sends 1 (MediumExtractor.run E u).
Proof.
  unfold MediumExtractor.run, MediumExtractor._fetch_articles,
    MediumExtractor.show_article.
  repeat sends_step.
Qed.

Lemma sends_tg_run E i h u : sends 0 (TelegramExtractor.run E i h u).
Proof.
  apply sends_quiet.
  unfold TelegramExtractor.run, TelegramExtractor._run_async, TelegramExtractor._connect,
    TelegramExtractor._get_entity_info, TelegramExtractor._extract_messages.
  respects.
Qed.

Lemma sends_bsky_posts_turn E actor st : sends 1 (BlueskyExtractor.posts_turn E actor st).
Proof.
  destruct st as [acc cur].
  unfold BlueskyExtractor.posts_turn, BlueskyExtractor.parse_post.
  repeat sends_step.
Qed.

(** Every turn that goes on has added a post, so the turns left are at most
    the posts missing to the cap. *)
Lemma sends_bsky_posts_loop E fuel actor : forall st,
  sends (BlueskyExtractor.max_posts - length (fst st))
        (BlueskyExtractor.posts_loop E fuel actor st).
Proof.
  induction fuel as [|fuel IH]; intros [acc cur] w r w' H; simpl in *.
  - destruct (length acc <? BlueskyExtractor.max_posts) eqn:Hlt; simpl in H;
      inversion H; subst; exists []; rewrite app_nil_r; (split; [done | simpl; lia]).
  - destruct (length acc <? BlueskyExtractor.max_posts) eqn:Hlt; simpl in H;
      [| inversion H; subst; exists []; rewrite app_nil_r; (split; [done | simpl; lia])].
    apply Nat.ltb_lt in Hlt.
    apply bind_inv in H as [(t & w1 & Ht & H)|[(e & Ht & ->)|[Ht ->]]].
    + destruct (sends_bsky_posts_turn E actor (acc, cur) _ _ _ Ht) as (l1 & E1 & Hl1).
      destruct t as [[acc' cur']|st'].
      * apply bsky_posts_turn_grows in Ht.
        destruct (IH _ _ _ _ H) as (l2 & E2 & Hl2). simpl in Hl2.
        exists (l1 ++ l2). rewrite E2, E1, app_assoc, length_app. split; [done | lia].
      * inversion H; subst. exists l1. split; [done | lia].
    + destruct (sends_bsky_posts_turn E actor (acc, cur) _ _ _ Ht) as (l1 & E1 & Hl1).
      exists l1. split; [done | lia].
    + destruct (sends_bsky_posts_turn E actor (acc, cur) _ _ _ Ht) as (l1 & E1 & Hl1).
      exists l1. split; [done | lia].
Qed.

Lemma sends_bsky_try_handles E hs : sends (length hs) (BlueskyExtractor.try_handles E hs).
Proof.
  induction hs as [|h hs IH]; simpl.
  - apply sends_quiet. respects.
  - apply (sends_bind 1 (length hs)).
    + unfold BlueskyExtractor.try_handle. repeat sends_step.
    + intros did. destruct (truthy did); [apply sends_quiet; respects | exact IH].
Qed.

Lemma sends_bsky_run E u :
  sends (3 + 1 + BlueskyExtractor.max_posts) (BlueskyExtractor.run E u).
Proof.
  unfold BlueskyExtractor.run.
  apply (sends_bind 0); [apply sends_quiet; respects | intros ok].
  destruct (negb ok); [apply sends_quiet; respects |].
  do 3 (apply (sends_bind 0); [apply sends_quiet; respects | intros _]).
  apply (sends_bind 3 (1 + BlueskyExtractor.max_posts)).
  { unfold BlueskyExtractor._resolve_handle.
    apply (sends_bind 0 3); [apply sends_quiet; respects | intros _].
    eapply sends_le; [| apply sends_bsky_try_handles].
    unfold BlueskyExtractor.handles_to_try. destruct (negb _); simpl; lia. }
  intros did. destruct (negb (truthy did)); [apply sends_quiet; respects |].
  apply (sends_bind 1 BlueskyExtractor.max_posts).
  { unfold BlueskyExtractor._get_profile. repeat sends_step. }
  intros profile. destruct (negb (truthy profile)); [apply sends_quiet; respects |].
  apply (sends_bind BlueskyExtractor.max_posts 0).
  { unfold BlueskyExtractor._get_posts.
    do 3 (apply (sends_bind 0); [apply sends_quiet; respects | intros _]).
    apply (sends_bind BlueskyExtractor.max_posts 0).
    - exact (sends_bsky_posts_loop E _ did ([], JNull)).
    - intros posts. apply sends_quiet. respects. }
  intros posts. apply sends_quiet. respects.
Qed.

Lemma sends_masto_statuses_turn E st : sends 1 (MastodonExtractor.statuses_turn E st).
Proof.
  destruct st as [[acc u] ps].
  unfold MastodonExtractor.statuses_turn, MastodonExtractor.parse_status.
  repeat sends_step.
Qed.

Lemma sends_masto_statuses_loop E fuel : forall st,
  sends (MastodonExtractor.max_toots - length (fst (fst st)))
        (MastodonExtractor.statuses_loop E fuel st).
Proof.
  induction fuel as [|fuel IH]; intros [[acc u] ps] w r w' H; simpl in *.
  - destruct (length acc <? MastodonExtractor.max_toots) eqn:Hlt; simpl in H;
      inversion H; subst; exists []; rewrite app_nil_r; (split; [done | simpl; lia]).
  - destruct (length acc <? MastodonExtractor.max_toots) eqn:Hlt; simpl in H;
      [| inversion H; subst; exists []; rewrite app_nil_r; (split; [done | simpl; lia])].
    apply Nat.ltb_lt in Hlt.
    apply bind_inv in H as [(t & w1 & Ht & H)|[(e & Ht & ->)|[Ht ->]]].
    + destruct (sends_masto_statuses_turn E (acc, u, ps) _ _ _ Ht) as (l1 & E1 & Hl1).
      destruct t as [[[acc' u'] ps']|st'].
      * apply masto_statuses_turn_grows in Ht.
        destruct (IH _ _ _ _ H) as (l2 & E2 & Hl2). simpl in Hl2.
        exists (l1 ++ l2). rewrite E2, E1, app_assoc, length_app. split; [done | lia].
      * inversion H; subst. exists l1. split; [done | lia].
    + destruct (sends_masto_statuses_turn E (acc, u, ps) _ _ _ Ht) as (l1 & E1 & Hl1).
      exists l1. split; [done | lia].
    + destruct (sends_masto_statuses_turn E (acc, u, ps) _ _ _ Ht) as (l1 & E1 & Hl1).
      exists l1. split; [done | lia].
Qed.

Lemma sends_masto_run E i u :
  sends (1 + MastodonExtractor.max_toots) (MastodonExtractor.run E i u).
Proof.
  unfold MastodonExtractor.run.
  apply (sends_bind 0); [apply sends_quiet; respects | intros ok].
  destruct (negb ok); [apply sends_quiet; respects |].
  do 4 (apply (sends_bind 0); [apply sends_quiet; respects | intros _]).
  apply (sends_bind 1 MastodonExtractor.max_toots).
  { unfold MastodonExtractor._search_account. repeat sends_step. }
  intros account. destruct (negb (truthy account)); [apply sends_quiet; respects |].
  apply (sends_bind 0); [apply sends_quiet; respects | intros account_id].
  apply (sends_bind MastodonExtractor.max_toots 0).
  { unfold MastodonExtractor._get_statuses.
    do 3 (apply (sends_bind 0); [apply sends_quiet; respects | intros _]).
    apply (sends_bind MastodonExtractor.max_toots 0).
    - exact (sends_masto_statuses_loop E _ ([], _, _)).
    - intros statuses. apply sends_quiet. respects. }
  intros statuses. apply sends_quiet. respects.
Qed.

(** The clients that select nothing at the keyboard stay within their
    budget of requests whatever the servers answer: a run keeps the requests
    sent before it and adds at most three for GitHub and for Reddit, one for
    Medium, none for Telegram, 201 for Mastodon and 204 for Bluesky. *)
Theorem run_stays_within_request_budget E x username w r w' n :
  request_budget x = Some n ->
  ExtractorOrchestrator.run E x username w = (r, w') ->
  exists l, requests w' = requests w ++ l /\ length l <= n.
Proof.
  intros Hn H.
  destruct x; cbn [request_budget ExtractorOrchestrator.run] in *;
    inversion Hn; subst.
  - by apply sends_github_run in H.
  - by apply sends_bsky_run in H.
  - by apply sends_masto_run in H.
  - by apply sends_reddit_run in H.
  - by apply sends_medium_run in H.
  - by apply sends_tg_run in H.
Qed.

Lemma run_stays_within_request_budget_witness :
  exists l,
    requests (snd (ExtractorOrchestrator.run odd_env ExtractorOrchestrator.Reddit
                     "ghost" empty_world))
    = requests empty_world ++ l /\ length l <= 3.
Proof.
  apply (run_stays_within_request_budget odd_env ExtractorOrchestrator.Reddit "ghost"
           empty_world
           (fst (ExtractorOrchestrator.run odd_env ExtractorOrchestrator.Reddit
                   "ghost" empty_world))
           (snd (ExtractorOrchestrator.run odd_env ExtractorOrchestrator.Reddit
                   "ghost" empty_world)) 3).
  - reflexivity.
  - apply surjective_pairing.
Defined.
